(** * fg-dynamic-component: a shallow embedding of the dynamic component glue

    The repository ships one Angular component, [FGDynamicComponent], and a
    static registry, [FGDynamicService].  Three revisions of the same source
    file are present:

    - [projects/fg-dynamic-component/src/lib/fg-dynamic.component.ts], where
      the bound model path is the [modelProperty] field of the configuration
      (module [ByModelProperty] below);
    - the documented revision, where the path is the [name] attribute and the
      component listens to its own control (module [ByNameAttribute]);
    - a revision between the two, where the path is the [name] attribute as
      written and the component listens to the form group (module
      [ByWrittenName]).

    JavaScript values are embedded as a tree of primitives and objects,
    objects being finite maps from property names to values; framework
    objects (form controls, form groups, component references) are records
    holding the part of their state the component reads or writes.

    Left out of the embedding: inherited properties of objects, the [length]
    of arrays, numbers that are not integers, what an evaluated expression
    may do besides returning a value, change detection, the destruction of
    the component, and calls of [ngOnChanges()] that overlap while a promise
    is pending. *)

From Stdlib Require Import ZArith Ascii.
From stdpp Require Import gmap strings list fin_maps pretty.

Set Warnings "-register-all".
Open Scope string_scope.

(** ** JavaScript values *)

Module JS.

(** What kind of object a value is: [instanceof RegExp], [instanceof Function]
    and [structuredClone] distinguish them. *)
Inductive obj_class : Type :=
  | Plain
  | RegExpObj (source : string)
  | FunctionObj (id : positive).

(** Values: the primitives, and objects with their own data properties.
    Numbers are integers; getters, prototypes and array [length] bookkeeping
    are outside the embedding (an array is the object of its index keys). *)
Inductive value : Type :=
  | VUndefined
  | VNull
  | VBool (b : bool)
  | VNum (n : Z)
  | VStr (s : string)
  | VObj (cls : obj_class) (props : gmap string value).

(** Exceptions the embedded code can raise. *)
Inductive error : Type :=
  | TypeError
  | DataCloneError
  | Rejection (reason : value).

Inductive result (A : Type) : Type :=
  | Ok (a : A)
  | Throw (e : error).
Arguments Ok {A} a.
Arguments Throw {A} e.

Definition rbind {A B} (r : result A) (k : A → result B) : result B :=
  match r with
  | Ok a => k a
  | Throw e => Throw e
  end.

Notation "'try' x := r 'in' k" := (rbind r (λ x, k))
  (at level 10, x name, r at level 100, k at level 200).

(** [ToBoolean]. *)
Definition truthy (v : value) : bool :=
  match v with
  | VUndefined | VNull => false
  | VBool b => b
  | VNum n => negb (n =? 0)%Z
  | VStr s => negb (String.eqb s "")
  | VObj _ _ => true
  end.

(** [v == null]: true of [null] and [undefined] only. *)
Definition nullish (v : value) : bool :=
  match v with
  | VUndefined | VNull => true
  | _ => false
  end.

(** [v === undefined]. *)
Definition is_undefined (v : value) : bool :=
  match v with
  | VUndefined => true
  | _ => false
  end.

(** [typeof v === 'string'], ['number'], ['boolean']. *)
Definition is_string (v : value) : bool :=
  match v with VStr _ => true | _ => false end.
Definition is_number (v : value) : bool :=
  match v with VNum _ => true | _ => false end.
Definition is_boolean (v : value) : bool :=
  match v with VBool _ => true | _ => false end.

(** [v instanceof RegExp], [v instanceof Function]. *)
Definition is_regexp (v : value) : bool :=
  match v with VObj (RegExpObj _) _ => true | _ => false end.
Definition is_function (v : value) : bool :=
  match v with VObj (FunctionObj _) _ => true | _ => false end.

(** Characters of a string read by a canonical index key: ["abc"]["1"]. *)
Fixpoint char_at (s : string) (i : nat) (key : string) : value :=
  match s with
  | EmptyString => VUndefined
  | String c s' =>
      if String.eqb (pretty i) key then VStr (String c EmptyString)
      else char_at s' (S i) key
  end.

(** [o[key]] for a receiver that is neither [null] nor [undefined]: own
    properties of objects, indices and [length] of strings, [undefined] on
    the other primitives. *)
Definition member (o : value) (key : string) : value :=
  match o with
  | VObj _ props => default VUndefined (props !! key)
  | VStr s =>
      if String.eqb key "length" then VNum (Z.of_nat (String.length s))
      else char_at s 0 key
  | _ => VUndefined
  end.

(** [o[key]] in general: reading a property of [null] or [undefined] throws. *)
Definition prop_read (o : value) (key : string) : result value :=
  if nullish o then Throw TypeError else Ok (member o key).

(** [o[key] = v] in strict mode (class bodies are strict): objects take the
    property, every other receiver throws a [TypeError].  The updated
    receiver is returned. *)
Definition prop_write (o : value) (key : string) (v : value) : result value :=
  match o with
  | VObj cls props => Ok (VObj cls (<[key := v]> props))
  | _ => Throw TypeError
  end.

(** [s.includes(needle)]. *)
Fixpoint includes (needle s : string) : bool :=
  String.prefix needle s ||
  match s with
  | EmptyString => false
  | String _ s' => includes needle s'
  end.

(** [String(v)], as the DOM applies it to attribute values. *)
Definition to_string (v : value) : string :=
  match v with
  | VUndefined => "undefined"
  | VNull => "null"
  | VBool true => "true"
  | VBool false => "false"
  | VNum n => pretty n
  | VStr s => s
  | VObj Plain _ => "[object Object]"
  | VObj (RegExpObj src) _ => "/" ++ src ++ "/"
  | VObj (FunctionObj _) _ => "function"
  end.

(** [v > 0] with the operand converted by [ToNumber]; a string counts when it
    is a decimal numeral, the only numerals the integer embedding has. *)
Definition digit (c : Ascii.ascii) : bool :=
  let n := Ascii.nat_of_ascii c in (48 <=? n)%nat && (n <=? 57)%nat.

Fixpoint all_digits (s : string) : bool :=
  match s with
  | EmptyString => true
  | String c s' => digit c && all_digits s'
  end.

Fixpoint all_zero (s : string) : bool :=
  match s with
  | EmptyString => true
  | String c s' => Ascii.eqb c "0"%char && all_zero s'
  end.

Definition gt_zero (v : value) : bool :=
  match v with
  | VNum n => (0 <? n)%Z
  | VBool b => b
  | VStr s => all_digits s && negb (all_zero s)
  | _ => false
  end.

(** [structuredClone]: functions cannot be cloned; a plain object is rebuilt
    property by property; a regular expression is rebuilt from its source. *)
Fixpoint cloneable (v : value) : bool :=
  match v with
  | VObj (FunctionObj _) _ => false
  | VObj Plain props => map_fold (λ _ x acc, cloneable x && acc) true props
  | _ => true
  end.

Fixpoint copy (v : value) : value :=
  match v with
  | VObj Plain props => VObj Plain (copy <$> props)
  | VObj (RegExpObj src) _ => VObj (RegExpObj src) ∅
  | _ => v
  end.

Definition structuredClone (v : value) : result value :=
  if cloneable v then Ok (copy v) else Throw DataCloneError.

(** The object literal [{}]. *)
Definition empty_object : value := VObj Plain ∅.

End JS.
Import JS.

(** ** FGDynamicService: the static component registry *)

Module FGDynamicService.

Section Registry.
(** What the registry stores: a component class in the first revision, a
    class or a promise of one in the later ones.  [_components] is a record
    used as a map from names to entries, [gmap string T] here. *)
Context {T : Type}.


(** [registerComponent(name, type)]: [type] is [None] when [null] or
    [undefined] is passed; classes and promises are objects, so a present
    [type] is truthy. *)
Definition registerComponent (name : string) (type : option T)
    (reg : gmap string T) : gmap string T :=
  match type with
  | Some t => if negb (String.eqb name "") then <[name := t]> reg else reg
  | None => reg
  end.

(** [getComponentByName(name)] of the first revision, [None] standing for
    [undefined]. *)
Definition getComponentByName (name : string) (reg : gmap string T)
    : option T :=
  reg !! name.

(** [getComponent(name)] of the later revisions: the same lookup. *)
Definition getComponent (name : string) (reg : gmap string T) : option T :=
  reg !! name.
End Registry.

End FGDynamicService.

(** ** Path-based access to the view model *)

Module ModelPath.

(** The [property] argument: [Array<string> | string]. *)
Inductive property : Type :=
  | PStr (s : string)
  | PArr (keys : list string).

(** [!property]: only the empty string is falsy. *)
Definition falsy (p : property) : bool :=
  match p with
  | PStr s => String.eqb s ""
  | PArr _ => false
  end.

(** The characters excluded by the class [[^[.\]]]. *)
Definition delimiter (c : Ascii.ascii) : bool :=
  Ascii.eqb c "["%char || Ascii.eqb c "."%char || Ascii.eqb c "]"%char.

(** The maximal runs of non-delimiters of [s], left to right; [cur] is the
    run being read. *)
Fixpoint runs (s : string) (cur : string) : list string :=
  match s with
  | EmptyString => if String.eqb cur "" then [] else [cur]
  | String c s' =>
      if delimiter c then
        if String.eqb cur "" then runs s' "" else cur :: runs s' ""
      else runs s' (cur ++ String c EmptyString)
  end.

(** [s.match(/([^[.\]])+/g)]: the runs, or [null] ([None]) when there is
    none. *)
Definition regex_match (s : string) : option (list string) :=
  match runs s "" with
  | [] => None
  | l => Some l
  end.

(** [Array.isArray(property) ? property : property.match(...)]. *)
Definition pathArray (p : property) : option (list string) :=
  match p with
  | PArr keys => Some keys
  | PStr s => regex_match s
  end.

(** The reducer of [getModelPropertyValue]: [prevObj && prevObj[key]].  A
    truthy [prevObj] is neither [null] nor [undefined], so the read cannot
    throw. *)
Definition step (prevObj : value) (key : string) : value :=
  if truthy prevObj then member prevObj key else prevObj.

(** [pathArray.reduce(step, model)]. *)
Definition walk (model : value) (path : list string) : value :=
  fold_left step path model.

(** [getModelPropertyValue(model, property, defaultValue)]; calling [reduce]
    on the [null] of a failed match throws. *)
Definition getModelPropertyValue (model : value) (p : property)
    (defaultValue : value) : result value :=
  if falsy p then Ok VUndefined
  else
    match pathArray p with
    | None => Throw TypeError
    | Some path =>
        let r := walk model path in
        Ok (if negb (nullish r) then r else defaultValue)
    end.

(** The reducer of [setModelPropertyValue], run from segment [key] on with
    [rest] the segments after it; [rest = []] is the test
    [i === pathArray.length - 1].  The accumulator returned by one round,
    [acc[key]], is the same object as the property it was read from, so what
    the later rounds write into it is written back into [acc]. *)
Fixpoint assign (acc : value) (path : list string) (v : value) : result value :=
  match path with
  | [] => Ok acc
  | key :: rest =>
      try cur := prop_read acc key in
      try acc1 :=
        (if is_undefined cur then prop_write acc key empty_object else Ok acc) in
      match rest with
      | [] => prop_write acc1 key v
      | _ :: _ =>
          try child := prop_read acc1 key in
          try child' := assign child rest v in
          prop_write acc1 key child'
      end
  end.

(** [setModelPropertyValue(model, property, value)]: the model after the
    in-place update. *)
Definition setModelPropertyValue (model : value) (p : property) (v : value)
    : result value :=
  match pathArray p with
  | None => Throw TypeError
  | Some path => assign model path v
  end.

End ModelPath.
Import ModelPath.

(** ** The framework objects the component drives *)

Module Framework.

(** A component class, as far as the glue looks at it: its identity and the
    names of its properties that hold an [EventEmitter]. *)
Record ctype : Type := {
  ct_id : positive;
  ct_emitters : list string
}.

(** A promise, by the way it settles. *)
Inductive promise (T : Type) : Type :=
  | Fulfilled (t : T)
  | Rejected (reason : value).
Arguments Fulfilled {T} t.
Arguments Rejected {T} reason.

(** [Type<unknown> | Promise<Type<unknown>>]. *)
Inductive awaitable : Type :=
  | Class (c : ctype)
  | Promise (p : promise ctype).

(** [await a]: a class is its own result, a fulfilled promise gives its
    value, a rejected one throws its reason. *)
Definition await (a : awaitable) : result ctype :=
  match a with
  | Class c => Ok c
  | Promise (Fulfilled c) => Ok c
  | Promise (Rejected reason) => Throw (Rejection reason)
  end.

(** The [type] field: [string | Type<unknown> | Promise<Type<unknown>>]. *)
Inductive type_ref : Type :=
  | TypeName (name : string)
  | TypeRef (a : awaitable).

(** The members of [Validators] the component uses, applied to their
    argument. *)
Inductive validator : Type :=
  | Vmin (n : value)
  | Vmax (n : value)
  | Vrequired
  | Vemail
  | VmaxLength (n : value)
  | VminLength (n : value)
  | Vpattern (p : value).

(** A [FormControl]: value, synchronous validators, disabled status. *)
Record FormControl : Type := {
  fc_value : value;
  fc_validators : list validator;
  fc_disabled : bool
}.

(** [new FormControl(v)]. *)
Definition newFormControl (v : value) : FormControl :=
  {| fc_value := v; fc_validators := []; fc_disabled := false |}.

Definition clearValidators (c : FormControl) : FormControl :=
  {| fc_value := fc_value c; fc_validators := []; fc_disabled := fc_disabled c |}.

Definition addValidators (vs : list validator) (c : FormControl) : FormControl :=
  {| fc_value := fc_value c;
     fc_validators := fc_validators c ++ vs;
     fc_disabled := fc_disabled c |}.

Definition setDisabled (b : bool) (c : FormControl) : FormControl :=
  {| fc_value := fc_value c;
     fc_validators := fc_validators c;
     fc_disabled := b |}.

Definition setValue (v : value) (c : FormControl) : FormControl :=
  {| fc_value := v;
     fc_validators := fc_validators c;
     fc_disabled := fc_disabled c |}.

(** Form controls are shared between the component and the form group, so
    they live in a store and are named by their address; a [FormGroup] maps
    control names to addresses. *)
Abbreviation control_store := (gmap positive FormControl).
Abbreviation FormGroup := (gmap string positive).
Abbreviation group_store := (gmap positive (gmap string positive)).

(** [group.addControl(name, control)]: a control already registered under
    the name is kept, the new one is not put in its place. *)
Definition addControl (name : string) (control : positive) (g : FormGroup)
    : FormGroup :=
  match g !! name with
  | Some _ => g
  | None => <[name := control]> g
  end.

(** [group.getRawValue()]: the object of the controls' values by name. *)
Definition getRawValue (cs : control_store) (g : FormGroup) : value :=
  VObj Plain
    (omap (λ a, c ← cs !! a; Some (fc_value c)) g).

(** The objects outside the component that it reads and writes: the
    [viewModel] signal, the form controls and groups, and whether the host
    element [<fg-dynamic>] is still attached to a parent. *)
Record world : Type := {
  viewModel : value;
  controls : gmap positive FormControl;
  groups : gmap positive (gmap string positive);
  hostAttached : bool
}.

Definition set_viewModel (v : value) (w : world) : world :=
  {| viewModel := v; controls := controls w; groups := groups w;
     hostAttached := hostAttached w |}.
Definition set_controls (cs : gmap positive FormControl) (w : world) : world :=
  {| viewModel := viewModel w; controls := cs; groups := groups w;
     hostAttached := hostAttached w |}.
Definition set_groups (gs : gmap positive (gmap string positive)) (w : world)
    : world :=
  {| viewModel := viewModel w; controls := controls w; groups := gs;
     hostAttached := hostAttached w |}.
Definition set_hostAttached (b : bool) (w : world) : world :=
  {| viewModel := viewModel w; controls := controls w; groups := groups w;
     hostAttached := b |}.

(** A [ComponentRef]: the class instantiated, the projected nodes, whether
    its injector provides an [NgControl], and what has been set on the
    instance and its element since. *)
Record ComponentRef : Type := {
  cr_type : ctype;
  cr_projected : list positive;
  cr_ngControl : bool;
  cr_inputs : gmap string value;
  cr_attributes : gmap string string;
  cr_display : option string
}.

(** [ref.setInput(name, v)]. *)
Definition setInput (name : string) (v : value) (r : ComponentRef)
    : ComponentRef :=
  {| cr_type := cr_type r; cr_projected := cr_projected r;
     cr_ngControl := cr_ngControl r;
     cr_inputs := <[name := v]> (cr_inputs r);
     cr_attributes := cr_attributes r; cr_display := cr_display r |}.

(** [renderer.setAttribute(el, name, v)]: the DOM stores the string. *)
Definition setAttribute (name : string) (v : value) (r : ComponentRef)
    : ComponentRef :=
  {| cr_type := cr_type r; cr_projected := cr_projected r;
     cr_ngControl := cr_ngControl r;
     cr_inputs := cr_inputs r;
     cr_attributes := <[name := to_string v]> (cr_attributes r);
     cr_display := cr_display r |}.

(** [el.getAttribute(name)], [None] standing for [null]. *)
Definition getAttribute (name : string) (r : ComponentRef) : option string :=
  cr_attributes r !! name.

(** [renderer.setStyle(el, 'display', d)] and
    [renderer.removeStyle(el, 'display')]. *)
Definition setDisplay (d : option string) (r : ComponentRef) : ComponentRef :=
  {| cr_type := cr_type r; cr_projected := cr_projected r;
     cr_ngControl := cr_ngControl r;
     cr_inputs := cr_inputs r; cr_attributes := cr_attributes r;
     cr_display := d |}.

(** [for (const key in rec) { ... }] over the keys of a record, the body
    acting on the component reference. *)
Definition for_in (body : string → value → ComponentRef → ComponentRef)
    (rec : gmap string value) (ref : ComponentRef) : ComponentRef :=
  map_fold body ref rec.

(** A subscription to an output of the created instance. *)
Record Subscription : Type := {
  sub_output : string;
  sub_closed : bool
}.

Definition unsubscribe (s : Subscription) : Subscription :=
  {| sub_output := sub_output s; sub_closed := true |}.

(** A [FormControlDirective], with the control it synchronises. *)
Record FormControlDirective : Type := {
  fcd_form : option positive
}.

(** [eval]: the engine's evaluation of a code string in a scope where [$vm]
    is the view-model signal ([None] when no signal is in scope), and
    [$event] the event.  Evaluation is taken to be a function of these. *)
Definition evaluator : Type := string → option value → value → value.

End Framework.
Import Framework.

(** ** The component, first revision: the path is [modelProperty] *)

Module ByModelProperty.

(** [FGDynamicItem]; an absent optional field of type [string | number |
    boolean | RegExp] is [VUndefined], the other absent fields are [None]. *)
Inductive FGDynamicItem : Type := mkItem {
  type : option type_ref;
  inputs : option (gmap string value);
  outputs : option (gmap string value);
  attributes : option (gmap string value);
  hidden : value;
  disabled : value;
  modelProperty : option string;
  min : value;
  max : value;
  required : value;
  email : value;
  minLength : value;
  maxLength : value;
  pattern : value;
  items : list FGDynamicItem
}.

(** What the component reads and does not own: its inputs [configuration]
    and [formGroup], its view queries, and the static registry. *)
Record env : Type := {
  configuration : FGDynamicItem;
  formGroup : option positive;
  _viewContainerRef : bool;
  _dynamicItems : list positive;
  _components : gmap string ctype
}.

(** The private fields, and the views its container holds. *)
Record instance : Type := {
  _componentRef : option ComponentRef;
  _outputsSubscriptions : list Subscription;
  _formControl : option positive;
  _formControlDirective : option FormControlDirective;
  _formGroupSubscription : option positive;
  _component : option ctype;
  container : list ctype
}.

Record state : Type := {
  shared : world;
  self : instance
}.

Definition initial : instance :=
  {| _componentRef := None; _outputsSubscriptions := [];
     _formControl := None; _formControlDirective := None;
     _formGroupSubscription := None; _component := None; container := [] |}.

Definition set_componentRef (r : option ComponentRef) (i : instance) : instance :=
  {| _componentRef := r;
     _outputsSubscriptions := _outputsSubscriptions i;
     _formControl := _formControl i;
     _formControlDirective := _formControlDirective i;
     _formGroupSubscription := _formGroupSubscription i;
     _component := _component i; container := container i |}.
Definition set_outputsSubscriptions (l : list Subscription) (i : instance)
    : instance :=
  {| _componentRef := _componentRef i;
     _outputsSubscriptions := l;
     _formControl := _formControl i;
     _formControlDirective := _formControlDirective i;
     _formGroupSubscription := _formGroupSubscription i;
     _component := _component i; container := container i |}.
Definition set_formControl (c : option positive) (i : instance) : instance :=
  {| _componentRef := _componentRef i;
     _outputsSubscriptions := _outputsSubscriptions i;
     _formControl := c;
     _formControlDirective := _formControlDirective i;
     _formGroupSubscription := _formGroupSubscription i;
     _component := _component i; container := container i |}.
Definition set_formControlDirective (d : option FormControlDirective)
    (i : instance) : instance :=
  {| _componentRef := _componentRef i;
     _outputsSubscriptions := _outputsSubscriptions i;
     _formControl := _formControl i;
     _formControlDirective := d;
     _formGroupSubscription := _formGroupSubscription i;
     _component := _component i; container := container i |}.
Definition set_formGroupSubscription (g : option positive) (i : instance)
    : instance :=
  {| _componentRef := _componentRef i;
     _outputsSubscriptions := _outputsSubscriptions i;
     _formControl := _formControl i;
     _formControlDirective := _formControlDirective i;
     _formGroupSubscription := g;
     _component := _component i; container := container i |}.
Definition set_component (c : option ctype) (i : instance) : instance :=
  {| _componentRef := _componentRef i;
     _outputsSubscriptions := _outputsSubscriptions i;
     _formControl := _formControl i;
     _formControlDirective := _formControlDirective i;
     _formGroupSubscription := _formGroupSubscription i;
     _component := c; container := container i |}.
Definition set_container (l : list ctype) (i : instance) : instance :=
  {| _componentRef := _componentRef i;
     _outputsSubscriptions := _outputsSubscriptions i;
     _formControl := _formControl i;
     _formControlDirective := _formControlDirective i;
     _formGroupSubscription := _formGroupSubscription i;
     _component := _component i; container := l |}.

Definition on_self (f : instance → instance) (st : state) : state :=
  {| shared := shared st; self := f (self st) |}.
Definition on_shared (f : world → world) (st : state) : state :=
  {| shared := f (shared st); self := self st |}.

Section Component.
Variable js_eval : evaluator.

(** [evaluateExpression(value, $vm, $event)]; [vm] is the value the signal
    [$vm] holds (every call passes [this.viewModel]), an omitted [$event]
    is [VUndefined]. *)
Definition invokesEval (v vm event : value) : bool :=
  match v with
  | VStr s =>
      (includes "$vm" s && negb (nullish vm))
      || (includes "$event" s && negb (nullish event))
  | _ => false
  end.

Definition evaluateExpression (v vm event : value) : value :=
  match v with
  | VStr s => if invokesEval v vm event then js_eval s (Some vm) event else v
  | _ => v
  end.

Section Methods.
Variable e : env.

(** [loadComponentAsync()]: nothing is stored when the awaited promise
    rejects. *)
Definition loadComponentAsync (st : state) : result state :=
  match type (configuration e), _component (self st) with
  | Some (TypeName name), None =>
      Ok (on_self
            (set_component
               (FGDynamicService.getComponentByName name (_components e)))
            st)
  | Some (TypeRef a), None =>
      try c := await a in Ok (on_self (set_component (Some c)) st)
  | _, _ => Ok st
  end.

(** [removeHostElement()]: the children of the host move to its parent
    and the host is removed, when it has a parent. *)
Definition removeHostElement (st : state) : state :=
  if hostAttached (shared st)
  then on_shared (set_hostAttached false) st
  else st.

(** [handleOutputs()]: the earlier subscriptions are closed, and every
    configured output that is an [EventEmitter] of the instance gets a
    subscription. *)
Definition handleOutputs (st : state) : state :=
  let closed := unsubscribe <$> _outputsSubscriptions (self st) in
  match outputs (configuration e), _componentRef (self st) with
  | Some outs, Some ref =>
      let names :=
        filter (λ n, n ∈ ct_emitters (cr_type ref)) (map_to_list outs).*1 in
      on_self
        (set_outputsSubscriptions
           (closed ++
            ((λ n, {| sub_output := n; sub_closed := false |}) <$> names)))
        st
  | _, _ => on_self (set_outputsSubscriptions closed) st
  end.

(** The handler [handleOutputs()] subscribes to an output: the configured
    expression is evaluated with the event, and when the result is a
    function it is called with the event ([Some] of the function). *)
Definition onOutput (outputName : string) (event : value) (st : state)
    : option value :=
  let result :=
    evaluateExpression
      (default VUndefined (outputs (configuration e) ≫= (.!! outputName)))
      (viewModel (shared st)) event in
  if is_function result then Some result else None.

(** [attachFormControlDirective()]. *)
Definition attachFormControlDirective (st : state) : state :=
  match _formControlDirective (self st), _componentRef (self st) with
  | None, Some _ =>
      on_self
        (set_formControlDirective
           (Some {| fcd_form := _formControl (self st) |}))
        st
  | _, _ => st
  end.

(** [configuration()?.modelProperty], when truthy. *)
Definition boundProperty : option string :=
  match modelProperty (configuration e) with
  | Some p => if String.eqb p "" then None else Some p
  | None => None
  end.

(** [createFormControl()]: the state reached, and the exception when the
    initial value cannot be read. *)
Definition createFormControl (st : state) : state * result unit :=
  match formGroup e, boundProperty with
  | Some g, Some p =>
      if truthy (viewModel (shared st)) then
        match getModelPropertyValue (viewModel (shared st)) (PStr p) VNull with
        | Throw err => (st, Throw err)
        | Ok init =>
            let a := fresh (dom (controls (shared st))) in
            let st1 :=
              on_shared
                (set_controls (<[a := newFormControl init]> (controls (shared st))))
                (on_self (set_formControl (Some a)) st) in
            let st2 :=
              on_shared
                (set_groups
                   (<[g := addControl p a (default ∅ (groups (shared st1) !! g))]>
                      (groups (shared st1))))
                st1 in
            let st3 := on_self (set_formGroupSubscription (Some g)) st2 in
            (attachFormControlDirective st3, Ok ())
        end
      else (st, Ok ())
  | _, _ => (st, Ok ())
  end.

(** The subscriber of [formGroup().valueChanges] installed by
    [createFormControl]. *)
Definition onFormGroupValueChanges (st : state) : result state :=
  match formGroup e with
  | None => Throw TypeError
  | Some g =>
      let model :=
        getRawValue (controls (shared st))
          (default ∅ (groups (shared st) !! g)) in
      if truthy model then
        match modelProperty (configuration e) with
        | None =>
            try vm := structuredClone (viewModel (shared st)) in
            Throw TypeError
        | Some p =>
            try v := getModelPropertyValue model (PStr p) VNull in
            try vm := structuredClone (viewModel (shared st)) in
            try vm' := setModelPropertyValue vm (PStr p) v in
            Ok (on_shared (set_viewModel vm') st)
        end
      else Ok st
  end.

(** [createComponent()]. *)
Definition createComponent (st : state) : state * result unit :=
  match _component (self st), _componentRef (self st) with
  | Some c, None =>
      if _viewContainerRef e then
        let ref :=
          {| cr_type := c; cr_projected := _dynamicItems e;
             cr_ngControl := false; cr_inputs := ∅;
             cr_attributes := ∅; cr_display := None |} in
        let st1 :=
          on_self
            (λ i, set_container (container i ++ [c])
                    (set_componentRef (Some ref) i))
            st in
        createFormControl (handleOutputs (removeHostElement st1))
      else (st, Ok ())
  | _, _ => (st, Ok ())
  end.

(** [setInputs()]. *)
Definition setInputs (st : state) : state :=
  match inputs (configuration e), _componentRef (self st) with
  | Some ins, Some ref =>
      on_self
        (set_componentRef
           (Some
              (for_in
                 (λ inputName v,
                    setInput inputName
                      (evaluateExpression v (viewModel (shared st)) VUndefined))
                 ins ref)))
        st
  | _, _ => st
  end.

(** [setAttributes()]. *)
Definition setAttributes (st : state) : state :=
  match attributes (configuration e), _componentRef (self st) with
  | Some attrs, Some ref =>
      on_self
        (set_componentRef
           (Some
              (for_in
                 (λ attributeName v,
                    setAttribute attributeName
                      (evaluateExpression v (viewModel (shared st)) VUndefined))
                 attrs ref)))
        st
  | _, _ => st
  end.

(** [setVisibility()]. *)
Definition setVisibility (st : state) : state :=
  match _componentRef (self st) with
  | Some ref =>
      if negb (nullish (hidden (configuration e))) then
        let isHidden :=
          evaluateExpression (hidden (configuration e))
            (viewModel (shared st)) VUndefined in
        on_self
          (set_componentRef
             (Some (setDisplay
                      (if truthy isHidden then Some "none" else None) ref)))
          st
      else st
  | None => st
  end.

(** [setFormControlStatus()]. *)
Definition setFormControlStatus (st : state) : state :=
  match _formControl (self st) with
  | Some a =>
      if negb (nullish (disabled (configuration e))) then
        let isDisabled :=
          evaluateExpression (disabled (configuration e))
            (viewModel (shared st)) VUndefined in
        on_shared
          (set_controls
             (alter (setDisabled (truthy isDisabled)) a (controls (shared st))))
          st
      else st
  | None => st
  end.

(** The list [validators] built by [setFormControlValidators()]; the last
    entry evaluates the [minLength] field, as the source does. *)
Definition validators (vm : value) : list validator :=
  let ev (x : value) := evaluateExpression x vm VUndefined in
  let cfg := configuration e in
  (if is_number (ev (min cfg)) then [Vmin (ev (min cfg))] else [])
  ++ (if is_number (ev (max cfg)) then [Vmax (ev (max cfg))] else [])
  ++ (match ev (required cfg) with VBool true => [Vrequired] | _ => [] end)
  ++ (match ev (email cfg) with VBool true => [Vemail] | _ => [] end)
  ++ (if gt_zero (ev (maxLength cfg)) then [VmaxLength (ev (maxLength cfg))] else [])
  ++ (if gt_zero (ev (minLength cfg)) then [VminLength (ev (minLength cfg))] else [])
  ++ (let pattern := ev (minLength cfg) in
      if is_string pattern || is_regexp pattern then [Vpattern pattern] else []).

(** [setFormControlValidators()]. *)
Definition setFormControlValidators (st : state) : state :=
  match _formControl (self st) with
  | Some a =>
      on_shared
        (set_controls
           (alter
              (λ c, addValidators (validators (viewModel (shared st)))
                      (clearValidators c))
              a (controls (shared st))))
        st
  | None => st
  end.

(** [ngOnChanges()]: the state reached, and the exception that rejected
    the returned promise, if any. *)
Definition ngOnChanges (st : state) : state * result unit :=
  match loadComponentAsync st with
  | Throw err => (st, Throw err)
  | Ok st1 =>
      match createComponent st1 with
      | (st2, Throw err) => (st2, Throw err)
      | (st2, Ok _) =>
          (setFormControlValidators
             (setFormControlStatus
                (setVisibility (setAttributes (setInputs st2)))),
           Ok ())
      end
  end.
End Methods.
End Component.

(** *** The life of one component instance

    Between its creation and its destruction the framework calls
    [ngOnChanges()] with the inputs of the moment, and the rest of the
    application changes the shared objects.  Calls are taken one after the
    other, each running to its end, with the awaited promise settled. *)
Inductive event : Type :=
  | Changes (e : env)
  | Outside (f : world → world).

Definition react (js_eval : evaluator) (st : state) (ev : event) : state :=
  match ev with
  | Changes e => (ngOnChanges js_eval e st).1
  | Outside f => on_shared f st
  end.

Definition run (js_eval : evaluator) (evs : list event) (st : state) : state :=
  fold_left (react js_eval) evs st.

(** A freshly constructed component in the world [w]. *)
Definition created_in (w : world) : state := {| shared := w; self := initial |}.

(** [st'] differs from [st] at most by what has been set on the created
    instance and its element (inputs, attributes, display style) and by the
    status and validators of the component's own form control. *)
Definition reapplies (st st' : state) : Prop :=
  viewModel (shared st') = viewModel (shared st)
  ∧ groups (shared st') = groups (shared st)
  ∧ hostAttached (shared st') = hostAttached (shared st)
  ∧ (∀ a, _formControl (self st) ≠ Some a →
          controls (shared st') !! a = controls (shared st) !! a)
  ∧ (∀ a, fc_value <$> controls (shared st') !! a
          = fc_value <$> controls (shared st) !! a)
  ∧ _component (self st') = _component (self st)
  ∧ _outputsSubscriptions (self st') = _outputsSubscriptions (self st)
  ∧ _formControl (self st') = _formControl (self st)
  ∧ _formControlDirective (self st') = _formControlDirective (self st)
  ∧ _formGroupSubscription (self st') = _formGroupSubscription (self st)
  ∧ container (self st') = container (self st)
  ∧ cr_type <$> _componentRef (self st') = cr_type <$> _componentRef (self st)
  ∧ cr_projected <$> _componentRef (self st')
    = cr_projected <$> _componentRef (self st)
  ∧ cr_ngControl <$> _componentRef (self st')
    = cr_ngControl <$> _componentRef (self st).

(** The views of the container are those of the component reference, which
    is an instance of the stored class. *)
Definition consistent (st : state) : Prop :=
  match _componentRef (self st) with
  | Some ref =>
      _component (self st) = Some (cr_type ref)
      ∧ container (self st) = [cr_type ref]
  | None => container (self st) = []
  end.

(** [st'] has the stored class, the component reference and the views of
    [st]. *)
Definition same_view (st st' : state) : Prop :=
  _component (self st') = _component (self st)
  ∧ _componentRef (self st') = _componentRef (self st)
  ∧ container (self st') = container (self st).

End ByModelProperty.

(** ** The component, documented revision: the path is the [name] attribute *)

Module ByNameAttribute.

(** [FGDynamicItem]. *)
Inductive FGDynamicItem : Type := mkItem {
  type : option type_ref;
  inputs : option (gmap string value);
  outputs : option (gmap string value);
  attributes : option (gmap string value);
  items : list FGDynamicItem
}.

(** The registry of this revision stores classes and promises of classes. *)
Record env : Type := {
  configuration : FGDynamicItem;
  formGroup : option positive;
  _viewContainerRef : bool;
  _dynamicItems : list positive;
  _components : gmap string awaitable
}.

(** The subscription to [_formControl.valueChanges]; its handler closes over
    the evaluated [name]. *)
Record ControlSubscription : Type := {
  cs_control : positive;
  cs_name : string
}.

Record instance : Type := {
  _componentRef : option ComponentRef;
  _outputsSubscriptions : list Subscription;
  _formControl : option positive;
  _formControlDirective : option FormControlDirective;
  _formControlSubscription : option ControlSubscription;
  _component : option ctype;
  container : list ctype
}.

Record state : Type := {
  shared : world;
  self : instance
}.

Definition initial : instance :=
  {| _componentRef := None; _outputsSubscriptions := [];
     _formControl := None; _formControlDirective := None;
     _formControlSubscription := None; _component := None; container := [] |}.

Definition set_componentRef (r : option ComponentRef) (i : instance) : instance :=
  {| _componentRef := r;
     _outputsSubscriptions := _outputsSubscriptions i;
     _formControl := _formControl i;
     _formControlDirective := _formControlDirective i;
     _formControlSubscription := _formControlSubscription i;
     _component := _component i; container := container i |}.
Definition set_outputsSubscriptions (l : list Subscription) (i : instance)
    : instance :=
  {| _componentRef := _componentRef i;
     _outputsSubscriptions := l;
     _formControl := _formControl i;
     _formControlDirective := _formControlDirective i;
     _formControlSubscription := _formControlSubscription i;
     _component := _component i; container := container i |}.
Definition set_formControl (c : option positive) (i : instance) : instance :=
  {| _componentRef := _componentRef i;
     _outputsSubscriptions := _outputsSubscriptions i;
     _formControl := c;
     _formControlDirective := _formControlDirective i;
     _formControlSubscription := _formControlSubscription i;
     _component := _component i; container := container i |}.
Definition set_formControlDirective (d : option FormControlDirective)
    (i : instance) : instance :=
  {| _componentRef := _componentRef i;
     _outputsSubscriptions := _outputsSubscriptions i;
     _formControl := _formControl i;
     _formControlDirective := d;
     _formControlSubscription := _formControlSubscription i;
     _component := _component i; container := container i |}.
Definition set_formControlSubscription (s : option ControlSubscription)
    (i : instance) : instance :=
  {| _componentRef := _componentRef i;
     _outputsSubscriptions := _outputsSubscriptions i;
     _formControl := _formControl i;
     _formControlDirective := _formControlDirective i;
     _formControlSubscription := s;
     _component := _component i; container := container i |}.
Definition set_component (c : option ctype) (i : instance) : instance :=
  {| _componentRef := _componentRef i;
     _outputsSubscriptions := _outputsSubscriptions i;
     _formControl := _formControl i;
     _formControlDirective := _formControlDirective i;
     _formControlSubscription := _formControlSubscription i;
     _component := c; container := container i |}.
Definition set_container (l : list ctype) (i : instance) : instance :=
  {| _componentRef := _componentRef i;
     _outputsSubscriptions := _outputsSubscriptions i;
     _formControl := _formControl i;
     _formControlDirective := _formControlDirective i;
     _formControlSubscription := _formControlSubscription i;
     _component := _component i; container := l |}.

Definition on_self (f : instance → instance) (st : state) : state :=
  {| shared := shared st; self := f (self st) |}.
Definition on_shared (f : world → world) (st : state) : state :=
  {| shared := f (shared st); self := self st |}.

(** [value !== el.getAttribute(name)] fails only for a string equal to the
    attribute, and for [null] when the attribute is absent. *)
Definition same_as_attribute (v : value) (a : option string) : bool :=
  match v, a with
  | VStr s, Some t => String.eqb s t
  | VNull, None => true
  | _, _ => false
  end.

Section Component.
Variable js_eval : evaluator.

(** [evaluateExpression(value, $vm, $event)]; [vm] is [None] when no signal
    is passed, and the value the signal holds otherwise. *)
Definition invokesEval (v : value) (vm : option value) (event : value) : bool :=
  match v with
  | VStr s =>
      (includes "$vm" s
       && match vm with Some x => negb (nullish x) | None => false end)
      || (includes "$event" s && negb (nullish event))
  | _ => false
  end.

Definition evaluateExpression (v : value) (vm : option value) (event : value)
    : value :=
  match v with
  | VStr s => if invokesEval v vm event then js_eval s vm event else v
  | _ => v
  end.

Section Methods.
Variable e : env.

(** [configuration().attributes[key]]. *)
Definition attribute (attrs : gmap string value) (key : string) : value :=
  default VUndefined (attrs !! key).

(** [loadComponentAsync()]; awaiting the [undefined] of a failed lookup
    gives [undefined]. *)
Definition loadComponentAsync (st : state) : result state :=
  match type (configuration e), _component (self st) with
  | Some (TypeName name), None =>
      match FGDynamicService.getComponent name (_components e) with
      | Some a =>
          try c := await a in Ok (on_self (set_component (Some c)) st)
      | None => Ok (on_self (set_component None) st)
      end
  | Some (TypeRef a), None =>
      try c := await a in Ok (on_self (set_component (Some c)) st)
  | _, _ => Ok st
  end.

Definition removeHostElement (st : state) : state :=
  if hostAttached (shared st)
  then on_shared (set_hostAttached false) st
  else st.

(** [handleOutputs()]. *)
Definition handleOutputs (st : state) : state :=
  match outputs (configuration e), _componentRef (self st) with
  | Some outs, Some ref =>
      if (0 <? size outs)%nat then
        let names :=
          filter (λ n, n ∈ ct_emitters (cr_type ref)) (map_to_list outs).*1 in
        on_self
          (set_outputsSubscriptions
             (_outputsSubscriptions (self st) ++
              ((λ n, {| sub_output := n; sub_closed := false |}) <$> names)))
          st
      else st
  | _, _ => st
  end.

(** The handler [handleOutputs()] subscribes to an output: the configured
    expression is evaluated with the event, and when the result is a
    function it is called with the event ([Some] of the function). *)
Definition onOutput (outputName : string) (event : value) (st : state)
    : option value :=
  let result :=
    evaluateExpression
      (default VUndefined (outputs (configuration e) ≫= (.!! outputName)))
      (Some (viewModel (shared st))) event in
  if is_function result then Some result else None.

(** [attachFormControlDirective()]. *)
Definition attachFormControlDirective (st : state) : state :=
  match _formControlDirective (self st), _componentRef (self st),
        _formControl (self st) with
  | Some _, Some _, Some a =>
      on_self (set_formControlDirective (Some {| fcd_form := Some a |})) st
  | _, _, _ => st
  end.

(** [createFormControl()]. *)
Definition createFormControl (st : state) : state * result unit :=
  match formGroup e, attributes (configuration e) with
  | Some g, Some attrs =>
      if truthy (attribute attrs "name") && truthy (viewModel (shared st)) then
        match evaluateExpression (attribute attrs "name")
                (Some (viewModel (shared st))) VUndefined with
        | VStr name =>
            match getModelPropertyValue (viewModel (shared st)) (PStr name) VNull with
            | Throw err => (st, Throw err)
            | Ok init =>
                let a := fresh (dom (controls (shared st))) in
                let st1 :=
                  on_shared
                    (set_controls
                       (<[a := newFormControl init]> (controls (shared st))))
                    (on_self (set_formControl (Some a)) st) in
                let st2 :=
                  on_shared
                    (set_groups
                       (<[g := addControl name a
                                 (default ∅ (groups (shared st1) !! g))]>
                          (groups (shared st1))))
                    st1 in
                let st3 :=
                  on_self
                    (set_formControlSubscription
                       (Some {| cs_control := a; cs_name := name |}))
                    st2 in
                (attachFormControlDirective st3, Ok ())
            end
        | _ => (st, Ok ())
        end
      else (st, Ok ())
  | _, _ => (st, Ok ())
  end.

(** The subscriber of [_formControl.valueChanges] installed by
    [createFormControl], called with the control's new value. *)
Definition onValueChanges (name : string) (v : value) (st : state)
    : result state :=
  try vm := structuredClone (viewModel (shared st)) in
  try vm' := setModelPropertyValue vm (PStr name) v in
  Ok (on_shared (set_viewModel vm') st).

(** The test of [createComponent()] for binding an [NgControl]. *)
Definition bindsControl (st : state) : bool :=
  match formGroup e, attributes (configuration e) with
  | Some _, Some attrs =>
      truthy (attribute attrs "name")
      && is_string
           (evaluateExpression (attribute attrs "name")
              (Some (viewModel (shared st))) VUndefined)
      && truthy (viewModel (shared st))
  | _, _ => false
  end.

(** [createComponent()]. *)
Definition createComponent (st : state) : state * result unit :=
  match _component (self st), _componentRef (self st),
        _formControlDirective (self st) with
  | Some c, None, None =>
      if _viewContainerRef e then
        let bound := bindsControl st in
        let st0 :=
          if bound
          then on_self (set_formControlDirective (Some {| fcd_form := None |})) st
          else st in
        let ref :=
          {| cr_type := c; cr_projected := _dynamicItems e;
             cr_ngControl := bound; cr_inputs := ∅;
             cr_attributes := ∅; cr_display := None |} in
        let st1 :=
          on_self
            (λ i, set_container (container i ++ [c])
                    (set_componentRef (Some ref) i))
            st0 in
        createFormControl (handleOutputs (removeHostElement st1))
      else (st, Ok ())
  | _, _, _ => (st, Ok ())
  end.

(** [setInputs()]. *)
Definition setInputs (st : state) : state :=
  match inputs (configuration e), _componentRef (self st) with
  | Some ins, Some ref =>
      if (0 <? size ins)%nat then
        on_self
          (set_componentRef
             (Some
                (for_in
                   (λ inputName v,
                      setInput inputName
                        (evaluateExpression v
                           (Some (viewModel (shared st))) VUndefined))
                   ins ref)))
          st
      else st
  | _, _ => st
  end.

(** [setAttributes()]: an attribute is written when the evaluated value
    is not the one the element already has. *)
Definition setAttributes (st : state) : state :=
  match attributes (configuration e), _componentRef (self st) with
  | Some attrs, Some ref =>
      if (0 <? size attrs)%nat then
        on_self
          (set_componentRef
             (Some
                (for_in
                   (λ attributeName v r,
                      let x :=
                        evaluateExpression v
                          (Some (viewModel (shared st))) VUndefined in
                      if same_as_attribute x (getAttribute attributeName r)
                      then r else setAttribute attributeName x r)
                   attrs ref)))
          st
      else st
  | _, _ => st
  end.

(** [setFormControlStatus()]: the status changes when the evaluated
    [disabled] attribute is a boolean other than the present status. *)
Definition setFormControlStatus (st : state) : state :=
  match _formControl (self st), attributes (configuration e) with
  | Some a, Some attrs =>
      if negb (nullish (attribute attrs "disabled")) then
        match evaluateExpression (attribute attrs "disabled")
                (Some (viewModel (shared st))) VUndefined,
              controls (shared st) !! a with
        | VBool isDisabled, Some c =>
            if (isDisabled && negb (fc_disabled c))
               || (negb isDisabled && fc_disabled c)
            then
              on_shared
                (set_controls
                   (alter (setDisabled isDisabled) a (controls (shared st))))
                st
            else st
        | _, _ => st
        end
      else st
  | _, _ => st
  end.

(** [x.toString() !== el.getAttribute(key)]. *)
Definition differs (x : value) (key : string) (ref : ComponentRef) : bool :=
  negb (bool_decide (Some (to_string x) = getAttribute key ref)).

(** The list [validators] built by [setFormControlValidators()]. *)
Definition validators (vm : value) (attrs : gmap string value)
    (ref : ComponentRef) : list validator :=
  let ev (key : string) :=
    evaluateExpression (attribute attrs key) (Some vm) VUndefined in
  (if is_number (ev "min") && differs (ev "min") "min" ref
   then [Vmin (ev "min")] else [])
  ++ (if is_number (ev "max") && differs (ev "max") "max" ref
      then [Vmax (ev "max")] else [])
  ++ (match ev "required" with
      | VBool true => if differs (VBool true) "required" ref then [Vrequired] else []
      | _ => []
      end)
  ++ (match ev "email" with
      | VBool true => if differs (VBool true) "email" ref then [Vemail] else []
      | _ => []
      end)
  ++ (if gt_zero (ev "maxlength") && differs (ev "maxlength") "maxlength" ref
      then [VmaxLength (ev "maxlength")] else [])
  ++ (if gt_zero (ev "minlength") && differs (ev "minlength") "minlength" ref
      then [VminLength (ev "minlength")] else [])
  ++ (match ev "pattern" with
      | VStr p =>
          if negb (bool_decide (Some p = getAttribute "pattern" ref))
          then [Vpattern (VStr p)] else []
      | _ => []
      end).

(** [setFormControlValidators()]. *)
Definition setFormControlValidators (st : state) : state :=
  match _formControl (self st), attributes (configuration e),
        _componentRef (self st) with
  | Some a, Some attrs, Some ref =>
      if (0 <? size attrs)%nat then
        match validators (viewModel (shared st)) attrs ref with
        | [] => st
        | vs =>
            on_shared
              (set_controls
                 (alter (λ c, addValidators vs (clearValidators c))
                    a (controls (shared st))))
              st
        end
      else st
  | _, _, _ => st
  end.

(** [ngOnChanges()]. *)
Definition ngOnChanges (st : state) : state * result unit :=
  match loadComponentAsync st with
  | Throw err => (st, Throw err)
  | Ok st1 =>
      match createComponent st1 with
      | (st2, Throw err) => (st2, Throw err)
      | (st2, Ok _) =>
          (setAttributes
             (setFormControlValidators
                (setFormControlStatus (setInputs st2))),
           Ok ())
      end
  end.
End Methods.
End Component.

(** *** The life of one component instance

    Between its creation and its destruction the framework calls
    [ngOnChanges()] with the inputs of the moment, and the rest of the
    application changes the shared objects.  Calls are taken one after the
    other, each running to its end, with the awaited promise settled. *)
Inductive event : Type :=
  | Changes (e : env)
  | Outside (f : world → world).

Definition react (js_eval : evaluator) (st : state) (ev : event) : state :=
  match ev with
  | Changes e => (ngOnChanges js_eval e st).1
  | Outside f => on_shared f st
  end.

Definition run (js_eval : evaluator) (evs : list event) (st : state) : state :=
  fold_left (react js_eval) evs st.

(** A freshly constructed component in the world [w]. *)
Definition created_in (w : world) : state := {| shared := w; self := initial |}.

(** [st'] differs from [st] at most by what has been set on the created
    instance and its element (inputs, attributes, display style) and by the
    status and validators of the component's own form control. *)
Definition reapplies (st st' : state) : Prop :=
  viewModel (shared st') = viewModel (shared st)
  ∧ groups (shared st') = groups (shared st)
  ∧ hostAttached (shared st') = hostAttached (shared st)
  ∧ (∀ a, _formControl (self st) ≠ Some a →
          controls (shared st') !! a = controls (shared st) !! a)
  ∧ (∀ a, fc_value <$> controls (shared st') !! a
          = fc_value <$> controls (shared st) !! a)
  ∧ _component (self st') = _component (self st)
  ∧ _outputsSubscriptions (self st') = _outputsSubscriptions (self st)
  ∧ _formControl (self st') = _formControl (self st)
  ∧ _formControlDirective (self st') = _formControlDirective (self st)
  ∧ _formControlSubscription (self st') = _formControlSubscription (self st)
  ∧ container (self st') = container (self st)
  ∧ cr_type <$> _componentRef (self st') = cr_type <$> _componentRef (self st)
  ∧ cr_projected <$> _componentRef (self st')
    = cr_projected <$> _componentRef (self st)
  ∧ cr_ngControl <$> _componentRef (self st')
    = cr_ngControl <$> _componentRef (self st).

(** The views of the container are those of the component reference, which
    is an instance of the stored class. *)
Definition consistent (st : state) : Prop :=
  match _componentRef (self st) with
  | Some ref =>
      _component (self st) = Some (cr_type ref)
      ∧ container (self st) = [cr_type ref]
  | None => container (self st) = []
  end.

(** [st'] has the stored class, the component reference and the views of
    [st]. *)
Definition same_view (st st' : state) : Prop :=
  _component (self st') = _component (self st)
  ∧ _componentRef (self st') = _componentRef (self st)
  ∧ container (self st') = container (self st).

End ByNameAttribute.

(** ** The component, revision in between: the path is the [name] attribute
    as written *)

Module ByWrittenName.

(** The configuration and the registry are those of the documented
    revision, the private fields those of the first one. *)
Abbreviation env := ByNameAttribute.env.
Abbreviation state := ByModelProperty.state.

(** [name as string]: the cast changes nothing, and only a string has the
    [match] method the path functions call ([Array.isArray] is false of
    every value of the embedding). *)
Definition as_path (name : value) : option property :=
  match name with
  | VStr s => Some (PStr s)
  | _ => None
  end.

Section Component.
Variable js_eval : evaluator.

(** [evaluateExpression] is the one of the first revision. *)
Definition evaluateExpression : value → value → value → value :=
  ByModelProperty.evaluateExpression js_eval.

Section Methods.
Variable e : env.

(** [configuration().attributes[key]]. *)
Definition attribute (attrs : gmap string value) (key : string) : value :=
  default VUndefined (attrs !! key).

(** [loadComponentAsync()]. *)
Definition loadComponentAsync (st : state) : result state :=
  match ByNameAttribute.type (ByNameAttribute.configuration e),
        ByModelProperty._component (ByModelProperty.self st) with
  | Some (TypeName name), None =>
      match FGDynamicService.getComponent name (ByNameAttribute._components e) with
      | Some a =>
          try c := await a in
          Ok (ByModelProperty.on_self (ByModelProperty.set_component (Some c)) st)
      | None =>
          Ok (ByModelProperty.on_self (ByModelProperty.set_component None) st)
      end
  | Some (TypeRef a), None =>
      try c := await a in
      Ok (ByModelProperty.on_self (ByModelProperty.set_component (Some c)) st)
  | _, _ => Ok st
  end.

(** [removeHostElement()]. *)
Definition removeHostElement (st : state) : state :=
  if hostAttached (ByModelProperty.shared st)
  then ByModelProperty.on_shared (set_hostAttached false) st
  else st.

(** [handleOutputs()]: the earlier subscriptions are closed first. *)
Definition handleOutputs (st : state) : state :=
  let closed :=
    unsubscribe
      <$> ByModelProperty._outputsSubscriptions (ByModelProperty.self st) in
  match ByNameAttribute.outputs (ByNameAttribute.configuration e),
        ByModelProperty._componentRef (ByModelProperty.self st) with
  | Some outs, Some ref =>
      let names :=
        filter (λ n, n ∈ ct_emitters (cr_type ref)) (map_to_list outs).*1 in
      ByModelProperty.on_self
        (ByModelProperty.set_outputsSubscriptions
           (closed ++
            ((λ n, {| sub_output := n; sub_closed := false |}) <$> names)))
        st
  | _, _ =>
      ByModelProperty.on_self
        (ByModelProperty.set_outputsSubscriptions closed) st
  end.

(** [attachFormControlDirective()]. *)
Definition attachFormControlDirective (st : state) : state :=
  match ByModelProperty._formControlDirective (ByModelProperty.self st),
        ByModelProperty._componentRef (ByModelProperty.self st),
        ByModelProperty._formControl (ByModelProperty.self st) with
  | Some _, Some _, Some a =>
      ByModelProperty.on_self
        (ByModelProperty.set_formControlDirective (Some {| fcd_form := Some a |}))
        st
  | _, _, _ => st
  end.

(** The test shared by [createComponent()] and [createFormControl()]: a form
    group, a truthy [name] attribute and a truthy view model. *)
Definition bindsControl (st : state) : bool :=
  match ByNameAttribute.formGroup e,
        ByNameAttribute.attributes (ByNameAttribute.configuration e) with
  | Some _, Some attrs =>
      truthy (attribute attrs "name")
      && truthy (viewModel (ByModelProperty.shared st))
  | _, _ => false
  end.

(** [createFormControl()]: the initial value is read at the [name]
    attribute as written, which is not evaluated. *)
Definition createFormControl (st : state) : state * result unit :=
  match ByNameAttribute.formGroup e,
        ByNameAttribute.attributes (ByNameAttribute.configuration e) with
  | Some g, Some attrs =>
      if truthy (attribute attrs "name")
         && truthy (viewModel (ByModelProperty.shared st)) then
        match as_path (attribute attrs "name") with
        | None => (st, Throw TypeError)
        | Some p =>
            match getModelPropertyValue
                    (viewModel (ByModelProperty.shared st)) p VNull with
            | Throw err => (st, Throw err)
            | Ok init =>
                let name := to_string (attribute attrs "name") in
                let a := fresh (dom (controls (ByModelProperty.shared st))) in
                let st1 :=
                  ByModelProperty.on_shared
                    (set_controls
                       (<[a := newFormControl init]>
                          (controls (ByModelProperty.shared st))))
                    (ByModelProperty.on_self
                       (ByModelProperty.set_formControl (Some a)) st) in
                let st2 :=
                  ByModelProperty.on_shared
                    (set_groups
                       (<[g := addControl name a
                                 (default ∅
                                    (groups (ByModelProperty.shared st1) !! g))]>
                          (groups (ByModelProperty.shared st1))))
                    st1 in
                let st3 :=
                  ByModelProperty.on_self
                    (ByModelProperty.set_formGroupSubscription (Some g)) st2 in
                (attachFormControlDirective st3, Ok ())
            end
        end
      else (st, Ok ())
  | _, _ => (st, Ok ())
  end.

(** The subscriber of [formGroup().valueChanges] installed by
    [createFormControl]: the value is the group's raw value at the whole
    name, [model[name] ?? null]. *)
Definition onFormGroupValueChanges (st : state) : result state :=
  match ByNameAttribute.formGroup e with
  | None => Throw TypeError
  | Some g =>
      let model :=
        getRawValue (controls (ByModelProperty.shared st))
          (default ∅ (groups (ByModelProperty.shared st) !! g)) in
      if truthy model then
        match ByNameAttribute.attributes (ByNameAttribute.configuration e) with
        | None => Throw TypeError
        | Some attrs =>
            let name := attribute attrs "name" in
            let raw := member model (to_string name) in
            let v := if nullish raw then VNull else raw in
            try vm := structuredClone (viewModel (ByModelProperty.shared st)) in
            match as_path name with
            | None => Throw TypeError
            | Some p =>
                try vm' := setModelPropertyValue vm p v in
                Ok (ByModelProperty.on_shared (set_viewModel vm') st)
            end
        end
      else Ok st
  end.

(** [createComponent()]: when a control will be bound, the directive is
    created first and provided to the new instance as its [NgControl]. *)
Definition createComponent (st : state) : state * result unit :=
  match ByModelProperty._component (ByModelProperty.self st),
        ByModelProperty._componentRef (ByModelProperty.self st) with
  | Some c, None =>
      if ByNameAttribute._viewContainerRef e then
        let bound := bindsControl st in
        let st0 :=
          if bound
          then ByModelProperty.on_self
                 (ByModelProperty.set_formControlDirective
                    (Some {| fcd_form := None |})) st
          else st in
        let ref :=
          {| cr_type := c; cr_projected := ByNameAttribute._dynamicItems e;
             cr_ngControl := bound; cr_inputs := ∅;
             cr_attributes := ∅; cr_display := None |} in
        let st1 :=
          ByModelProperty.on_self
            (λ i, ByModelProperty.set_container
                    (ByModelProperty.container i ++ [c])
                    (ByModelProperty.set_componentRef (Some ref) i))
            st0 in
        createFormControl (handleOutputs (removeHostElement st1))
      else (st, Ok ())
  | _, _ => (st, Ok ())
  end.

(** [setInputs()]. *)
Definition setInputs (st : state) : state :=
  match ByNameAttribute.inputs (ByNameAttribute.configuration e),
        ByModelProperty._componentRef (ByModelProperty.self st) with
  | Some ins, Some ref =>
      ByModelProperty.on_self
        (ByModelProperty.set_componentRef
           (Some
              (for_in
                 (λ inputName v,
                    setInput inputName
                      (evaluateExpression v
                         (viewModel (ByModelProperty.shared st)) VUndefined))
                 ins ref)))
        st
  | _, _ => st
  end.

(** [setAttributes()]. *)
Definition setAttributes (st : state) : state :=
  match ByNameAttribute.attributes (ByNameAttribute.configuration e),
        ByModelProperty._componentRef (ByModelProperty.self st) with
  | Some attrs, Some ref =>
      ByModelProperty.on_self
        (ByModelProperty.set_componentRef
           (Some
              (for_in
                 (λ attributeName v,
                    setAttribute attributeName
                      (evaluateExpression v
                         (viewModel (ByModelProperty.shared st)) VUndefined))
                 attrs ref)))
        st
  | _, _ => st
  end.

(** [setFormControlStatus()]: disabled when the evaluated [disabled]
    attribute is truthy, enabled otherwise. *)
Definition setFormControlStatus (st : state) : state :=
  match ByModelProperty._formControl (ByModelProperty.self st),
        ByNameAttribute.attributes (ByNameAttribute.configuration e) with
  | Some a, Some attrs =>
      if negb (nullish (attribute attrs "disabled")) then
        let isDisabled :=
          evaluateExpression (attribute attrs "disabled")
            (viewModel (ByModelProperty.shared st)) VUndefined in
        ByModelProperty.on_shared
          (set_controls
             (alter (setDisabled (truthy isDisabled)) a
                (controls (ByModelProperty.shared st))))
          st
      else st
  | _, _ => st
  end.

(** The list [validators] built by [setFormControlValidators()]. *)
Definition validators (vm : value) (attrs : gmap string value)
    : list validator :=
  let ev (key : string) := evaluateExpression (attribute attrs key) vm VUndefined in
  (if is_number (ev "min") then [Vmin (ev "min")] else [])
  ++ (if is_number (ev "max") then [Vmax (ev "max")] else [])
  ++ (match ev "required" with VBool true => [Vrequired] | _ => [] end)
  ++ (match ev "email" with VBool true => [Vemail] | _ => [] end)
  ++ (if gt_zero (ev "maxlength") then [VmaxLength (ev "maxlength")] else [])
  ++ (if gt_zero (ev "minlength") then [VminLength (ev "minlength")] else [])
  ++ (if is_string (ev "pattern") || is_regexp (ev "pattern")
      then [Vpattern (ev "pattern")] else []).

(** [setFormControlValidators()]: the validators are cleared, then the
    list is added. *)
Definition setFormControlValidators (st : state) : state :=
  match ByModelProperty._formControl (ByModelProperty.self st),
        ByNameAttribute.attributes (ByNameAttribute.configuration e) with
  | Some a, Some attrs =>
      ByModelProperty.on_shared
        (set_controls
           (alter
              (λ c,
                 addValidators
                   (validators (viewModel (ByModelProperty.shared st)) attrs)
                   (clearValidators c))
              a (controls (ByModelProperty.shared st))))
        st
  | _, _ => st
  end.

(** [ngOnChanges()]. *)
Definition ngOnChanges (st : state) : state * result unit :=
  match loadComponentAsync st with
  | Throw err => (st, Throw err)
  | Ok st1 =>
      match createComponent st1 with
      | (st2, Throw err) => (st2, Throw err)
      | (st2, Ok _) =>
          (setFormControlValidators
             (setFormControlStatus (setAttributes (setInputs st2))),
           Ok ())
      end
  end.
End Methods.
End Component.

End ByWrittenName.

(** ** Notions used to state the properties *)

(** The values already present at the intermediate segments of [path] are
    objects: at every segment but the last, the property is either missing
    ([undefined]) or an object for which the same holds. *)
Fixpoint objects_along (model : value) (path : list string) : bool :=
  match path with
  | [] => true
  | key :: rest =>
      match rest with
      | [] => true
      | _ :: _ =>
          match member model key with
          | VUndefined => true
          | VObj cls props => objects_along (VObj cls props) rest
          | _ => false
          end
      end
  end.

(** A string without any of the delimiters ['.'], ['['] and [']']. *)
Fixpoint plain (s : string) : bool :=
  match s with
  | EmptyString => true
  | String c s' => negb (delimiter c) && plain s'
  end.

(** A segment as the split produces them: not empty, without delimiters. *)
Definition segment (s : string) : bool :=
  negb (String.eqb s "") && plain s.

(** The dotted path of a list of segments: [a.b.c]. *)
Fixpoint dotted (keys : list string) : string :=
  match keys with
  | [] => ""
  | [key] => key
  | key :: rest => key ++ String "."%char (dotted rest)
  end.

(** The outputs that have an open subscription, one entry for each. *)
Definition open_outputs (subs : list Subscription) : list string :=
  sub_output <$> filter (λ s, sub_closed s = false) subs.

(** Two paths that part at some segment: neither leads through the other. *)
Definition diverge (p q : list string) : Prop :=
  ∃ (common : list string) key key' rest rest',
    key ≠ key'
    ∧ p = (common ++ key :: rest)%list
    ∧ q = (common ++ key' :: rest')%list.

(** What is stored at a missing segment followed by the segments [rest]: a
    chain of objects each holding the next segment only, ending in [v]. *)
Fixpoint nest (rest : list string) (v : value) : value :=
  match rest with
  | [] => v
  | key :: rest' => VObj Plain {[ key := nest rest' v ]}
  end.

(** The environment [e] with the [pattern] field of its configuration set to
    [p]. *)
Definition with_pattern (p : value) (e : ByModelProperty.env)
    : ByModelProperty.env :=
  let cfg := ByModelProperty.configuration e in
  {| ByModelProperty.configuration :=
       ByModelProperty.mkItem
         (ByModelProperty.type cfg) (ByModelProperty.inputs cfg)
         (ByModelProperty.outputs cfg) (ByModelProperty.attributes cfg)
         (ByModelProperty.hidden cfg) (ByModelProperty.disabled cfg)
         (ByModelProperty.modelProperty cfg)
         (ByModelProperty.min cfg) (ByModelProperty.max cfg)
         (ByModelProperty.required cfg) (ByModelProperty.email cfg)
         (ByModelProperty.minLength cfg) (ByModelProperty.maxLength cfg)
         p (ByModelProperty.items cfg);
     ByModelProperty.formGroup := ByModelProperty.formGroup e;
     ByModelProperty._viewContainerRef := ByModelProperty._viewContainerRef e;
     ByModelProperty._dynamicItems := ByModelProperty._dynamicItems e;
     ByModelProperty._components := ByModelProperty._components e |}.


(** ** Sample inputs

    The configuration of the repository's README (a component bound to
    [data.firstName] in a form group), in the shape each revision expects,
    and the view model that goes with it. *)

Module Samples.

Definition MyDynamicComponent1 : ctype :=
  {| ct_id := 1; ct_emitters := ["onSomething"] |}.

Definition person : value :=
  VObj Plain {[ "data" := VObj Plain {[ "firstName" := VStr "Jhon" ]} ]}.

(** A world with the view model [person] and an empty form group at
    address [1]. *)
Definition world_of (vm : value) : world :=
  {| viewModel := vm;
     controls := ∅;
     groups := {[ 1%positive := ∅ ]};
     hostAttached := true |}.

Definition item_A (pattern : value) : ByModelProperty.FGDynamicItem :=
  ByModelProperty.mkItem (Some (TypeName "MyDynamicComponent1"))
    (Some {[ "hello" := VStr "world" ]}) None None
    VUndefined VUndefined (Some "data.firstName")
    VUndefined VUndefined VUndefined VUndefined VUndefined VUndefined
    pattern [].

Definition env_A : ByModelProperty.env :=
  {| ByModelProperty.configuration := item_A (VStr "^J");
     ByModelProperty.formGroup := Some 1%positive;
     ByModelProperty._viewContainerRef := true;
     ByModelProperty._dynamicItems := [];
     ByModelProperty._components :=
       {[ "MyDynamicComponent1" := MyDynamicComponent1 ]} |}.

(** The README configuration with outputs: [onSomething] is an emitter of
    the class, [onOther] is not. *)
Definition env_outputs : ByModelProperty.env :=
  {| ByModelProperty.configuration :=
       ByModelProperty.mkItem (Some (TypeName "MyDynamicComponent1")) None
         (Some {[ "onSomething" := VStr "$vm.update($event)";
                  "onOther" := VStr "$event" ]})
         None VUndefined VUndefined None
         VUndefined VUndefined VUndefined VUndefined VUndefined VUndefined
         VUndefined [];
     ByModelProperty.formGroup := None;
     ByModelProperty._viewContainerRef := true;
     ByModelProperty._dynamicItems := [];
     ByModelProperty._components :=
       {[ "MyDynamicComponent1" := MyDynamicComponent1 ]} |}.


Definition fresh_A : ByModelProperty.state :=
  {| ByModelProperty.shared := world_of person;
     ByModelProperty.self := ByModelProperty.initial |}.

Definition item_B : ByNameAttribute.FGDynamicItem :=
  ByNameAttribute.mkItem (Some (TypeName "MyDynamicComponent1"))
    (Some {[ "hello" := VStr "world" ]}) None
    (Some {[ "name" := VStr "data.firstName"; "pattern" := VStr "^J" ]}) [].

Definition env_B : ByNameAttribute.env :=
  {| ByNameAttribute.configuration := item_B;
     ByNameAttribute.formGroup := Some 1%positive;
     ByNameAttribute._viewContainerRef := true;
     ByNameAttribute._dynamicItems := [];
     ByNameAttribute._components :=
       {[ "MyDynamicComponent1" := Class MyDynamicComponent1 ]} |}.

(** A configuration whose class is lazily loaded, the import failing. *)
Definition env_rejected : ByNameAttribute.env :=
  {| ByNameAttribute.configuration :=
       ByNameAttribute.mkItem (Some (TypeName "MyDynamicComponent4")) None None
         None [];
     ByNameAttribute.formGroup := None;
     ByNameAttribute._viewContainerRef := true;
     ByNameAttribute._dynamicItems := [];
     ByNameAttribute._components :=
       {[ "MyDynamicComponent4"
          := Promise (Rejected (VStr "ChunkLoadError")) ]} |}.

Definition fresh_B : ByNameAttribute.state :=
  {| ByNameAttribute.shared := world_of person;
     ByNameAttribute.self := ByNameAttribute.initial |}.

(** An engine whose [eval] always answers [undefined]; the samples hold no
    binding expression. *)
Definition no_eval : evaluator := λ _ _ _, VUndefined.

(** The components after their first [ngOnChanges()]. *)
Definition created_A : ByModelProperty.state :=
  (ByModelProperty.ngOnChanges no_eval env_A fresh_A).1.

Definition created_B : ByNameAttribute.state :=
  (ByNameAttribute.ngOnChanges no_eval env_B fresh_B).1.

(** The user types ["Ann"] into the control created by the first revision:
    the control at address [1] takes the value. *)
Definition typed_A : ByModelProperty.state :=
  ByModelProperty.on_shared
    (λ w, set_controls (alter (setValue (VStr "Ann")) 1%positive (controls w)) w)
    created_A.

Definition renamed (firstName : value) : value :=
  VObj Plain {[ "data" := VObj Plain {[ "firstName" := firstName ]} ]}.



(** A component reference just created for [MyDynamicComponent1], and the
    components holding it before anything is set on it. *)
Definition bare_ref : ComponentRef :=
  {| cr_type := MyDynamicComponent1; cr_projected := [];
     cr_ngControl := false; cr_inputs := ∅; cr_attributes := ∅;
     cr_display := None |}.

Definition mounted_A : ByModelProperty.state :=
  {| ByModelProperty.shared := world_of person;
     ByModelProperty.self :=
       ByModelProperty.set_container [MyDynamicComponent1]
         (ByModelProperty.set_component (Some MyDynamicComponent1)
            (ByModelProperty.set_componentRef (Some bare_ref)
               ByModelProperty.initial)) |}.


(** The README configuration of the first revision bound to a name made of
    a delimiter only. *)
Definition env_delimiters : ByModelProperty.env :=
  {| ByModelProperty.configuration :=
       ByModelProperty.mkItem (Some (TypeName "MyDynamicComponent1"))
         (Some {[ "hello" := VStr "world" ]}) None None
         VUndefined VUndefined (Some ".")
         VUndefined VUndefined VUndefined VUndefined VUndefined VUndefined
         VUndefined [];
     ByModelProperty.formGroup := Some 1%positive;
     ByModelProperty._viewContainerRef := true;
     ByModelProperty._dynamicItems := [];
     ByModelProperty._components :=
       {[ "MyDynamicComponent1" := MyDynamicComponent1 ]} |}.

(** A flat view model, a configuration of the first revision bound to its
    [firstName], and the component after the user typed ["Ann"]. *)
Definition flat_person : value := VObj Plain {[ "firstName" := VStr "Jhon" ]}.

Definition env_flat : ByModelProperty.env :=
  {| ByModelProperty.configuration :=
       ByModelProperty.mkItem (Some (TypeName "MyDynamicComponent1"))
         None None None
         VUndefined VUndefined (Some "firstName")
         VUndefined VUndefined VUndefined VUndefined VUndefined VUndefined
         VUndefined [];
     ByModelProperty.formGroup := Some 1%positive;
     ByModelProperty._viewContainerRef := true;
     ByModelProperty._dynamicItems := [];
     ByModelProperty._components :=
       {[ "MyDynamicComponent1" := MyDynamicComponent1 ]} |}.

Definition typed_flat : ByModelProperty.state :=
  {| ByModelProperty.shared :=
       {| viewModel := flat_person;
          controls := {[ 1%positive := newFormControl (VStr "Ann") ]};
          groups := {[ 1%positive := {[ "firstName" := 1%positive ]} ]};
          hostAttached := false |};
     ByModelProperty.self :=
       ByModelProperty.set_formGroupSubscription (Some 1%positive)
         (ByModelProperty.set_formControl (Some 1%positive)
            (ByModelProperty.self mounted_A)) |}.


End Samples.

Ltac run_js :=
  unfold empty_object;
  cbn [rbind prop_read prop_write nullish is_undefined].

(** * Properties *)

(** ** The embedding on concrete inputs *)

Example regex_match_dotted :
  regex_match "data.firstName" = Some ["data"; "firstName"].
Proof. reflexivity. Qed.

Example regex_match_brackets :
  regex_match "items[0].name" = Some ["items"; "0"; "name"].
Proof. reflexivity. Qed.

Example regex_match_delimiters_only : regex_match "[]." = None.
Proof. reflexivity. Qed.

(** A falsy value met on the way stops the walk and is the result. *)
Example walk_stops_at_falsy :
  getModelPropertyValue (VObj Plain {[ "a" := VNum 0 ]}) (PStr "a.b") (VNum 3)
  = Ok (VNum 0).
Proof. reflexivity. Qed.

Example walk_reads_string_index :
  getModelPropertyValue (VObj Plain {[ "a" := VStr "xyz" ]}) (PStr "a[1]") VNull
  = Ok (VStr "y").
Proof. reflexivity. Qed.

Example assign_builds_chain :
  setModelPropertyValue empty_object (PStr "a.b.c") (VNum 3)
  = Ok (VObj Plain {[ "a" := VObj Plain {[ "b" := VObj Plain {[ "c" := VNum 3 ]} ]} ]}).
Proof. vm_compute. reflexivity. Qed.

(** Writing through a number, or through [null], throws. *)
Example assign_through_number :
  setModelPropertyValue (VObj Plain {[ "a" := VNum 5 ]}) (PStr "a.b") (VNum 3)
  = Throw TypeError.
Proof. reflexivity. Qed.

Example assign_through_null :
  setModelPropertyValue (VObj Plain {[ "a" := VNull ]}) (PStr "a.b") (VNum 3)
  = Throw TypeError.
Proof. reflexivity. Qed.

Example structuredClone_function :
  structuredClone (VObj Plain {[ "f" := VObj (FunctionObj 1) ∅ ]})
  = Throw DataCloneError.
Proof. reflexivity. Qed.

(** The first [ngOnChanges()] of the README configuration, in the first
    revision: the class is resolved, one view is created, the host element
    is removed, the control is created with the value at the path, added to
    the group under the whole name, and the input is set. *)
Example first_ngOnChanges_A :
  (ByModelProperty.ngOnChanges Samples.no_eval Samples.env_A Samples.fresh_A).2
  = Ok ()
  ∧ ByModelProperty._component (ByModelProperty.self Samples.created_A)
    = Some Samples.MyDynamicComponent1
  ∧ ByModelProperty.container (ByModelProperty.self Samples.created_A)
    = [Samples.MyDynamicComponent1]
  ∧ hostAttached (ByModelProperty.shared Samples.created_A) = false
  ∧ controls (ByModelProperty.shared Samples.created_A)
    = {[ 1%positive := newFormControl (VStr "Jhon") ]}
  ∧ groups (ByModelProperty.shared Samples.created_A)
    = {[ 1%positive := {[ "data.firstName" := 1%positive ]} ]}
  ∧ cr_inputs <$> ByModelProperty._componentRef (ByModelProperty.self Samples.created_A)
    = Some {[ "hello" := VStr "world" ]}.
Proof. repeat split; vm_compute; reflexivity. Qed.

(** The same in the documented revision, where the attributes are then set
    on the element. *)
Example first_ngOnChanges_B :
  (ByNameAttribute.ngOnChanges Samples.no_eval Samples.env_B Samples.fresh_B).2
  = Ok ()
  ∧ ByNameAttribute.container (ByNameAttribute.self Samples.created_B)
    = [Samples.MyDynamicComponent1]
  ∧ groups (ByNameAttribute.shared Samples.created_B)
    = {[ 1%positive := {[ "data.firstName" := 1%positive ]} ]}
  ∧ cr_attributes
      <$> ByNameAttribute._componentRef (ByNameAttribute.self Samples.created_B)
    = Some {[ "name" := "data.firstName"; "pattern" := "^J" ]}.
Proof. repeat split; vm_compute; reflexivity. Qed.

(** ** The registry *)





(** ** Reading and writing the model by path *)

Lemma member_insert_eq cls props key v :
  member (VObj cls (<[key := v]> props)) key = v.
Proof. cbn. by rewrite lookup_insert_eq. Qed.

Lemma member_insert_ne cls props key key' v :
  key ≠ key' →
  member (VObj cls (<[key := v]> props)) key' = member (VObj cls props) key'.
Proof. intros Hne. cbn. by rewrite lookup_insert_ne. Qed.

Lemma member_empty_object key : member empty_object key = VUndefined.
Proof. done. Qed.

Lemma walk_cons model key path :
  walk model (key :: path) = walk (step model key) path.
Proof. done. Qed.

Lemma walk_snoc model path key :
  walk model (path ++ [key]) = step (walk model path) key.
Proof. unfold walk. by rewrite fold_left_app. Qed.

Lemma walk_falsy model path : truthy model = false → walk model path = model.
Proof.
  intros Hf. induction path as [|key path IH]; [done|].
  rewrite walk_cons. unfold step. by rewrite Hf.
Qed.

Lemma regex_match_nonempty s path : regex_match s = Some path → path ≠ [] ∧ s ≠ "".
Proof.
  unfold regex_match. intros Hm. split.
  - destruct (runs s "") eqn:Hr; [done|]. by inversion Hm.
  - intros ->. done.
Qed.

Lemma objects_along_more model key key' rest :
  objects_along model (key :: key' :: rest)
  = match member model key with
    | VUndefined => true
    | VObj cls props => objects_along (VObj cls props) (key' :: rest)
    | _ => false
    end.
Proof. done. Qed.

Lemma objects_along_missing model key rest :
  member model key = VUndefined → objects_along model (key :: rest) = true.
Proof. intros Hm. cbn. rewrite Hm. by destruct rest. Qed.

Lemma assign_last acc key v :
  assign acc [key] v
  = try cur := prop_read acc key in
    try acc1 :=
      (if is_undefined cur then prop_write acc key empty_object else Ok acc) in
    prop_write acc1 key v.
Proof. done. Qed.

Lemma assign_more acc key key' rest v :
  assign acc (key :: key' :: rest) v
  = try cur := prop_read acc key in
    try acc1 :=
      (if is_undefined cur then prop_write acc key empty_object else Ok acc) in
    try child := prop_read acc1 key in
    try child' := assign child (key' :: rest) v in
    prop_write acc1 key child'.
Proof. done. Qed.

(** Writing below a missing segment builds the chain [nest]. *)
Lemma assign_missing rest : ∀ cls props key v,
  member (VObj cls props) key = VUndefined →
  assign (VObj cls props) (key :: rest) v
  = Ok (VObj cls (<[key := nest rest v]> props)).
Proof.
  induction rest as [|key' rest IH]; intros cls props key v Hm.
  - rewrite assign_last. run_js. rewrite Hm. run_js.
    by rewrite insert_insert_eq.
  - rewrite assign_more. run_js. rewrite Hm. run_js.
    rewrite member_insert_eq.
    rewrite (IH Plain ∅ key' v (member_empty_object key')). run_js.
    rewrite insert_insert_eq. cbn [nest]. by rewrite insert_empty.
Qed.

(** The write succeeds along objects, keeps the class of the model, and the
    walk along the same path finds the value written. *)
Lemma assign_walk path : ∀ cls props v,
  path ≠ [] →
  objects_along (VObj cls props) path = true →
  ∃ props', assign (VObj cls props) path v = Ok (VObj cls props')
            ∧ walk (VObj cls props') path = v.
Proof.
  induction path as [|key rest IH]; intros cls props v Hne Hobj; [done|].
  destruct rest as [|key' rest].
  - exists (<[key := v]> props). split.
    + rewrite assign_last. run_js.
      destruct (member (VObj cls props) key); run_js;
        by rewrite ?insert_insert_eq.
    + rewrite walk_cons. unfold step. cbn [truthy walk fold_left].
      apply member_insert_eq.
  - destruct (member (VObj cls props) key) as [| | | | |c1 m1] eqn:Hm;
      try (rewrite objects_along_more in Hobj; rewrite Hm in Hobj; done).
    + exists (<[key := nest (key' :: rest) v]> props). split.
      * by apply assign_missing.
      * rewrite walk_cons. unfold step. cbn [truthy].
        rewrite member_insert_eq.
        destruct (IH Plain ∅ v) as (props' & Ha & Hw); [done| |].
        { by apply objects_along_missing. }
        rewrite (assign_missing rest Plain ∅ key' v (member_empty_object key')) in Ha.
        inversion Ha as [Heq]. cbn [nest]. rewrite <- insert_empty, Heq. exact Hw.
    + destruct (IH c1 m1 v) as (props' & Ha & Hw); [done| |].
      { rewrite objects_along_more in Hobj. rewrite Hm in Hobj. exact Hobj. }
      exists (<[key := VObj c1 props']> props). split.
      * rewrite assign_more. run_js. rewrite Hm. run_js. rewrite Hm.
        rewrite Ha. done.
      * rewrite walk_cons. unfold step. cbn [truthy].
        rewrite member_insert_eq. exact Hw.
Qed.


(** A write through a value that is not an object throws. *)
Lemma assign_not_object acc key rest v :
  (∀ cls props, acc ≠ VObj cls props) →
  ∃ err, assign acc (key :: rest) v = Throw err.
Proof.
  intros Hno.
  destruct acc as [| |b|n|s|cls props]; try (by eexists);
    try (by destruct (Hno cls props)).
  all: destruct rest as [|key' rest];
    [rewrite assign_last|rewrite assign_more]; run_js;
    (match goal with
     | |- context [member ?o ?k] => destruct (member o k); run_js
     end);
    try (by eexists);
    (match goal with
     | |- context [assign ?child ?path ?w] =>
         destruct (assign child path w); run_js; by eexists
     end).
Qed.

(** A successful write changes the first segment of the path only. *)
Lemma assign_shape cls props key rest v model' :
  assign (VObj cls props) (key :: rest) v = Ok model' →
  ∃ x, model' = VObj cls (<[key := x]> props).
Proof.
  destruct rest as [|key' rest];
    [rewrite assign_last|rewrite assign_more]; run_js.
  - destruct (member (VObj cls props) key); run_js; intros [= <-];
      eexists; by rewrite ?insert_insert_eq.
  - destruct (member (VObj cls props) key) eqn:Hm; run_js;
      rewrite ?member_insert_eq, ?Hm;
      match goal with
      | |- context [assign ?child ?path v] =>
          destruct (assign child path v) as [child'|]; run_js
      end;
      intros [= <-]; eexists; by rewrite ?insert_insert_eq.
Qed.

Lemma walk_empty_object key path :
  walk empty_object (key :: path) = VUndefined.
Proof. rewrite walk_cons. by apply walk_falsy. Qed.

(** What a successful write leaves alone: every path that parts from the
    written one resolves as before. *)
Lemma assign_frame common : ∀ cls props key key' rest rest' v model',
  key ≠ key' →
  assign (VObj cls props) (common ++ key :: rest) v = Ok model' →
  walk model' (common ++ key' :: rest')
  = walk (VObj cls props) (common ++ key' :: rest').
Proof.
  induction common as [|k common IH];
    intros cls props key key' rest rest' v model' Hne Ha.
  - cbn [app] in *. apply assign_shape in Ha as [x ->].
    rewrite !walk_cons. unfold step. cbn [truthy].
    by rewrite member_insert_ne.
  - cbn [app] in *.
    assert (∃ k1 tl, (common ++ key :: rest)%list = k1 :: tl) as (k1 & tl & Htl).
    { destruct common; cbn; eauto. }
    assert (∃ k2 tl2, (common ++ key' :: rest')%list = k2 :: tl2) as (k2 & tl2 & Htl2).
    { destruct common; cbn; eauto. }
    rewrite Htl in Ha. rewrite assign_more in Ha. revert Ha. run_js.
    rewrite !(walk_cons _ k). unfold step. cbn [truthy].
    destruct (member (VObj cls props) k) as [| |b|n|s|c1 m1] eqn:Hk; run_js;
      rewrite ?member_insert_eq, ?Hk.
    + rewrite <- Htl.
      destruct (assign (VObj Plain ∅) (common ++ key :: rest) v)
        as [child'|] eqn:Hc; run_js; [|done].
      intros [= <-]. rewrite member_insert_eq.
      rewrite (IH _ _ _ _ _ _ _ _ Hne Hc), Htl2.
      rewrite (walk_falsy VUndefined) by done. apply walk_empty_object.
    + destruct (assign_not_object VNull k1 tl v) as [err ->]; done.
    + destruct (assign_not_object (VBool b) k1 tl v) as [err ->]; done.
    + destruct (assign_not_object (VNum n) k1 tl v) as [err ->]; done.
    + destruct (assign_not_object (VStr s) k1 tl v) as [err ->]; done.
    + rewrite <- Htl.
      destruct (assign (VObj c1 m1) (common ++ key :: rest) v)
        as [child'|] eqn:Hc; run_js; [|done].
      intros [= <-]. rewrite member_insert_eq.
      by rewrite (IH _ _ _ _ _ _ _ _ Hne Hc).
Qed.



Lemma getModelPropertyValue_falsy model d :
  getModelPropertyValue model (PStr "") d = Ok VUndefined.
Proof. done. Qed.

Lemma getModelPropertyValue_segments model s path d :
  regex_match s = Some path →
  getModelPropertyValue model (PStr s) d
  = Ok (if nullish (walk model path) then d else walk model path).
Proof.
  intros Hm. unfold getModelPropertyValue. cbn [falsy pathArray].
  apply regex_match_nonempty in Hm as Hs. destruct Hs as [_ Hs].
  destruct (String.eqb_spec s ""); [done|]. rewrite Hm. cbn zeta.
  by destruct (nullish (walk model path)).
Qed.

Lemma getModelPropertyValue_array model keys d :
  getModelPropertyValue model (PArr keys) d
  = Ok (if nullish (walk model keys) then d else walk model keys).
Proof.
  unfold getModelPropertyValue. cbn [falsy pathArray]. cbn zeta.
  by destruct (nullish (walk model keys)).
Qed.

Lemma getModelPropertyValue_no_segment model s d :
  s ≠ "" → regex_match s = None →
  getModelPropertyValue model (PStr s) d = Throw TypeError.
Proof.
  intros Hs Hm. unfold getModelPropertyValue. cbn [falsy pathArray].
  destruct (String.eqb_spec s ""); [done|]. by rewrite Hm.
Qed.

(** C4.  On the falsy path [""] the result is [undefined]; a string path
    with a segment is split at the delimiters and walked; but on the
    non-empty string path ["."], which has no segment, the match is [null]
    and the call throws a [TypeError] instead of returning the model or the
    default. *)
Theorem getModelPropertyValue_on_delimiters :
  getModelPropertyValue (VObj Plain {[ "a" := VNum 1 ]}) (PStr "") (VNum 7)
  = Ok VUndefined
  ∧ getModelPropertyValue (VObj Plain {[ "a" := VNum 1 ]}) (PStr "a") (VNum 7)
    = Ok (VNum 1)
  ∧ getModelPropertyValue (VObj Plain {[ "a" := VNum 1 ]}) (PStr "[b].c") (VNum 7)
    = Ok (VNum 7)
  ∧ getModelPropertyValue (VObj Plain {[ "a" := VNum 1 ]}) (PStr ".") (VNum 7)
    = Throw TypeError.
Proof. repeat split; reflexivity. Qed.

(** ** Expression evaluation *)

(** C7.  Unless the argument is a string that contains ["$vm"] while the
    view-model signal holds a value other than [null] and [undefined], or
    contains ["$event"] while such an event is supplied, [evaluateExpression]
    does not call [eval] and returns its argument, in both revisions and
    whatever [eval] would compute. *)
Theorem evaluateExpression_unchanged (js_eval : evaluator) (v vm event : value) :
  ¬ (∃ s, v = VStr s
          ∧ ((includes "$vm" s = true ∧ nullish vm = false)
             ∨ (includes "$event" s = true ∧ nullish event = false))) →
  (ByModelProperty.invokesEval v vm event = false
   ∧ ByModelProperty.evaluateExpression js_eval v vm event = v)
  ∧ (ByNameAttribute.invokesEval v (Some vm) event = false
     ∧ ByNameAttribute.evaluateExpression js_eval v (Some vm) event = v).
Proof.
  intros Hno.
  assert (ByModelProperty.invokesEval v vm event = false) as HA.
  { destruct v as [| | | |s|]; try done. cbn.
    destruct (includes "$vm" s) eqn:Hvm, (nullish vm) eqn:Hn,
             (includes "$event" s) eqn:Hev, (nullish event) eqn:Hne;
      try done; exfalso; apply Hno; exists s; naive_solver. }
  assert (ByNameAttribute.invokesEval v (Some vm) event = false) as HB.
  { destruct v; done. }
  repeat split; try done.
  - unfold ByModelProperty.evaluateExpression. destruct v; try done. by rewrite HA.
  - unfold ByNameAttribute.evaluateExpression. destruct v; try done. by rewrite HB.
Qed.

Lemma evaluateExpression_unchanged_witness :
  ByModelProperty.evaluateExpression (λ _ _ _, VNull)
    (VStr "$vm().count + 1") VNull VUndefined = VStr "$vm().count + 1"
  ∧ ByNameAttribute.evaluateExpression (λ _ _ _, VNull)
      (VStr "$vm().count + 1") (Some VNull) VUndefined = VStr "$vm().count + 1".
Proof.
  destruct (evaluateExpression_unchanged (λ _ _ _, VNull)
              (VStr "$vm().count + 1") VNull VUndefined) as [[_ HA] [_ HB]].
  - intros (s & Hs & [[_ Hn]|[_ Hn]]); discriminate Hn.
  - split; [exact HA | exact HB].
Defined.

(** When the test succeeds the result is what [eval] computes. *)
Lemma evaluateExpression_evaluates (js_eval : evaluator) s vm event :
  (includes "$vm" s = true ∧ nullish vm = false)
  ∨ (includes "$event" s = true ∧ nullish event = false) →
  ByModelProperty.evaluateExpression js_eval (VStr s) vm event
  = js_eval s (Some vm) event
  ∧ ByNameAttribute.evaluateExpression js_eval (VStr s) (Some vm) event
    = js_eval s (Some vm) event.
Proof.
  intros Hc.
  unfold ByModelProperty.evaluateExpression, ByNameAttribute.evaluateExpression.
  cbn. destruct Hc as [[-> ->]|[-> ->]]; cbn; rewrite ?orb_true_r; done.
Qed.

(** Without a signal in scope the documented revision leaves every string
    without an event binding as it is. *)
Lemma evaluateExpression_no_signal (js_eval : evaluator) v event :
  nullish event = true →
  ByNameAttribute.evaluateExpression js_eval v None event = v.
Proof.
  intros He. unfold ByNameAttribute.evaluateExpression.
  destruct v; try done. cbn. rewrite He. cbn. by rewrite !andb_false_r.
Qed.

(** ** Resolving the component class *)



(** ** Inputs of the created component *)

Lemma for_in_keeps (body : string → value → ComponentRef → ComponentRef)
    (P : ComponentRef → Prop) rec ref :
  (∀ key v r, P r → P (body key v r)) →
  P ref → P (for_in body rec ref).
Proof.
  intros Hbody Href. unfold for_in.
  apply (map_fold_weak_ind (λ r _, P r)); [done|].
  intros key v m r _ Hr. by apply Hbody.
Qed.




(** ** Validators *)

(** In the first revision the [pattern] field has no influence on the
    validators: the entry for it is computed from [minLength]. *)
Lemma validators_ignore_pattern (js_eval : evaluator) (e : ByModelProperty.env)
    (p : value) vm :
  ByModelProperty.validators js_eval (with_pattern p e) vm
  = ByModelProperty.validators js_eval e vm.
Proof. done. Qed.

(** So no pattern validator is built when [minLength] is absent. *)
Lemma validators_without_minLength (js_eval : evaluator) (e : ByModelProperty.env)
    vm (p : value) :
  ByModelProperty.minLength (ByModelProperty.configuration e) = VUndefined →
  Vpattern p ∉ ByModelProperty.validators js_eval e vm.
Proof.
  intros Hmin. unfold ByModelProperty.validators. cbn zeta. rewrite Hmin.
  cbn [ByModelProperty.evaluateExpression gt_zero is_string is_regexp orb app].
  rewrite !not_elem_of_app.
  repeat split; repeat case_match;
    first [apply not_elem_of_nil | by intros ?%list_elem_of_singleton].
Qed.

(** The documented revision applies the pattern validator when the
    [pattern] attribute evaluates to a string that is not already the
    element's [pattern] attribute. *)
Lemma pattern_validator_applied (js_eval : evaluator) (e : ByNameAttribute.env)
    (st : ByNameAttribute.state) a c attrs ref p :
  ByNameAttribute._formControl (ByNameAttribute.self st) = Some a →
  controls (ByNameAttribute.shared st) !! a = Some c →
  ByNameAttribute.attributes (ByNameAttribute.configuration e) = Some attrs →
  ByNameAttribute._componentRef (ByNameAttribute.self st) = Some ref →
  ByNameAttribute.evaluateExpression js_eval
    (ByNameAttribute.attribute attrs "pattern")
    (Some (viewModel (ByNameAttribute.shared st))) VUndefined = VStr p →
  getAttribute "pattern" ref ≠ Some p →
  ∃ c',
    controls
      (ByNameAttribute.shared
         (ByNameAttribute.setFormControlValidators js_eval e st)) !! a = Some c'
    ∧ Vpattern (VStr p) ∈ fc_validators c'.
Proof.
  intros Ha Hc Hattrs Href Hp Hdiff.
  unfold ByNameAttribute.setFormControlValidators.
  rewrite Ha, Hattrs, Href.
  assert ((0 <? size attrs)%nat = true) as ->.
  { apply Nat.ltb_lt. destruct (decide (size attrs = 0)) as [Hz|]; [|lia].
    apply map_size_empty_iff in Hz. subst attrs. cbn in Hp. done. }
  assert (Vpattern (VStr p)
          ∈ ByNameAttribute.validators js_eval
              (viewModel (ByNameAttribute.shared st)) attrs ref) as Hin.
  { unfold ByNameAttribute.validators. cbn zeta. rewrite Hp.
    rewrite (bool_decide_eq_false_2 (Some p = getAttribute "pattern" ref))
      by congruence.
    cbn [negb].
    rewrite !elem_of_app. do 6 right. by apply list_elem_of_singleton. }
  destruct (ByNameAttribute.validators js_eval _ attrs ref) as [|v vs] eqn:Hvs.
  { by apply elem_of_nil in Hin. }
  cbn. rewrite lookup_alter_eq, Hc. cbn. eexists. split; [done|]. exact Hin.
Qed.

(** C5.  With the README configuration and the pattern ["^J"], the first
    revision creates the form control and leaves it without any validator:
    [setFormControlValidators] reads [minLength] where it means [pattern].
    The documented revision, on the same configuration, applies
    [Validators.pattern("^J")]. *)
Theorem pattern_validator_missing :
  ByModelProperty.pattern (ByModelProperty.configuration Samples.env_A) = VStr "^J"
  ∧ ByModelProperty._formControl (ByModelProperty.self Samples.created_A)
    = Some 1%positive
  ∧ fc_validators
      <$> controls
            (ByModelProperty.shared
               (ByModelProperty.setFormControlValidators Samples.no_eval
                  Samples.env_A Samples.created_A)) !! 1%positive
    = Some []
  ∧ fc_validators
      <$> controls
            (ByNameAttribute.shared
               (ByNameAttribute.setFormControlValidators Samples.no_eval
                  Samples.env_B Samples.created_B)) !! 1%positive
    = Some [Vpattern (VStr "^J")].
Proof. repeat split; vm_compute; reflexivity. Qed.

(** ** Value changes of the form *)

(** C6.  The control created by the first revision for the path
    [data.firstName] takes the value ["Ann"]; the subscriber of
    [formGroup().valueChanges] then reads the raw value of the group, which
    is keyed by the whole name ["data.firstName"], along the segments [data]
    and [firstName], finds nothing, and writes [null] into the clone of the
    view model.  The subscriber of the documented revision, given the
    control's new value, writes ["Ann"]. *)
Theorem value_change_writes_null :
  getRawValue (controls (ByModelProperty.shared Samples.typed_A))
    (default ∅ (groups (ByModelProperty.shared Samples.typed_A) !! 1%positive))
  = VObj Plain {[ "data.firstName" := VStr "Ann" ]}
  ∧ ByModelProperty.onFormGroupValueChanges Samples.env_A Samples.typed_A
    = Ok (ByModelProperty.on_shared (set_viewModel (Samples.renamed VNull))
            Samples.typed_A)
  ∧ ByNameAttribute.onValueChanges "data.firstName" (VStr "Ann") Samples.created_B
    = Ok (ByNameAttribute.on_shared (set_viewModel (Samples.renamed (VStr "Ann")))
            Samples.created_B).
Proof. repeat split; vm_compute; reflexivity. Qed.

(** In the documented revision the subscriber sets the signal to the clone of
    the view model updated at the path: the walk along the path finds the
    control's new value, and every path that parts from it resolves as in
    the clone. *)
Lemma onValueChanges_updates_clone name path v (st : ByNameAttribute.state)
    cls props :
  structuredClone (viewModel (ByNameAttribute.shared st)) = Ok (VObj cls props) →
  regex_match name = Some path →
  objects_along (VObj cls props) path = true →
  ∃ vm',
    ByNameAttribute.onValueChanges name v st
    = Ok (ByNameAttribute.on_shared (set_viewModel vm') st)
    ∧ walk vm' path = v
    ∧ ∀ q, diverge path q → walk vm' q = walk (VObj cls props) q.
Proof.
  intros Hclone Hpath Hobj.
  apply regex_match_nonempty in Hpath as Hne. destruct Hne as [Hne _].
  destruct (assign_walk path cls props v Hne Hobj) as (props' & Ha & Hw).
  exists (VObj cls props'). split; [|split].
  - unfold ByNameAttribute.onValueChanges, setModelPropertyValue.
    rewrite Hclone. cbn [rbind pathArray]. rewrite Hpath, Ha. done.
  - exact Hw.
  - intros q (common & key & key' & rest & rest' & Hkeys & -> & ->).
    by apply (assign_frame common cls props key key' rest rest' v).
Qed.

(** ** Creating the form control *)

Lemma attachFormControlDirective_keeps_A (st : ByModelProperty.state) :
  ByModelProperty.shared (ByModelProperty.attachFormControlDirective st)
  = ByModelProperty.shared st
  ∧ ByModelProperty._formControl
      (ByModelProperty.self (ByModelProperty.attachFormControlDirective st))
    = ByModelProperty._formControl (ByModelProperty.self st).
Proof.
  unfold ByModelProperty.attachFormControlDirective.
  destruct st as [w [ref subs ctl dir sub cmp views]]. cbn.
  by destruct dir, ref.
Qed.

Lemma attachFormControlDirective_keeps_B (st : ByNameAttribute.state) :
  ByNameAttribute.shared (ByNameAttribute.attachFormControlDirective st)
  = ByNameAttribute.shared st
  ∧ ByNameAttribute._formControl
      (ByNameAttribute.self (ByNameAttribute.attachFormControlDirective st))
    = ByNameAttribute._formControl (ByNameAttribute.self st).
Proof.
  unfold ByNameAttribute.attachFormControlDirective.
  destruct st as [w [ref subs ctl dir sub cmp views]]. cbn.
  by destruct dir, ref, ctl.
Qed.






(** ** One resolution, one instance *)

Lemma alter_keeps_value (f : FormControl → FormControl) a a'
    (cs : gmap positive FormControl) :
  (∀ c, fc_value (f c) = fc_value c) →
  fc_value <$> alter f a cs !! a' = fc_value <$> cs !! a'.
Proof.
  intros Hf. rewrite lookup_alter. case_decide as Heq; [subst a'|done].
  destruct (cs !! a) as [c|]; cbn; [|done]. by rewrite Hf.
Qed.

Lemma for_in_same_instance body rec ref :
  (∀ key v r,
     cr_type (body key v r) = cr_type r
     ∧ cr_projected (body key v r) = cr_projected r
     ∧ cr_ngControl (body key v r) = cr_ngControl r) →
  cr_type (for_in body rec ref) = cr_type ref
  ∧ cr_projected (for_in body rec ref) = cr_projected ref
  ∧ cr_ngControl (for_in body rec ref) = cr_ngControl ref.
Proof.
  intros Hbody.
  apply (for_in_keeps body
           (λ r, cr_type r = cr_type ref
                 ∧ cr_projected r = cr_projected ref
                 ∧ cr_ngControl r = cr_ngControl ref)); [|done].
  intros key v r (H1 & H2 & H3).
  destruct (Hbody key v r) as (-> & -> & ->). done.
Qed.

Module FactsA.
Import ByModelProperty.

Lemma reapplies_refl_A st : reapplies st st.
Proof. by repeat split. Qed.

Lemma reapplies_trans_A st1 st2 st3 :
  reapplies st1 st2 → reapplies st2 st3 → reapplies st1 st3.
Proof.
  intros (A1 & A2 & A3 & A4 & A5 & A6 & A7 & A8 & A9 & A10 & A11 & A12 & A13 & A14)
         (B1 & B2 & B3 & B4 & B5 & B6 & B7 & B8 & B9 & B10 & B11 & B12 & B13 & B14).
  repeat split; try congruence.
  intros a Ha. rewrite B4, A4; [done|done|]. by rewrite A8.
Qed.

Lemma setInputs_reapplies_A js_eval e st : reapplies st (setInputs js_eval e st).
Proof.
  unfold setInputs.
  destruct (inputs (configuration e)) as [ins|]; [|apply reapplies_refl_A].
  destruct st as [w [ref subs ctl dir sub cmp views]]. cbn.
  destruct ref as [ref|]; [|apply reapplies_refl_A].
  edestruct (for_in_same_instance) as (H1 & H2 & H3); last first.
  { repeat split; cbn; try done; f_equal; [exact H1|exact H2|exact H3]. }
  done.
Qed.

Lemma setAttributes_reapplies_A js_eval e st : reapplies st (setAttributes js_eval e st).
Proof.
  unfold setAttributes.
  destruct (attributes (configuration e)) as [attrs|]; [|apply reapplies_refl_A].
  destruct st as [w [ref subs ctl dir sub cmp views]]. cbn.
  destruct ref as [ref|]; [|apply reapplies_refl_A].
  edestruct (for_in_same_instance) as (H1 & H2 & H3); last first.
  { repeat split; cbn; try done; f_equal; [exact H1|exact H2|exact H3]. }
  done.
Qed.

Lemma setVisibility_reapplies_A js_eval e st : reapplies st (setVisibility js_eval e st).
Proof.
  unfold setVisibility.
  destruct st as [w [ref subs ctl dir sub cmp views]]. cbn.
  destruct ref as [ref|]; [|apply reapplies_refl_A].
  destruct (nullish (hidden (configuration e))); cbn; [apply reapplies_refl_A|].
  by repeat split.
Qed.

Lemma alter_reapplies_A f a st :
  _formControl (self st) = Some a →
  (∀ c, fc_value (f c) = fc_value c) →
  reapplies st (on_shared (set_controls (alter f a (controls (shared st)))) st).
Proof.
  intros Ha Hf. repeat split; cbn; try done.
  - intros a' Hne. rewrite lookup_alter_ne; [done|]. congruence.
  - intros a'. by apply alter_keeps_value.
Qed.

Lemma setFormControlStatus_reapplies_A js_eval e st :
  reapplies st (setFormControlStatus js_eval e st).
Proof.
  unfold setFormControlStatus.
  destruct (_formControl (self st)) as [a|] eqn:Ha; [|apply reapplies_refl_A].
  destruct (nullish (disabled (configuration e))); cbn; [apply reapplies_refl_A|].
  by apply alter_reapplies_A.
Qed.

Lemma setFormControlValidators_reapplies_A js_eval e st :
  reapplies st (setFormControlValidators js_eval e st).
Proof.
  unfold setFormControlValidators.
  destruct (_formControl (self st)) as [a|] eqn:Ha; [|apply reapplies_refl_A].
  by apply alter_reapplies_A.
Qed.

Lemma reapplies_consistent_A st st' : reapplies st st' → consistent st → consistent st'.
Proof.
  intros (_ & _ & _ & _ & _ & Hc & _ & _ & _ & _ & Hv & Ht & _). unfold consistent.
  destruct (_componentRef (self st)) as [r|], (_componentRef (self st')) as [r'|];
    cbn in Ht; try done.
  - inversion Ht as [Heq]. rewrite Hc, Hv, Heq. done.
  - by rewrite Hv.
Qed.

Lemma loadComponentAsync_noop_A e st c :
  _component (self st) = Some c → loadComponentAsync e st = Ok st.
Proof.
  intros Hc. unfold loadComponentAsync. rewrite Hc.
  by destruct (type (configuration e)) as [[name|a]|].
Qed.

Lemma loadComponentAsync_cases_A e st st1 :
  loadComponentAsync e st = Ok st1 →
  st1 = st
  ∨ (_component (self st) = None ∧ ∃ c, st1 = on_self (set_component c) st).
Proof.
  unfold loadComponentAsync.
  destruct (type (configuration e)) as [[name|a]|],
           (_component (self st)) as [c|] eqn:Hc; intros Hload;
    try (left; congruence).
  - right. split; [done|]. eexists. by inversion Hload.
  - right. split; [done|]. destruct (await a) as [c|err]; [|done].
    exists (Some c). by inversion Hload.
Qed.

Lemma createComponent_noop_A e st ref :
  _componentRef (self st) = Some ref → createComponent e st = (st, Ok ()).
Proof.
  intros Href. unfold createComponent. rewrite Href.
  by destruct (_component (self st)).
Qed.

Lemma createFormControl_same_view_A e st :
  same_view st (createFormControl e st).1.
Proof.
  unfold createFormControl.
  destruct (formGroup e) as [g|]; [|done].
  destruct (boundProperty e) as [p|]; [|done].
  destruct (truthy (viewModel (shared st))); [|done].
  destruct (getModelPropertyValue _ _ _) as [init|err]; [|done].
  destruct st as [w [ref subs ctl dir sub cmp views]]. cbn.
  unfold attachFormControlDirective. cbn. by destruct dir, ref.
Qed.

Lemma handleOutputs_same_view_A e st : same_view st (handleOutputs e st).
Proof.
  unfold handleOutputs.
  by destruct (outputs (configuration e)), (_componentRef (self st)).
Qed.

Lemma removeHostElement_same_view_A st : same_view st (removeHostElement st).
Proof. unfold removeHostElement. by destruct (hostAttached (shared st)). Qed.

Lemma createComponent_cases_A e st :
  (createComponent e st).1 = st
  ∨ ∃ c ref,
      _component (self st) = Some c
      ∧ _componentRef (self st) = None
      ∧ _component (self (createComponent e st).1) = Some c
      ∧ _componentRef (self (createComponent e st).1) = Some ref
      ∧ cr_type ref = c
      ∧ container (self (createComponent e st).1)
        = (container (self st) ++ [c])%list.
Proof.
  unfold createComponent.
  destruct (_component (self st)) as [c|] eqn:Hc; [|by left].
  destruct (_componentRef (self st)) as [r|] eqn:Hr; [by left|].
  destruct (_viewContainerRef e); [|by left].
  right. eexists c, _.
  match goal with
  | |- context [createFormControl e ?s] =>
      destruct (createFormControl_same_view_A e s) as (H1 & H2 & H3);
      rewrite H1, H2, H3
  end.
  match goal with
  | |- context [handleOutputs e ?s] =>
      destruct (handleOutputs_same_view_A e s) as (H4 & H5 & H6);
      rewrite H4, H5, H6
  end.
  match goal with
  | |- context [removeHostElement ?s] =>
      destruct (removeHostElement_same_view_A s) as (H7 & H8 & H9);
      rewrite H7, H8, H9
  end.
  cbn. by rewrite Hc.
Qed.

Lemma reapply_chain_A js_eval e st :
  reapplies st
    (setFormControlValidators js_eval e
       (setFormControlStatus js_eval e
          (setVisibility js_eval e
             (setAttributes js_eval e (setInputs js_eval e st))))).
Proof.
  eapply reapplies_trans_A; [|apply setFormControlValidators_reapplies_A].
  eapply reapplies_trans_A; [|apply setFormControlStatus_reapplies_A].
  eapply reapplies_trans_A; [|apply setVisibility_reapplies_A].
  eapply reapplies_trans_A; [|apply setAttributes_reapplies_A].
  apply setInputs_reapplies_A.
Qed.

Lemma ngOnChanges_consistent_A js_eval e st :
  consistent st → consistent (ngOnChanges js_eval e st).1.
Proof.
  intros Hst. unfold ngOnChanges.
  destruct (loadComponentAsync e st) as [st1|err] eqn:Hload; [|done].
  assert (consistent st1) as Hst1.
  { apply loadComponentAsync_cases_A in Hload as [->|[Hnone [c ->]]]; [done|].
    unfold consistent in *. cbn.
    destruct (_componentRef (self st)) as [r|]; [|done].
    destruct Hst as [Hc _]. congruence. }
  assert (consistent (createComponent e st1).1) as Hst2.
  { destruct (createComponent_cases_A e st1)
      as [->|(c & ref & Hc & Hr & Hc' & Hr' & Ht & Hv)]; [done|].
    unfold consistent in *. rewrite Hr in Hst1. rewrite Hr', Hc', Hv, Hst1, Ht.
    done. }
  destruct (createComponent e st1) as [st2 [[]|err]]; [|done].
  cbn in Hst2 |- *. eapply reapplies_consistent_A; [apply reapply_chain_A|done].
Qed.

Lemma ngOnChanges_after_creation_A js_eval e st ref :
  consistent st →
  _componentRef (self st) = Some ref →
  ∃ st', ngOnChanges js_eval e st = (st', Ok ()) ∧ reapplies st st'.
Proof.
  intros Hst Href. unfold ngOnChanges.
  unfold consistent in Hst. rewrite Href in Hst. destruct Hst as [Hc _].
  rewrite (loadComponentAsync_noop_A e st _ Hc).
  rewrite (createComponent_noop_A e st _ Href).
  eexists. split; [done|]. apply reapply_chain_A.
Qed.

Lemma react_consistent_A js_eval st ev : consistent st → consistent (react js_eval st ev).
Proof.
  destruct ev as [e|f]; cbn; [apply ngOnChanges_consistent_A|done].
Qed.


Lemma react_keeps_reference_A js_eval st ev ref :
  consistent st →
  _componentRef (self st) = Some ref →
  container (self (react js_eval st ev)) = container (self st)
  ∧ cr_type <$> _componentRef (self (react js_eval st ev)) = Some (cr_type ref).
Proof.
  intros Hst Href. destruct ev as [e|f]; cbn; [|by rewrite Href].
  destruct (ngOnChanges_after_creation_A js_eval e st ref Hst Href)
    as (st' & -> & Hre). cbn [fst].
  destruct Hre as (_ & _ & _ & _ & _ & _ & _ & _ & _ & _ & -> & -> & _).
  by rewrite Href.
Qed.

Lemma run_consistent_A js_eval evs st :
  consistent st → consistent (run js_eval evs st).
Proof.
  revert st. induction evs as [|ev evs IH]; intros st Hst; [done|].
  cbn. apply IH. by apply react_consistent_A.
Qed.




End FactsA.

Module FactsB.
Import ByNameAttribute.

Lemma reapplies_refl_B st : reapplies st st.
Proof. by repeat split. Qed.

Lemma reapplies_trans_B st1 st2 st3 :
  reapplies st1 st2 → reapplies st2 st3 → reapplies st1 st3.
Proof.
  intros (A1 & A2 & A3 & A4 & A5 & A6 & A7 & A8 & A9 & A10 & A11 & A12 & A13 & A14)
         (B1 & B2 & B3 & B4 & B5 & B6 & B7 & B8 & B9 & B10 & B11 & B12 & B13 & B14).
  repeat split; try congruence.
  intros a Ha. rewrite B4, A4; [done|done|]. by rewrite A8.
Qed.

Lemma setInputs_reapplies_B js_eval e st : reapplies st (setInputs js_eval e st).
Proof.
  unfold setInputs.
  destruct (inputs (configuration e)) as [ins|]; [|apply reapplies_refl_B].
  destruct (0 <? size ins)%nat;
    [|destruct (_componentRef (self st)); apply reapplies_refl_B].
  destruct st as [w [ref subs ctl dir sub cmp views]]. cbn.
  destruct ref as [ref|]; [|apply reapplies_refl_B].
  edestruct (for_in_same_instance) as (H1 & H2 & H3); last first.
  { repeat split; cbn; try done; f_equal; [exact H1|exact H2|exact H3]. }
  done.
Qed.

Lemma setAttributes_reapplies_B js_eval e st : reapplies st (setAttributes js_eval e st).
Proof.
  unfold setAttributes.
  destruct (attributes (configuration e)) as [attrs|]; [|apply reapplies_refl_B].
  destruct (0 <? size attrs)%nat;
    [|destruct (_componentRef (self st)); apply reapplies_refl_B].
  destruct st as [w [ref subs ctl dir sub cmp views]]. cbn.
  destruct ref as [ref|]; [|apply reapplies_refl_B].
  edestruct (for_in_same_instance) as (H1 & H2 & H3); last first.
  { repeat split; cbn; try done; f_equal; [exact H1|exact H2|exact H3]. }
  intros key v r. cbn. by destruct (same_as_attribute _ _).
Qed.

Lemma alter_reapplies_B f a st :
  _formControl (self st) = Some a →
  (∀ c, fc_value (f c) = fc_value c) →
  reapplies st (on_shared (set_controls (alter f a (controls (shared st)))) st).
Proof.
  intros Ha Hf. repeat split; cbn; try done.
  - intros a' Hne. rewrite lookup_alter_ne; [done|]. congruence.
  - intros a'. by apply alter_keeps_value.
Qed.

Lemma setFormControlStatus_reapplies_B js_eval e st :
  reapplies st (setFormControlStatus js_eval e st).
Proof.
  unfold setFormControlStatus.
  destruct (_formControl (self st)) as [a|] eqn:Ha; [|apply reapplies_refl_B].
  destruct (attributes (configuration e)) as [attrs|]; [|apply reapplies_refl_B].
  destruct (nullish (attribute attrs "disabled")); cbn; [apply reapplies_refl_B|].
  destruct (evaluateExpression _ _ _ _); try apply reapplies_refl_B.
  destruct (controls (shared st) !! a); [|apply reapplies_refl_B].
  destruct (_ || _); [|apply reapplies_refl_B].
  by apply alter_reapplies_B.
Qed.

Lemma setFormControlValidators_reapplies_B js_eval e st :
  reapplies st (setFormControlValidators js_eval e st).
Proof.
  unfold setFormControlValidators.
  destruct (_formControl (self st)) as [a|] eqn:Ha; [|apply reapplies_refl_B].
  destruct (attributes (configuration e)) as [attrs|]; [|apply reapplies_refl_B].
  destruct (_componentRef (self st)) as [ref|]; [|apply reapplies_refl_B].
  destruct (0 <? size attrs)%nat; [|apply reapplies_refl_B].
  destruct (validators _ _ _ _); [apply reapplies_refl_B|].
  by apply alter_reapplies_B.
Qed.

Lemma reapplies_consistent_B st st' : reapplies st st' → consistent st → consistent st'.
Proof.
  intros (_ & _ & _ & _ & _ & Hc & _ & _ & _ & _ & Hv & Ht & _). unfold consistent.
  destruct (_componentRef (self st)) as [r|], (_componentRef (self st')) as [r'|];
    cbn in Ht; try done.
  - inversion Ht as [Heq]. rewrite Hc, Hv, Heq. done.
  - by rewrite Hv.
Qed.

Lemma loadComponentAsync_noop_B e st c :
  _component (self st) = Some c → loadComponentAsync e st = Ok st.
Proof.
  intros Hc. unfold loadComponentAsync. rewrite Hc.
  by destruct (type (configuration e)) as [[name|a]|].
Qed.

Lemma loadComponentAsync_cases_B e st st1 :
  loadComponentAsync e st = Ok st1 →
  st1 = st
  ∨ (_component (self st) = None ∧ ∃ c, st1 = on_self (set_component c) st).
Proof.
  unfold loadComponentAsync.
  destruct (type (configuration e)) as [[name|a]|],
           (_component (self st)) as [c|] eqn:Hc; intros Hload;
    try (left; congruence).
  - right. split; [done|].
    destruct (FGDynamicService.getComponent name (_components e)) as [a|].
    + destruct (await a) as [c|err]; [|done].
      exists (Some c). by inversion Hload.
    + exists None. by inversion Hload.
  - right. split; [done|]. destruct (await a) as [c|err]; [|done].
    exists (Some c). by inversion Hload.
Qed.

Lemma createComponent_noop_B js_eval e st ref :
  _componentRef (self st) = Some ref → createComponent js_eval e st = (st, Ok ()).
Proof.
  intros Href. unfold createComponent. rewrite Href.
  by destruct (_component (self st)).
Qed.

Lemma createFormControl_same_view_B js_eval e st :
  same_view st (createFormControl js_eval e st).1.
Proof.
  unfold createFormControl.
  destruct (formGroup e) as [g|]; [|done].
  destruct (attributes (configuration e)) as [attrs|]; [|done].
  destruct (_ && _); [|done].
  destruct (evaluateExpression _ _ _ _) as [| | | |name|]; try done.
  destruct (getModelPropertyValue _ _ _) as [init|err]; [|done].
  destruct st as [w [ref subs ctl dir sub cmp views]]. cbn.
  unfold attachFormControlDirective. cbn. by destruct dir, ref.
Qed.

Lemma handleOutputs_same_view_B e st : same_view st (handleOutputs e st).
Proof.
  unfold handleOutputs.
  destruct (outputs (configuration e)) as [outs|],
           (_componentRef (self st)); try done.
  by destruct (0 <? size outs)%nat.
Qed.

Lemma removeHostElement_same_view_B st : same_view st (removeHostElement st).
Proof. unfold removeHostElement. by destruct (hostAttached (shared st)). Qed.

Lemma createComponent_cases_B js_eval e st :
  (createComponent js_eval e st).1 = st
  ∨ ∃ c ref,
      _component (self st) = Some c
      ∧ _componentRef (self st) = None
      ∧ _component (self (createComponent js_eval e st).1) = Some c
      ∧ _componentRef (self (createComponent js_eval e st).1) = Some ref
      ∧ cr_type ref = c
      ∧ container (self (createComponent js_eval e st).1)
        = (container (self st) ++ [c])%list.
Proof.
  unfold createComponent.
  destruct (_component (self st)) as [c|] eqn:Hc; [|by left].
  destruct (_componentRef (self st)) as [r|] eqn:Hr; [by left|].
  destruct (_formControlDirective (self st)) as [d|] eqn:Hd; [by left|].
  destruct (_viewContainerRef e); [|by left].
  destruct (bindsControl js_eval e st); right; eexists c, _;
    (match goal with
     | |- context [createFormControl js_eval e ?s] =>
         destruct (createFormControl_same_view_B js_eval e s) as (H1 & H2 & H3);
         rewrite H1, H2, H3
     end);
    (match goal with
     | |- context [handleOutputs e ?s] =>
         destruct (handleOutputs_same_view_B e s) as (H4 & H5 & H6);
         rewrite H4, H5, H6
     end);
    (match goal with
     | |- context [removeHostElement ?s] =>
         destruct (removeHostElement_same_view_B s) as (H7 & H8 & H9);
         rewrite H7, H8, H9
     end);
    cbn; by rewrite Hc.
Qed.

Lemma reapply_chain_B js_eval e st :
  reapplies st
    (setAttributes js_eval e
       (setFormControlValidators js_eval e
          (setFormControlStatus js_eval e (setInputs js_eval e st)))).
Proof.
  eapply reapplies_trans_B; [|apply setAttributes_reapplies_B].
  eapply reapplies_trans_B; [|apply setFormControlValidators_reapplies_B].
  eapply reapplies_trans_B; [|apply setFormControlStatus_reapplies_B].
  apply setInputs_reapplies_B.
Qed.

Lemma ngOnChanges_consistent_B js_eval e st :
  consistent st → consistent (ngOnChanges js_eval e st).1.
Proof.
  intros Hst. unfold ngOnChanges.
  destruct (loadComponentAsync e st) as [st1|err] eqn:Hload; [|done].
  assert (consistent st1) as Hst1.
  { apply loadComponentAsync_cases_B in Hload as [->|[Hnone [c ->]]]; [done|].
    unfold consistent in *. cbn.
    destruct (_componentRef (self st)) as [r|]; [|done].
    destruct Hst as [Hc _]. congruence. }
  assert (consistent (createComponent js_eval e st1).1) as Hst2.
  { destruct (createComponent_cases_B js_eval e st1)
      as [->|(c & ref & Hc & Hr & Hc' & Hr' & Ht & Hv)]; [done|].
    unfold consistent in *. rewrite Hr in Hst1. rewrite Hr', Hc', Hv, Hst1, Ht.
    done. }
  destruct (createComponent js_eval e st1) as [st2 [[]|err]]; [|done].
  cbn in Hst2 |- *. eapply reapplies_consistent_B; [apply reapply_chain_B|done].
Qed.

Lemma ngOnChanges_after_creation_B js_eval e st ref :
  consistent st →
  _componentRef (self st) = Some ref →
  ∃ st', ngOnChanges js_eval e st = (st', Ok ()) ∧ reapplies st st'.
Proof.
  intros Hst Href. unfold ngOnChanges.
  unfold consistent in Hst. rewrite Href in Hst. destruct Hst as [Hc _].
  rewrite (loadComponentAsync_noop_B e st _ Hc).
  rewrite (createComponent_noop_B js_eval e st _ Href).
  eexists. split; [done|]. apply reapply_chain_B.
Qed.

Lemma react_consistent_B js_eval st ev : consistent st → consistent (react js_eval st ev).
Proof.
  destruct ev as [e|f]; cbn; [apply ngOnChanges_consistent_B|done].
Qed.


Lemma react_keeps_reference_B js_eval st ev ref :
  consistent st →
  _componentRef (self st) = Some ref →
  container (self (react js_eval st ev)) = container (self st)
  ∧ cr_type <$> _componentRef (self (react js_eval st ev)) = Some (cr_type ref).
Proof.
  intros Hst Href. destruct ev as [e|f]; cbn; [|by rewrite Href].
  destruct (ngOnChanges_after_creation_B js_eval e st ref Hst Href)
    as (st' & -> & Hre). cbn [fst].
  destruct Hre as (_ & _ & _ & _ & _ & _ & _ & _ & _ & _ & -> & -> & _).
  by rewrite Href.
Qed.

Lemma run_consistent_B js_eval evs st :
  consistent st → consistent (run js_eval evs st).
Proof.
  revert st. induction evs as [|ev evs IH]; intros st Hst; [done|].
  cbn. apply IH. by apply react_consistent_B.
Qed.




End FactsB.



(** * Further properties of the code *)

(** ** Paths: splitting, reading, writing *)

Lemma append_cons c (a s : string) : (String c a ++ s)%string = String c (a ++ s).
Proof. done. Qed.

Lemma append_snoc (a : string) c s :
  ((a ++ String c EmptyString) ++ s)%string = (a ++ String c s)%string.
Proof.
  induction a as [|c' a IH]; [done|].
  by rewrite !append_cons, IH.
Qed.

Lemma append_empty_r (a : string) : (a ++ "")%string = a.
Proof. induction a as [|c a IH]; [done|]. by rewrite append_cons, IH. Qed.

Lemma plain_append a b : plain (a ++ b) = plain a && plain b.
Proof.
  induction a as [|c a IH]; [done|].
  rewrite append_cons. cbn. rewrite IH. by rewrite andb_assoc.
Qed.

(** Reading a plain stretch only grows the current run. *)
Lemma runs_plain s : ∀ cur rest,
  plain s = true → runs (s ++ rest) cur = runs rest (cur ++ s).
Proof.
  induction s as [|c s IH]; intros cur rest Hs.
  - by rewrite append_empty_r.
  - cbn in Hs. apply andb_true_iff in Hs as [Hc Hs].
    rewrite append_cons. cbn [runs].
    destruct (delimiter c); [done|].
    rewrite IH by done. by rewrite append_snoc.
Qed.

Lemma eqb_empty_false (s : string) : s ≠ "" → String.eqb s "" = false.
Proof. intros Hs. by destruct (String.eqb_spec s ""). Qed.

Lemma segment_spec s : segment s = true ↔ s ≠ "" ∧ plain s = true.
Proof.
  unfold segment. rewrite andb_true_iff, negb_true_iff.
  split; intros [H1 H2]; (split; [|done]).
  - intros ->. done.
  - by apply eqb_empty_false.
Qed.

Lemma runs_dotted keys :
  Forall (λ key, segment key = true) keys → runs (dotted keys) "" = keys.
Proof.
  induction keys as [|key keys IH]; intros Hkeys; [done|].
  apply Forall_cons in Hkeys as [Hkey Hkeys].
  apply segment_spec in Hkey as [Hne Hplain].
  destruct keys as [|key' keys].
  - cbn [dotted]. rewrite <- (append_empty_r key) at 1.
    rewrite runs_plain by done. change ("" ++ key)%string with key.
    cbn [runs]. by rewrite (eqb_empty_false key).
  - change (dotted (key :: key' :: keys))
      with (key ++ String "."%char (dotted (key' :: keys)))%string.
    rewrite runs_plain by done. cbn [runs delimiter].
    replace (Ascii.eqb "." "[" || Ascii.eqb "." "." || Ascii.eqb "." "]")%char
      with true by done.
    change ("" ++ key)%string with key.
    rewrite (eqb_empty_false key) by done. by rewrite IH.
Qed.

(** The runs are segments, whatever the string. *)
Lemma runs_segments s : ∀ cur,
  plain cur = true → Forall (λ key, segment key = true) (runs s cur).
Proof.
  induction s as [|c s IH]; intros cur Hcur; cbn [runs].
  - destruct (String.eqb_spec cur ""); [done|].
    apply Forall_singleton. by apply segment_spec.
  - destruct (delimiter c) eqn:Hc.
    + destruct (String.eqb_spec cur ""); [by apply IH|].
      apply Forall_cons. split; [by apply segment_spec|by apply IH].
    + apply IH. rewrite plain_append, Hcur. cbn. by rewrite Hc.
Qed.

(** X1.  The split of a string path yields segments only: none is empty and
    none holds a delimiter; and a path written with dots between segments
    splits back into these segments, so that reading and writing by the
    dotted string and by the array of segments are the same. *)
Theorem dotted_path_roundtrip :
  (∀ s path, regex_match s = Some path →
     path ≠ [] ∧ Forall (λ key, segment key = true) path)
  ∧ (∀ keys, keys ≠ [] → Forall (λ key, segment key = true) keys →
       regex_match (dotted keys) = Some keys
       ∧ ∀ model v d,
           getModelPropertyValue model (PStr (dotted keys)) d
           = getModelPropertyValue model (PArr keys) d
           ∧ setModelPropertyValue model (PStr (dotted keys)) v
             = setModelPropertyValue model (PArr keys) v).
Proof.
  split.
  - intros s path Hm. split; [by apply regex_match_nonempty in Hm as []|].
    unfold regex_match in Hm.
    pose proof (runs_segments s "" eq_refl) as Hall.
    destruct (runs s "") as [|k l]; [done|]. by inversion Hm; subst.
  - intros keys Hne Hkeys.
    assert (regex_match (dotted keys) = Some keys) as Hm.
    { unfold regex_match. rewrite runs_dotted by done. by destruct keys. }
    split; [done|]. intros model v d. split.
    + rewrite (getModelPropertyValue_segments _ _ _ _ Hm).
      by rewrite getModelPropertyValue_array.
    + unfold setModelPropertyValue. cbn [pathArray]. by rewrite Hm.
Qed.

Lemma dotted_path_roundtrip_witness :
  regex_match (dotted ["data"; "address"; "0"]) = Some ["data"; "address"; "0"].
Proof.
  apply (proj2 dotted_path_roundtrip ["data"; "address"; "0"]).
  - discriminate.
  - repeat constructor.
Defined.

Lemma pathArray_truthy p path : pathArray p = Some path → falsy p = false.
Proof.
  destruct p as [s|keys]; [|done]. cbn. intros Hm.
  apply regex_match_nonempty in Hm as [_ Hs]. by apply eqb_empty_false.
Qed.

Lemma getModelPropertyValue_walk model p path d :
  pathArray p = Some path →
  getModelPropertyValue model p d
  = Ok (if nullish (walk model path) then d else walk model path).
Proof.
  intros Hp. unfold getModelPropertyValue.
  rewrite (pathArray_truthy _ _ Hp), Hp. cbn zeta.
  by destruct (nullish (walk model path)).
Qed.












(** X6.  The walk of [getModelPropertyValue] stops at the first falsy value:
    when a prefix of the path resolves to [0], [""] or [false], that value is
    returned, not the default, whatever segments follow; when it resolves to
    [null] or [undefined] the default is returned. *)
Theorem getModelPropertyValue_stops_at_falsy model p (pre rest : list string) f d :
  pathArray p = Some (pre ++ rest)%list →
  walk model pre = f →
  truthy f = false →
  getModelPropertyValue model p d = Ok (if nullish f then d else f).
Proof.
  intros Hp Hw Hf. rewrite (getModelPropertyValue_walk _ _ _ _ Hp).
  unfold walk in *. rewrite fold_left_app, Hw.
  fold (walk f rest). by rewrite (walk_falsy f rest Hf).
Qed.

Lemma getModelPropertyValue_stops_at_falsy_witness :
  getModelPropertyValue (VObj Plain {[ "count" := VNum 0 ]})
    (PStr "count.total") (VNum 10) = Ok (VNum 0).
Proof.
  apply (getModelPropertyValue_stops_at_falsy _ (PStr "count.total")
           ["count"] ["total"] (VNum 0)); reflexivity.
Defined.

(** ** Attributes of the created element *)


(** The loop of the documented revision, which skips an attribute that
    already has the value. *)
Lemma for_in_setAttribute_changed (f : value → value)
    (attrs : gmap string value) ref name :
  cr_attributes
    (for_in
       (λ attributeName v r,
          if ByNameAttribute.same_as_attribute (f v) (getAttribute attributeName r)
          then r else setAttribute attributeName (f v) r)
       attrs ref) !! name
  = match attrs !! name with
    | Some v =>
        if ByNameAttribute.same_as_attribute (f v) (cr_attributes ref !! name)
        then cr_attributes ref !! name
        else Some (to_string (f v))
    | None => cr_attributes ref !! name
    end.
Proof.
  unfold for_in. revert name.
  apply (map_fold_weak_ind
           (λ r (m : gmap string value), ∀ name,
              cr_attributes r !! name
              = match m !! name with
                | Some v =>
                    if ByNameAttribute.same_as_attribute (f v)
                         (cr_attributes ref !! name)
                    then cr_attributes ref !! name
                    else Some (to_string (f v))
                | None => cr_attributes ref !! name
                end)).
  - intros name. by rewrite lookup_empty.
  - intros key v m r Hfresh IH name.
    assert (getAttribute key r = cr_attributes ref !! key) as Hkey.
    { unfold getAttribute. by rewrite IH, Hfresh. }
    rewrite Hkey.
    destruct (decide (key = name)) as [->|Hne].
    + rewrite lookup_insert_eq.
      destruct (ByNameAttribute.same_as_attribute _ _); [exact Hkey|].
      cbn. by rewrite lookup_insert_eq.
    + rewrite lookup_insert_ne by done.
      destruct (ByNameAttribute.same_as_attribute _ _); [by apply IH|].
      cbn. rewrite lookup_insert_ne by done. by apply IH.
Qed.

Lemma same_as_attribute_spec x a :
  ByNameAttribute.same_as_attribute x a = true →
  (x = VNull ∧ a = None) ∨ a = Some (to_string x).
Proof.
  destruct x as [| |b|n|s|cls props], a as [t|]; cbn; try done.
  - by left.
  - intros ->%String.eqb_eq. by right.
Qed.



(** ** Subscriptions to the outputs *)

Lemma open_outputs_app l1 l2 :
  open_outputs (l1 ++ l2) = (open_outputs l1 ++ open_outputs l2)%list.
Proof. unfold open_outputs. by rewrite filter_app, fmap_app. Qed.

Lemma open_outputs_unsubscribe l : open_outputs (unsubscribe <$> l) = [].
Proof.
  unfold open_outputs. induction l as [|s l IH]; [done|].
  rewrite fmap_cons, filter_cons, decide_False by done. exact IH.
Qed.

Lemma open_outputs_new names :
  open_outputs ((λ n, {| sub_output := n; sub_closed := false |}) <$> names)
  = names.
Proof.
  unfold open_outputs. induction names as [|n names IH]; [done|].
  rewrite fmap_cons, filter_cons, decide_True by done.
  rewrite fmap_cons. cbn [sub_output]. by rewrite IH.
Qed.

Lemma configured_emitters (outs : gmap string value) (emitters : list string) :
  let names := filter (λ n, n ∈ emitters) (map_to_list outs).*1 in
  NoDup names
  ∧ ∀ n, n ∈ names ↔ is_Some (outs !! n) ∧ n ∈ emitters.
Proof.
  cbn zeta. split.
  - apply NoDup_filter, NoDup_fst_map_to_list.
  - intros n. rewrite list_elem_of_filter, list_elem_of_fmap. split.
    + intros [Hem ([k v] & -> & Hin)]. split; [|done].
      apply elem_of_map_to_list in Hin. by eexists.
    + intros [[v Hv] Hem]. split; [done|].
      exists (n, v). split; [done|]. by apply elem_of_map_to_list.
Qed.

(** X8.  After [handleOutputs] of the first revision the open subscriptions
    are exactly one for each configured output that is an [EventEmitter] of
    the instance, every earlier subscription being closed; the documented
    revision closes nothing and adds one open subscription for each such
    output. *)
Theorem handleOutputs_subscribes_once :
  (∀ (e : ByModelProperty.env) (st : ByModelProperty.state) outs ref,
     ByModelProperty.outputs (ByModelProperty.configuration e) = Some outs →
     ByModelProperty._componentRef (ByModelProperty.self st) = Some ref →
     let opened :=
       open_outputs
         (ByModelProperty._outputsSubscriptions
            (ByModelProperty.self (ByModelProperty.handleOutputs e st))) in
     NoDup opened
     ∧ ∀ n, n ∈ opened ↔ is_Some (outs !! n) ∧ n ∈ ct_emitters (cr_type ref))
  ∧ (∀ (e : ByNameAttribute.env) (st : ByNameAttribute.state) outs ref,
       ByNameAttribute.outputs (ByNameAttribute.configuration e) = Some outs →
       ByNameAttribute._componentRef (ByNameAttribute.self st) = Some ref →
       ∃ added,
         open_outputs
           (ByNameAttribute._outputsSubscriptions
              (ByNameAttribute.self (ByNameAttribute.handleOutputs e st)))
         = (open_outputs
              (ByNameAttribute._outputsSubscriptions (ByNameAttribute.self st))
            ++ added)%list
         ∧ NoDup added
         ∧ ∀ n, n ∈ added ↔ is_Some (outs !! n) ∧ n ∈ ct_emitters (cr_type ref)).
Proof.
  split.
  - intros e st outs ref Houts Href opened. subst opened.
    unfold ByModelProperty.handleOutputs. rewrite Houts, Href.
    cbn [ByModelProperty._outputsSubscriptions ByModelProperty.self
         ByModelProperty.on_self ByModelProperty.set_outputsSubscriptions].
    rewrite open_outputs_app, open_outputs_unsubscribe, open_outputs_new.
    apply configured_emitters.
  - intros e st outs ref Houts Href.
    unfold ByNameAttribute.handleOutputs. rewrite Houts, Href.
    destruct (0 <? size outs)%nat eqn:Hsize.
    + eexists.
      cbn [ByNameAttribute._outputsSubscriptions ByNameAttribute.self
           ByNameAttribute.on_self ByNameAttribute.set_outputsSubscriptions].
      rewrite open_outputs_app, open_outputs_new.
      split; [done|]. apply configured_emitters.
    + apply Nat.ltb_ge in Hsize.
      assert (outs = ∅) as -> by (apply map_size_empty_iff; lia).
      exists []. rewrite app_nil_r. split; [done|]. split; [constructor|].
      intros n. rewrite lookup_empty. split.
      * by intros ?%elem_of_nil.
      * by intros [[? ?] _].
Qed.

Lemma handleOutputs_subscribes_once_witness :
  "onSomething"
  ∈ open_outputs
      (ByModelProperty._outputsSubscriptions
         (ByModelProperty.self
            (ByModelProperty.handleOutputs Samples.env_outputs Samples.mounted_A)))
  ∧ "onOther"
    ∉ open_outputs
        (ByModelProperty._outputsSubscriptions
           (ByModelProperty.self
              (ByModelProperty.handleOutputs Samples.env_outputs Samples.mounted_A))).
Proof.
  destruct (proj1 handleOutputs_subscribes_once Samples.env_outputs
              Samples.mounted_A _ Samples.bare_ref eq_refl eq_refl) as [_ Hiff].
  split.
  - apply Hiff. split; [by eexists|]. by left.
  - intros [_ Hin]%Hiff. by apply list_elem_of_singleton in Hin.
Defined.

(** ** Components that cannot be resolved *)



(** X10.  When the promise of the class rejects, given as the [type] or, in
    the documented revision, found in the registry, [ngOnChanges()] rejects
    with the reason of the promise and leaves the component and the shared
    objects untouched: nothing is stored, so the next call awaits again. *)
Theorem ngOnChanges_rejected_promise (js_eval : evaluator) reason :
  (∀ (e : ByModelProperty.env) (st : ByModelProperty.state),
     ByModelProperty._component (ByModelProperty.self st) = None →
     ByModelProperty.type (ByModelProperty.configuration e)
     = Some (TypeRef (Promise (Rejected reason))) →
     ByModelProperty.ngOnChanges js_eval e st = (st, Throw (Rejection reason)))
  ∧ (∀ (e : ByNameAttribute.env) (st : ByNameAttribute.state),
       ByNameAttribute._component (ByNameAttribute.self st) = None →
       (ByNameAttribute.type (ByNameAttribute.configuration e)
        = Some (TypeRef (Promise (Rejected reason)))
        ∨ ∃ name,
            ByNameAttribute.type (ByNameAttribute.configuration e)
            = Some (TypeName name)
            ∧ FGDynamicService.getComponent name (ByNameAttribute._components e)
              = Some (Promise (Rejected reason))) →
       ByNameAttribute.ngOnChanges js_eval e st = (st, Throw (Rejection reason))).
Proof.
  split.
  - intros e st Hc Htype.
    unfold ByModelProperty.ngOnChanges, ByModelProperty.loadComponentAsync.
    by rewrite Htype, Hc.
  - intros e st Hc Htype.
    unfold ByNameAttribute.ngOnChanges, ByNameAttribute.loadComponentAsync.
    destruct Htype as [->|(name & -> & Hname)]; rewrite Hc, ?Hname; done.
Qed.

Lemma ngOnChanges_rejected_promise_witness :
  ByNameAttribute.ngOnChanges Samples.no_eval Samples.env_rejected Samples.fresh_B
  = (Samples.fresh_B, Throw (Rejection (VStr "ChunkLoadError"))).
Proof.
  apply (proj2 (ngOnChanges_rejected_promise Samples.no_eval
                  (VStr "ChunkLoadError"))); [reflexivity|].
  right. by exists "MyDynamicComponent4".
Defined.

(** ** From the registry to the instance *)

Lemma createFormControl_keeps_host_A e st :
  hostAttached (ByModelProperty.shared (ByModelProperty.createFormControl e st).1)
  = hostAttached (ByModelProperty.shared st).
Proof.
  unfold ByModelProperty.createFormControl.
  destruct (ByModelProperty.formGroup e) as [g|]; [|done].
  destruct (ByModelProperty.boundProperty e) as [p|]; [|done].
  destruct (truthy (viewModel (ByModelProperty.shared st))); [|done].
  destruct (getModelPropertyValue _ _ _) as [init|err]; [|done].
  cbn [fst].
  match goal with
  | |- context [ByModelProperty.attachFormControlDirective ?s] =>
      destruct (attachFormControlDirective_keeps_A s) as [-> _]
  end.
  done.
Qed.

Lemma createFormControl_keeps_host_B js_eval e st :
  hostAttached
    (ByNameAttribute.shared (ByNameAttribute.createFormControl js_eval e st).1)
  = hostAttached (ByNameAttribute.shared st).
Proof.
  unfold ByNameAttribute.createFormControl.
  destruct (ByNameAttribute.formGroup e) as [g|]; [|done].
  destruct (ByNameAttribute.attributes (ByNameAttribute.configuration e))
    as [attrs|]; [|done].
  destruct (_ && _); [|done].
  destruct (ByNameAttribute.evaluateExpression _ _ _ _) as [| | | |name|];
    try done.
  destruct (getModelPropertyValue _ _ _) as [init|err]; [|done].
  cbn [fst].
  match goal with
  | |- context [ByNameAttribute.attachFormControlDirective ?s] =>
      destruct (attachFormControlDirective_keeps_B s) as [-> _]
  end.
  done.
Qed.

Lemma handleOutputs_shared_A e st :
  ByModelProperty.shared (ByModelProperty.handleOutputs e st)
  = ByModelProperty.shared st.
Proof.
  unfold ByModelProperty.handleOutputs.
  by destruct (ByModelProperty.outputs (ByModelProperty.configuration e)),
              (ByModelProperty._componentRef (ByModelProperty.self st)).
Qed.

Lemma handleOutputs_shared_B e st :
  ByNameAttribute.shared (ByNameAttribute.handleOutputs e st)
  = ByNameAttribute.shared st.
Proof.
  unfold ByNameAttribute.handleOutputs.
  destruct (ByNameAttribute.outputs (ByNameAttribute.configuration e)) as [outs|],
           (ByNameAttribute._componentRef (ByNameAttribute.self st)); try done.
  by destruct (0 <? size outs)%nat.
Qed.

Lemma removeHostElement_detaches_A st :
  hostAttached (ByModelProperty.shared (ByModelProperty.removeHostElement st))
  = false.
Proof.
  unfold ByModelProperty.removeHostElement.
  by destruct (hostAttached (ByModelProperty.shared st)) eqn:Hh.
Qed.

Lemma removeHostElement_detaches_B st :
  hostAttached (ByNameAttribute.shared (ByNameAttribute.removeHostElement st))
  = false.
Proof.
  unfold ByNameAttribute.removeHostElement.
  by destruct (hostAttached (ByNameAttribute.shared st)) eqn:Hh.
Qed.

(** What [createComponent] leaves when its guards pass. *)
Lemma createComponent_creates_A e st c :
  ByModelProperty._component (ByModelProperty.self st) = Some c →
  ByModelProperty._componentRef (ByModelProperty.self st) = None →
  ByModelProperty._viewContainerRef e = true →
  let st' := (ByModelProperty.createComponent e st).1 in
  ByModelProperty._component (ByModelProperty.self st') = Some c
  ∧ ByModelProperty.container (ByModelProperty.self st')
    = (ByModelProperty.container (ByModelProperty.self st) ++ [c])%list
  ∧ ByModelProperty._componentRef (ByModelProperty.self st')
    = Some {| cr_type := c; cr_projected := ByModelProperty._dynamicItems e;
              cr_ngControl := false; cr_inputs := ∅; cr_attributes := ∅;
              cr_display := None |}
  ∧ hostAttached (ByModelProperty.shared st') = false.
Proof.
  intros Hc Hr Hv. cbn zeta. unfold ByModelProperty.createComponent.
  rewrite Hc, Hr, Hv.
  match goal with
  | |- context [ByModelProperty.createFormControl e ?s] =>
      destruct (FactsA.createFormControl_same_view_A e s) as (-> & -> & ->);
      rewrite (createFormControl_keeps_host_A e s)
  end.
  match goal with
  | |- context [ByModelProperty.handleOutputs e ?s] =>
      destruct (FactsA.handleOutputs_same_view_A e s) as (-> & -> & ->);
      rewrite (handleOutputs_shared_A e s)
  end.
  match goal with
  | |- context [ByModelProperty.removeHostElement ?s] =>
      destruct (FactsA.removeHostElement_same_view_A s) as (-> & -> & ->);
      rewrite (removeHostElement_detaches_A s)
  end.
  cbn. by rewrite Hc.
Qed.

Lemma createComponent_creates_B js_eval e st c :
  ByNameAttribute._component (ByNameAttribute.self st) = Some c →
  ByNameAttribute._componentRef (ByNameAttribute.self st) = None →
  ByNameAttribute._formControlDirective (ByNameAttribute.self st) = None →
  ByNameAttribute._viewContainerRef e = true →
  let st' := (ByNameAttribute.createComponent js_eval e st).1 in
  ByNameAttribute._component (ByNameAttribute.self st') = Some c
  ∧ ByNameAttribute.container (ByNameAttribute.self st')
    = (ByNameAttribute.container (ByNameAttribute.self st) ++ [c])%list
  ∧ ByNameAttribute._componentRef (ByNameAttribute.self st')
    = Some {| cr_type := c; cr_projected := ByNameAttribute._dynamicItems e;
              cr_ngControl := ByNameAttribute.bindsControl js_eval e st;
              cr_inputs := ∅; cr_attributes := ∅; cr_display := None |}
  ∧ hostAttached (ByNameAttribute.shared st') = false.
Proof.
  intros Hc Hr Hd Hv. cbn zeta. unfold ByNameAttribute.createComponent.
  rewrite Hc, Hr, Hd, Hv.
  match goal with
  | |- context [ByNameAttribute.createFormControl js_eval e ?s] =>
      destruct (FactsB.createFormControl_same_view_B js_eval e s) as (-> & -> & ->);
      rewrite (createFormControl_keeps_host_B js_eval e s)
  end.
  match goal with
  | |- context [ByNameAttribute.handleOutputs e ?s] =>
      destruct (FactsB.handleOutputs_same_view_B e s) as (-> & -> & ->);
      rewrite (handleOutputs_shared_B e s)
  end.
  match goal with
  | |- context [ByNameAttribute.removeHostElement ?s] =>
      destruct (FactsB.removeHostElement_same_view_B s) as (-> & -> & ->);
      rewrite (removeHostElement_detaches_B s)
  end.
  destruct (ByNameAttribute.bindsControl js_eval e st); cbn; by rewrite Hc.
Qed.

(** X11.  Registration and instantiation compose: when the configuration
    names a class by a non-empty name under which a class (or, in the
    documented revision, anything that awaits to one) was registered last,
    and the view container is there, the first [ngOnChanges()] of a new
    component stores that class, inserts exactly one view of it, and removes
    the host element; this holds even when the call then rejects while
    creating the form control. *)
Theorem registered_class_is_instantiated (js_eval : evaluator) :
  (∀ (e : ByModelProperty.env) w reg name c,
     name ≠ "" →
     ByModelProperty.type (ByModelProperty.configuration e) = Some (TypeName name) →
     ByModelProperty._components e
     = FGDynamicService.registerComponent name (Some c) reg →
     ByModelProperty._viewContainerRef e = true →
     let st' :=
       (ByModelProperty.ngOnChanges js_eval e (ByModelProperty.created_in w)).1 in
     ByModelProperty._component (ByModelProperty.self st') = Some c
     ∧ ByModelProperty.container (ByModelProperty.self st') = [c]
     ∧ cr_type <$> ByModelProperty._componentRef (ByModelProperty.self st')
       = Some c
     ∧ hostAttached (ByModelProperty.shared st') = false)
  ∧ (∀ (e : ByNameAttribute.env) w reg name a c,
       name ≠ "" →
       ByNameAttribute.type (ByNameAttribute.configuration e) = Some (TypeName name) →
       ByNameAttribute._components e
       = FGDynamicService.registerComponent name (Some a) reg →
       await a = Ok c →
       ByNameAttribute._viewContainerRef e = true →
       let st' :=
         (ByNameAttribute.ngOnChanges js_eval e (ByNameAttribute.created_in w)).1 in
       ByNameAttribute._component (ByNameAttribute.self st') = Some c
       ∧ ByNameAttribute.container (ByNameAttribute.self st') = [c]
       ∧ cr_type <$> ByNameAttribute._componentRef (ByNameAttribute.self st')
         = Some c
       ∧ hostAttached (ByNameAttribute.shared st') = false).
Proof.
  split.
  - intros e w reg name c Hname Htype Hreg Hv. cbn zeta.
    unfold ByModelProperty.ngOnChanges, ByModelProperty.loadComponentAsync.
    rewrite Htype, Hreg. cbn [ByModelProperty.created_in ByModelProperty.self
      ByModelProperty.initial ByModelProperty._component].
    unfold FGDynamicService.getComponentByName, FGDynamicService.registerComponent.
    rewrite (eqb_empty_false name Hname). cbn [negb]. rewrite lookup_insert_eq.
    match goal with
    | |- context [ByModelProperty.createComponent e ?s] =>
        destruct (createComponent_creates_A e s c eq_refl eq_refl Hv)
          as (Hc & Hcont & Href & Hhost);
        destruct (ByModelProperty.createComponent e s) as [st2 [[]|err]]
    end; cbn [fst] in *.
    + destruct (FactsA.reapply_chain_A js_eval e st2)
        as (_ & _ & -> & _ & _ & -> & _ & _ & _ & _ & -> & -> & _).
      by rewrite Hc, Hcont, Href, Hhost.
    + by rewrite Hc, Hcont, Href, Hhost.
  - intros e w reg name a c Hname Htype Hreg Ha Hv. cbn zeta.
    unfold ByNameAttribute.ngOnChanges, ByNameAttribute.loadComponentAsync.
    rewrite Htype, Hreg. cbn [ByNameAttribute.created_in ByNameAttribute.self
      ByNameAttribute.initial ByNameAttribute._component].
    unfold FGDynamicService.getComponent, FGDynamicService.registerComponent.
    rewrite (eqb_empty_false name Hname). cbn [negb]. rewrite lookup_insert_eq.
    rewrite Ha. cbn [rbind].
    match goal with
    | |- context [ByNameAttribute.createComponent js_eval e ?s] =>
        destruct (createComponent_creates_B js_eval e s c eq_refl eq_refl eq_refl Hv)
          as (Hc & Hcont & Href & Hhost);
        destruct (ByNameAttribute.createComponent js_eval e s) as [st2 [[]|err]]
    end; cbn [fst] in *.
    + destruct (FactsB.reapply_chain_B js_eval e st2)
        as (_ & _ & -> & _ & _ & -> & _ & _ & _ & _ & -> & -> & _).
      by rewrite Hc, Hcont, Href, Hhost.
    + by rewrite Hc, Hcont, Href, Hhost.
Qed.

Lemma registered_class_is_instantiated_witness :
  ByModelProperty.container
    (ByModelProperty.self
       (ByModelProperty.ngOnChanges Samples.no_eval Samples.env_A
          (ByModelProperty.created_in (Samples.world_of Samples.person))).1)
  = [Samples.MyDynamicComponent1].
Proof.
  apply (proj1 (registered_class_is_instantiated Samples.no_eval)
           Samples.env_A (Samples.world_of Samples.person) ∅
           "MyDynamicComponent1" Samples.MyDynamicComponent1).
  - discriminate.
  - reflexivity.
  - vm_compute. reflexivity.
  - reflexivity.
Defined.

(** ** What is decided when the view is created *)

Lemma react_keeps_bindings_A js_eval st ev ref :
  ByModelProperty.consistent st →
  ByModelProperty._componentRef (ByModelProperty.self st) = Some ref →
  let st' := ByModelProperty.react js_eval st ev in
  ByModelProperty._formControl (ByModelProperty.self st')
  = ByModelProperty._formControl (ByModelProperty.self st)
  ∧ ByModelProperty._formControlDirective (ByModelProperty.self st')
    = ByModelProperty._formControlDirective (ByModelProperty.self st)
  ∧ ByModelProperty._formGroupSubscription (ByModelProperty.self st')
    = ByModelProperty._formGroupSubscription (ByModelProperty.self st)
  ∧ ByModelProperty._outputsSubscriptions (ByModelProperty.self st')
    = ByModelProperty._outputsSubscriptions (ByModelProperty.self st).
Proof.
  intros Hst Href. destruct ev as [e|f]; cbn; [|done].
  destruct (FactsA.ngOnChanges_after_creation_A js_eval e st ref Hst Href)
    as (st' & -> & Hre). cbn [fst].
  by destruct Hre as (_ & _ & _ & _ & _ & _ & -> & -> & -> & -> & _).
Qed.

Lemma react_keeps_bindings_B js_eval st ev ref :
  ByNameAttribute.consistent st →
  ByNameAttribute._componentRef (ByNameAttribute.self st) = Some ref →
  let st' := ByNameAttribute.react js_eval st ev in
  ByNameAttribute._formControl (ByNameAttribute.self st')
  = ByNameAttribute._formControl (ByNameAttribute.self st)
  ∧ ByNameAttribute._formControlDirective (ByNameAttribute.self st')
    = ByNameAttribute._formControlDirective (ByNameAttribute.self st)
  ∧ ByNameAttribute._formControlSubscription (ByNameAttribute.self st')
    = ByNameAttribute._formControlSubscription (ByNameAttribute.self st)
  ∧ ByNameAttribute._outputsSubscriptions (ByNameAttribute.self st')
    = ByNameAttribute._outputsSubscriptions (ByNameAttribute.self st).
Proof.
  intros Hst Href. destruct ev as [e|f]; cbn; [|done].
  destruct (FactsB.ngOnChanges_after_creation_B js_eval e st ref Hst Href)
    as (st' & -> & Hre). cbn [fst].
  by destruct Hre as (_ & _ & _ & _ & _ & _ & -> & -> & -> & -> & _).
Qed.

Lemma run_keeps_bindings_A js_eval evs st ref :
  ByModelProperty.consistent st →
  ByModelProperty._componentRef (ByModelProperty.self st) = Some ref →
  let st' := ByModelProperty.run js_eval evs st in
  ByModelProperty._formControl (ByModelProperty.self st')
  = ByModelProperty._formControl (ByModelProperty.self st)
  ∧ ByModelProperty._formControlDirective (ByModelProperty.self st')
    = ByModelProperty._formControlDirective (ByModelProperty.self st)
  ∧ ByModelProperty._formGroupSubscription (ByModelProperty.self st')
    = ByModelProperty._formGroupSubscription (ByModelProperty.self st)
  ∧ ByModelProperty._outputsSubscriptions (ByModelProperty.self st')
    = ByModelProperty._outputsSubscriptions (ByModelProperty.self st).
Proof.
  revert st ref. induction evs as [|ev evs IH]; intros st ref Hst Href; [done|].
  cbn zeta.
  change (ByModelProperty.run js_eval (ev :: evs) st)
    with (ByModelProperty.run js_eval evs (ByModelProperty.react js_eval st ev)).
  destruct (react_keeps_bindings_A js_eval st ev ref Hst Href)
    as (H1 & H2 & H3 & H4).
  destruct (FactsA.react_keeps_reference_A js_eval st ev ref Hst Href) as [_ Ht].
  destruct (ByModelProperty._componentRef
              (ByModelProperty.self (ByModelProperty.react js_eval st ev)))
    as [ref'|] eqn:Href'; [|done].
  destruct (IH (ByModelProperty.react js_eval st ev) ref')
    as (-> & -> & -> & ->); [by apply FactsA.react_consistent_A|done|].
  by rewrite H1, H2, H3, H4.
Qed.

Lemma run_keeps_bindings_B js_eval evs st ref :
  ByNameAttribute.consistent st →
  ByNameAttribute._componentRef (ByNameAttribute.self st) = Some ref →
  let st' := ByNameAttribute.run js_eval evs st in
  ByNameAttribute._formControl (ByNameAttribute.self st')
  = ByNameAttribute._formControl (ByNameAttribute.self st)
  ∧ ByNameAttribute._formControlDirective (ByNameAttribute.self st')
    = ByNameAttribute._formControlDirective (ByNameAttribute.self st)
  ∧ ByNameAttribute._formControlSubscription (ByNameAttribute.self st')
    = ByNameAttribute._formControlSubscription (ByNameAttribute.self st)
  ∧ ByNameAttribute._outputsSubscriptions (ByNameAttribute.self st')
    = ByNameAttribute._outputsSubscriptions (ByNameAttribute.self st).
Proof.
  revert st ref. induction evs as [|ev evs IH]; intros st ref Hst Href; [done|].
  cbn zeta.
  change (ByNameAttribute.run js_eval (ev :: evs) st)
    with (ByNameAttribute.run js_eval evs (ByNameAttribute.react js_eval st ev)).
  destruct (react_keeps_bindings_B js_eval st ev ref Hst Href)
    as (H1 & H2 & H3 & H4).
  destruct (FactsB.react_keeps_reference_B js_eval st ev ref Hst Href) as [_ Ht].
  destruct (ByNameAttribute._componentRef
              (ByNameAttribute.self (ByNameAttribute.react js_eval st ev)))
    as [ref'|] eqn:Href'; [|done].
  destruct (IH (ByNameAttribute.react js_eval st ev) ref')
    as (-> & -> & -> & ->); [by apply FactsB.react_consistent_B|done|].
  by rewrite H1, H2, H3, H4.
Qed.

(** X12.  The form control and the output subscriptions are decided when the
    view is created and never after: once the component reference exists,
    no sequence of [ngOnChanges()] calls, whatever the inputs and the
    changes of the view model and of the form in between, changes the fields
    [_formControl], [_formControlDirective], the form subscription or
    [_outputsSubscriptions].  A component created while the view model was
    falsy therefore never gets a form control, and outputs configured later
    are never subscribed. *)
Theorem bindings_fixed_after_creation (js_eval : evaluator) :
  (∀ w before after ref,
     let st1 := ByModelProperty.run js_eval before (ByModelProperty.created_in w) in
     let st2 := ByModelProperty.run js_eval after st1 in
     ByModelProperty._componentRef (ByModelProperty.self st1) = Some ref →
     ByModelProperty._formControl (ByModelProperty.self st2)
     = ByModelProperty._formControl (ByModelProperty.self st1)
     ∧ ByModelProperty._formControlDirective (ByModelProperty.self st2)
       = ByModelProperty._formControlDirective (ByModelProperty.self st1)
     ∧ ByModelProperty._formGroupSubscription (ByModelProperty.self st2)
       = ByModelProperty._formGroupSubscription (ByModelProperty.self st1)
     ∧ ByModelProperty._outputsSubscriptions (ByModelProperty.self st2)
       = ByModelProperty._outputsSubscriptions (ByModelProperty.self st1))
  ∧ (∀ w before after ref,
       let st1 := ByNameAttribute.run js_eval before (ByNameAttribute.created_in w) in
       let st2 := ByNameAttribute.run js_eval after st1 in
       ByNameAttribute._componentRef (ByNameAttribute.self st1) = Some ref →
       ByNameAttribute._formControl (ByNameAttribute.self st2)
       = ByNameAttribute._formControl (ByNameAttribute.self st1)
       ∧ ByNameAttribute._formControlDirective (ByNameAttribute.self st2)
         = ByNameAttribute._formControlDirective (ByNameAttribute.self st1)
       ∧ ByNameAttribute._formControlSubscription (ByNameAttribute.self st2)
         = ByNameAttribute._formControlSubscription (ByNameAttribute.self st1)
       ∧ ByNameAttribute._outputsSubscriptions (ByNameAttribute.self st2)
         = ByNameAttribute._outputsSubscriptions (ByNameAttribute.self st1)).
Proof.
  split; intros w before after ref st1 st2 Href.
  - apply (run_keeps_bindings_A js_eval after st1 ref); [|done].
    by apply FactsA.run_consistent_A.
  - apply (run_keeps_bindings_B js_eval after st1 ref); [|done].
    by apply FactsB.run_consistent_B.
Qed.

(** The README component created before the view model is there: the view
    model arriving later does not give it a form control. *)
Lemma bindings_fixed_after_creation_witness :
  ByModelProperty._formControl
    (ByModelProperty.self
       (ByModelProperty.run Samples.no_eval
          [ByModelProperty.Outside (set_viewModel Samples.person);
           ByModelProperty.Changes Samples.env_A]
          (ByModelProperty.run Samples.no_eval
             [ByModelProperty.Changes Samples.env_A]
             (ByModelProperty.created_in (Samples.world_of VNull)))))
  = None.
Proof.
  etransitivity.
  - eapply (proj1 (bindings_fixed_after_creation Samples.no_eval)
              (Samples.world_of VNull)
              [ByModelProperty.Changes Samples.env_A]
              [ByModelProperty.Outside (set_viewModel Samples.person);
               ByModelProperty.Changes Samples.env_A]).
    vm_compute. reflexivity.
  - vm_compute. reflexivity.
Defined.

(** ** Calling [ngOnChanges()] again with nothing changed *)

Lemma for_in_setInput_closed (f : value → value) (ins : gmap string value) ref :
  for_in (λ inputName v, setInput inputName (f v)) ins ref
  = {| cr_type := cr_type ref; cr_projected := cr_projected ref;
       cr_ngControl := cr_ngControl ref;
       cr_inputs := (f <$> ins) ∪ cr_inputs ref;
       cr_attributes := cr_attributes ref; cr_display := cr_display ref |}.
Proof.
  unfold for_in.
  apply (map_fold_weak_ind
           (λ r (m : gmap string value),
              r = {| cr_type := cr_type ref; cr_projected := cr_projected ref;
                     cr_ngControl := cr_ngControl ref;
                     cr_inputs := (f <$> m) ∪ cr_inputs ref;
                     cr_attributes := cr_attributes ref;
                     cr_display := cr_display ref |})).
  - rewrite fmap_empty, (left_id_L ∅ (∪)). by destruct ref.
  - intros key v m r Hkey ->. unfold setInput. cbn.
    by rewrite fmap_insert, insert_union_l.
Qed.

Lemma for_in_setAttribute_closed (f : value → value)
    (attrs : gmap string value) ref :
  for_in (λ attributeName v, setAttribute attributeName (f v)) attrs ref
  = {| cr_type := cr_type ref; cr_projected := cr_projected ref;
       cr_ngControl := cr_ngControl ref;
       cr_inputs := cr_inputs ref;
       cr_attributes := ((λ v, to_string (f v)) <$> attrs) ∪ cr_attributes ref;
       cr_display := cr_display ref |}.
Proof.
  unfold for_in.
  apply (map_fold_weak_ind
           (λ r (m : gmap string value),
              r = {| cr_type := cr_type ref; cr_projected := cr_projected ref;
                     cr_ngControl := cr_ngControl ref;
                     cr_inputs := cr_inputs ref;
                     cr_attributes :=
                       ((λ v, to_string (f v)) <$> m) ∪ cr_attributes ref;
                     cr_display := cr_display ref |})).
  - rewrite fmap_empty, (left_id_L ∅ (∪)). by destruct ref.
  - intros key v m r Hkey ->. unfold setAttribute. cbn.
    by rewrite fmap_insert, insert_union_l.
Qed.

Lemma union_twice {A} (m1 m2 : gmap string A) : m1 ∪ (m1 ∪ m2) = m1 ∪ m2.
Proof. by rewrite (assoc_L (∪)), (idemp_L (∪)). Qed.

Lemma alter_twice {A} (f : A → A) (a : positive) (m : gmap positive A) :
  (∀ x, f (f x) = f x) → alter f a (alter f a m) = alter f a m.
Proof.
  intros Hf. rewrite alter_alter_eq. apply alter_ext. intros x _. apply Hf.
Qed.

(** Each of the calls that close [ngOnChanges()] acts on the component
    reference or on the component's own control, and on nothing else. *)
Lemma setInputs_closed_A js_eval e w i :
  ByModelProperty.setInputs js_eval e
    {| ByModelProperty.shared := w; ByModelProperty.self := i |}
  = {| ByModelProperty.shared := w;
       ByModelProperty.self :=
         ByModelProperty.set_componentRef
           ((λ r,
               match ByModelProperty.inputs (ByModelProperty.configuration e) with
               | Some ins =>
                   for_in
                     (λ inputName v,
                        setInput inputName
                          (ByModelProperty.evaluateExpression js_eval v
                             (viewModel w) VUndefined))
                     ins r
               | None => r
               end) <$> ByModelProperty._componentRef i) i |}.
Proof.
  destruct i as [ref ? ? ? ? ? ?]. unfold ByModelProperty.setInputs.
  by destruct (ByModelProperty.inputs _), ref.
Qed.

Lemma setAttributes_closed_A js_eval e w i :
  ByModelProperty.setAttributes js_eval e
    {| ByModelProperty.shared := w; ByModelProperty.self := i |}
  = {| ByModelProperty.shared := w;
       ByModelProperty.self :=
         ByModelProperty.set_componentRef
           ((λ r,
               match ByModelProperty.attributes (ByModelProperty.configuration e) with
               | Some attrs =>
                   for_in
                     (λ attributeName v,
                        setAttribute attributeName
                          (ByModelProperty.evaluateExpression js_eval v
                             (viewModel w) VUndefined))
                     attrs r
               | None => r
               end) <$> ByModelProperty._componentRef i) i |}.
Proof.
  destruct i as [ref ? ? ? ? ? ?]. unfold ByModelProperty.setAttributes.
  by destruct (ByModelProperty.attributes _), ref.
Qed.

Lemma setVisibility_closed_A js_eval e w i :
  ByModelProperty.setVisibility js_eval e
    {| ByModelProperty.shared := w; ByModelProperty.self := i |}
  = {| ByModelProperty.shared := w;
       ByModelProperty.self :=
         ByModelProperty.set_componentRef
           ((λ r,
               let cfg := ByModelProperty.configuration e in
               if negb (nullish (ByModelProperty.hidden cfg))
               then setDisplay
                      (if truthy
                            (ByModelProperty.evaluateExpression js_eval
                               (ByModelProperty.hidden cfg) (viewModel w) VUndefined)
                       then Some "none" else None) r
               else r) <$> ByModelProperty._componentRef i) i |}.
Proof.
  destruct i as [ref ? ? ? ? ? ?]. unfold ByModelProperty.setVisibility.
  by destruct ref, (nullish _).
Qed.

Lemma setFormControlStatus_closed_A js_eval e w i :
  ByModelProperty.setFormControlStatus js_eval e
    {| ByModelProperty.shared := w; ByModelProperty.self := i |}
  = {| ByModelProperty.shared :=
         set_controls
           match ByModelProperty._formControl i with
           | Some a =>
               alter
                 (λ c,
                    let cfg := ByModelProperty.configuration e in
                    if negb (nullish (ByModelProperty.disabled cfg))
                    then setDisabled
                           (truthy
                              (ByModelProperty.evaluateExpression js_eval
                                 (ByModelProperty.disabled cfg) (viewModel w)
                                 VUndefined)) c
                    else c)
                 a (controls w)
           | None => controls w
           end w;
       ByModelProperty.self := i |}.
Proof.
  destruct w as [vm cs gs h]. unfold ByModelProperty.setFormControlStatus.
  cbn [ByModelProperty.self ByModelProperty.shared].
  destruct (ByModelProperty._formControl i) as [a|]; [|done].
  destruct (nullish _); cbn; [|done].
  by rewrite (alter_id (λ c, c)).
Qed.

Lemma setFormControlValidators_closed_A js_eval e w i :
  ByModelProperty.setFormControlValidators js_eval e
    {| ByModelProperty.shared := w; ByModelProperty.self := i |}
  = {| ByModelProperty.shared :=
         set_controls
           match ByModelProperty._formControl i with
           | Some a =>
               alter
                 (λ c,
                    addValidators
                      (ByModelProperty.validators js_eval e (viewModel w))
                      (clearValidators c))
                 a (controls w)
           | None => controls w
           end w;
       ByModelProperty.self := i |}.
Proof.
  destruct w as [vm cs gs h]. unfold ByModelProperty.setFormControlValidators.
  cbn [ByModelProperty.self ByModelProperty.shared].
  by destruct (ByModelProperty._formControl i) as [a|].
Qed.

(** The five calls in one step. *)
Lemma reapply_chain_closed_A js_eval e w i :
  let cfg := ByModelProperty.configuration e in
  let ev x :=
    ByModelProperty.evaluateExpression js_eval x (viewModel w) VUndefined in
  let inp r :=
    match ByModelProperty.inputs cfg with
    | Some ins => for_in (λ inputName v, setInput inputName (ev v)) ins r
    | None => r
    end in
  let att r :=
    match ByModelProperty.attributes cfg with
    | Some attrs =>
        for_in (λ attributeName v, setAttribute attributeName (ev v)) attrs r
    | None => r
    end in
  let vis r :=
    if negb (nullish (ByModelProperty.hidden cfg))
    then setDisplay
           (if truthy (ev (ByModelProperty.hidden cfg)) then Some "none" else None)
           r
    else r in
  let sta c :=
    if negb (nullish (ByModelProperty.disabled cfg))
    then setDisabled (truthy (ev (ByModelProperty.disabled cfg))) c
    else c in
  let val c :=
    addValidators (ByModelProperty.validators js_eval e (viewModel w))
      (clearValidators c) in
  ByModelProperty.setFormControlValidators js_eval e
    (ByModelProperty.setFormControlStatus js_eval e
       (ByModelProperty.setVisibility js_eval e
          (ByModelProperty.setAttributes js_eval e
             (ByModelProperty.setInputs js_eval e
                {| ByModelProperty.shared := w; ByModelProperty.self := i |}))))
  = {| ByModelProperty.shared :=
         set_controls
           match ByModelProperty._formControl i with
           | Some a => alter val a (alter sta a (controls w))
           | None => controls w
           end w;
       ByModelProperty.self :=
         ByModelProperty.set_componentRef
           ((λ r, vis (att (inp r))) <$> ByModelProperty._componentRef i) i |}.
Proof.
  cbn zeta.
  rewrite setInputs_closed_A, setAttributes_closed_A, setVisibility_closed_A,
    setFormControlStatus_closed_A, setFormControlValidators_closed_A.
  destruct w as [vm cs gs h], i as [ref subs ctl dir sub cmp views].
  by destruct ref, ctl.
Qed.

Lemma reapply_chain_idempotent_A js_eval e st :
  let F st :=
    ByModelProperty.setFormControlValidators js_eval e
      (ByModelProperty.setFormControlStatus js_eval e
         (ByModelProperty.setVisibility js_eval e
            (ByModelProperty.setAttributes js_eval e
               (ByModelProperty.setInputs js_eval e st)))) in
  F (F st) = F st.
Proof.
  cbn zeta. destruct st as [w i].
  rewrite !reapply_chain_closed_A. cbn zeta.
  destruct w as [vm cs gs h], i as [ref subs ctl dir sub cmp views].
  unfold set_controls, ByModelProperty.set_componentRef.
  cbn -[for_in ByModelProperty.validators ByModelProperty.evaluateExpression].
  f_equal; f_equal.
  - destruct ctl as [a|]; [|done].
    rewrite !alter_alter_eq. apply alter_ext. intros c _.
    by destruct (nullish _).
  - destruct ref as [ref|]; [|done]. cbn. f_equal.
    destruct (ByModelProperty.inputs _), (ByModelProperty.attributes _),
      (nullish _);
      rewrite ?for_in_setInput_closed, ?for_in_setAttribute_closed; cbn;
      by rewrite ?union_twice.
Qed.

(** The same for the documented revision, whose calls compare with the
    present status and the present attributes before they write. *)
Lemma for_in_setAttribute_changed_closed (f : value → value)
    (attrs : gmap string value) ref :
  for_in
    (λ attributeName v r,
       if ByNameAttribute.same_as_attribute (f v) (getAttribute attributeName r)
       then r else setAttribute attributeName (f v) r)
    attrs ref
  = {| cr_type := cr_type ref; cr_projected := cr_projected ref;
       cr_ngControl := cr_ngControl ref;
       cr_inputs := cr_inputs ref;
       cr_attributes :=
         merge
           (λ ov old,
              match ov with
              | Some v =>
                  if ByNameAttribute.same_as_attribute (f v) old
                  then old else Some (to_string (f v))
              | None => old
              end)
           attrs (cr_attributes ref);
       cr_display := cr_display ref |}.
Proof.
  pose proof (for_in_setAttribute_changed f attrs ref) as Hattr.
  assert (cr_type (for_in
    (λ attributeName v r,
       if ByNameAttribute.same_as_attribute (f v) (getAttribute attributeName r)
       then r else setAttribute attributeName (f v) r) attrs ref) = cr_type ref
    ∧ cr_projected (for_in
    (λ attributeName v r,
       if ByNameAttribute.same_as_attribute (f v) (getAttribute attributeName r)
       then r else setAttribute attributeName (f v) r) attrs ref)
      = cr_projected ref
    ∧ cr_ngControl (for_in
    (λ attributeName v r,
       if ByNameAttribute.same_as_attribute (f v) (getAttribute attributeName r)
       then r else setAttribute attributeName (f v) r) attrs ref)
      = cr_ngControl ref
    ∧ cr_inputs (for_in
    (λ attributeName v r,
       if ByNameAttribute.same_as_attribute (f v) (getAttribute attributeName r)
       then r else setAttribute attributeName (f v) r) attrs ref)
      = cr_inputs ref
    ∧ cr_display (for_in
    (λ attributeName v r,
       if ByNameAttribute.same_as_attribute (f v) (getAttribute attributeName r)
       then r else setAttribute attributeName (f v) r) attrs ref)
      = cr_display ref) as Hrest.
  { apply (for_in_keeps _
             (λ r, cr_type r = cr_type ref
                   ∧ cr_projected r = cr_projected ref
                   ∧ cr_ngControl r = cr_ngControl ref
                   ∧ cr_inputs r = cr_inputs ref
                   ∧ cr_display r = cr_display ref)); [|done].
    intros key v r Hr. by destruct (ByNameAttribute.same_as_attribute _ _). }
  destruct (for_in _ attrs ref) as [t p n i a d].
  cbn in Hattr, Hrest. destruct Hrest as (-> & -> & -> & -> & ->).
  f_equal. apply map_eq. intros name. rewrite Hattr, lookup_merge.
  by destruct (attrs !! name), (cr_attributes ref !! name).
Qed.

Lemma setInputs_closed_B js_eval e w i :
  ByNameAttribute.setInputs js_eval e
    {| ByNameAttribute.shared := w; ByNameAttribute.self := i |}
  = {| ByNameAttribute.shared := w;
       ByNameAttribute.self :=
         ByNameAttribute.set_componentRef
           ((λ r,
               match ByNameAttribute.inputs (ByNameAttribute.configuration e) with
               | Some ins =>
                   for_in
                     (λ inputName v,
                        setInput inputName
                          (ByNameAttribute.evaluateExpression js_eval v
                             (Some (viewModel w)) VUndefined))
                     ins r
               | None => r
               end) <$> ByNameAttribute._componentRef i) i |}.
Proof.
  destruct i as [ref ? ? ? ? ? ?]. unfold ByNameAttribute.setInputs.
  destruct (ByNameAttribute.inputs _) as [ins|], ref as [ref|]; try done.
  cbn [ByNameAttribute.self ByNameAttribute.shared ByNameAttribute._componentRef].
  destruct (0 <? size ins)%nat eqn:Hsize; [done|].
  apply Nat.ltb_ge in Hsize.
  assert (ins = ∅) as -> by (apply map_size_empty_iff; lia).
  cbn [fmap option_fmap option_map]. unfold for_in. by rewrite map_fold_empty.
Qed.

Lemma setAttributes_closed_B js_eval e w i :
  ByNameAttribute.setAttributes js_eval e
    {| ByNameAttribute.shared := w; ByNameAttribute.self := i |}
  = {| ByNameAttribute.shared := w;
       ByNameAttribute.self :=
         ByNameAttribute.set_componentRef
           ((λ r,
               match ByNameAttribute.attributes (ByNameAttribute.configuration e) with
               | Some attrs =>
                   for_in
                     (λ attributeName v r,
                        let x :=
                          ByNameAttribute.evaluateExpression js_eval v
                            (Some (viewModel w)) VUndefined in
                        if ByNameAttribute.same_as_attribute x
                             (getAttribute attributeName r)
                        then r else setAttribute attributeName x r)
                     attrs r
               | None => r
               end) <$> ByNameAttribute._componentRef i) i |}.
Proof.
  destruct i as [ref ? ? ? ? ? ?]. unfold ByNameAttribute.setAttributes.
  destruct (ByNameAttribute.attributes _) as [attrs|], ref as [ref|]; try done.
  cbn [ByNameAttribute.self ByNameAttribute.shared ByNameAttribute._componentRef].
  destruct (0 <? size attrs)%nat eqn:Hsize; [done|].
  apply Nat.ltb_ge in Hsize.
  assert (attrs = ∅) as -> by (apply map_size_empty_iff; lia).
  cbn [fmap option_fmap option_map]. unfold for_in. by rewrite map_fold_empty.
Qed.

(** Writing the status only when it differs is writing it. *)
Lemma setFormControlStatus_closed_B js_eval e w i :
  ByNameAttribute.setFormControlStatus js_eval e
    {| ByNameAttribute.shared := w; ByNameAttribute.self := i |}
  = {| ByNameAttribute.shared :=
         set_controls
           match ByNameAttribute._formControl i,
                 ByNameAttribute.attributes (ByNameAttribute.configuration e) with
           | Some a, Some attrs =>
               alter
                 (λ c,
                    match ByNameAttribute.evaluateExpression js_eval
                            (ByNameAttribute.attribute attrs "disabled")
                            (Some (viewModel w)) VUndefined with
                    | VBool isDisabled =>
                        if negb (nullish (ByNameAttribute.attribute attrs "disabled"))
                        then setDisabled isDisabled c
                        else c
                    | _ => c
                    end)
                 a (controls w)
           | _, _ => controls w
           end w;
       ByNameAttribute.self := i |}.
Proof.
  destruct w as [vm cs gs h]. unfold ByNameAttribute.setFormControlStatus.
  cbn [ByNameAttribute.self ByNameAttribute.shared viewModel controls].
  destruct (ByNameAttribute._formControl i) as [a|]; [|done].
  destruct (ByNameAttribute.attributes _) as [attrs|]; [|done].
  destruct (nullish _); cbn [negb].
  { rewrite alter_id; [done|]. intros c _.
    by destruct (ByNameAttribute.evaluateExpression _ _ _ _). }
  destruct (ByNameAttribute.evaluateExpression _ _ _ _) as [| |b| | |];
    try by rewrite (alter_id (λ c, c)).
  destruct (cs !! a) as [c|] eqn:Hc.
  - destruct (_ || _) eqn:Hcond; [done|].
    rewrite alter_id; [done|]. intros c' Hc'.
    assert (c' = c) as -> by congruence.
    destruct c as [v vs d]. unfold setDisabled. cbn in *.
    by destruct b, d.
  - by rewrite alter_id'.
Qed.

Lemma setFormControlValidators_closed_B js_eval e w i :
  ByNameAttribute.setFormControlValidators js_eval e
    {| ByNameAttribute.shared := w; ByNameAttribute.self := i |}
  = {| ByNameAttribute.shared :=
         set_controls
           match ByNameAttribute._formControl i,
                 ByNameAttribute.attributes (ByNameAttribute.configuration e),
                 ByNameAttribute._componentRef i with
           | Some a, Some attrs, Some ref =>
               alter
                 (λ c,
                    if (0 <? size attrs)%nat then
                      match ByNameAttribute.validators js_eval (viewModel w)
                              attrs ref with
                      | [] => c
                      | vs => addValidators vs (clearValidators c)
                      end
                    else c)
                 a (controls w)
           | _, _, _ => controls w
           end w;
       ByNameAttribute.self := i |}.
Proof.
  destruct w as [vm cs gs h]. unfold ByNameAttribute.setFormControlValidators.
  cbn [ByNameAttribute.self ByNameAttribute.shared viewModel controls].
  destruct (ByNameAttribute._formControl i) as [a|]; [|done].
  destruct (ByNameAttribute.attributes _) as [attrs|]; [|done].
  destruct (ByNameAttribute._componentRef i) as [ref|]; [|done].
  destruct (0 <? size attrs)%nat; [|by rewrite (alter_id (λ c, c))].
  destruct (ByNameAttribute.validators _ _ _ _); [|done].
  by rewrite (alter_id (λ c, c)).
Qed.

(** Once the attributes have been written, no validator differs from the
    attribute of its name: the list [validators] comes out empty. *)
Lemma validators_settled_B js_eval vm (attrs : gmap string value)
    (old : gmap string string) ref :
  cr_attributes ref
  = merge
      (λ ov old,
         match ov with
         | Some v =>
             let x :=
               ByNameAttribute.evaluateExpression js_eval v (Some vm) VUndefined in
             if ByNameAttribute.same_as_attribute x old
             then old else Some (to_string x)
         | None => old
         end)
      attrs old →
  ByNameAttribute.validators js_eval vm attrs ref = [].
Proof.
  intros Href.
  assert (∀ key,
    let x :=
      ByNameAttribute.evaluateExpression js_eval
        (ByNameAttribute.attribute attrs key) (Some vm) VUndefined in
    x ≠ VUndefined → x ≠ VNull →
    bool_decide (Some (to_string x) = cr_attributes ref !! key) = true) as Hk.
  { intros key x Hundef Hnull. apply bool_decide_eq_true_2.
    rewrite Href, lookup_merge. subst x. unfold ByNameAttribute.attribute in *.
    destruct (attrs !! key) as [v|]; cbn in *; [|done].
    destruct (ByNameAttribute.same_as_attribute _ (old !! key)) eqn:Hsame.
    - apply same_as_attribute_spec in Hsame as [[Hx _]|Hx]; [done|].
      rewrite Hx. by destruct (old !! key).
    - by destruct (old !! key). }
  unfold ByNameAttribute.validators, ByNameAttribute.differs, getAttribute.
  cbn zeta.
  repeat (apply app_nil; split);
    match goal with
    | |- context [ByNameAttribute.attribute attrs ?key] =>
        pose proof (Hk key) as H; cbn zeta in H;
        destruct (ByNameAttribute.evaluateExpression js_eval
                    (ByNameAttribute.attribute attrs key) (Some vm) VUndefined)
          as [| |[]|n|s|cls props];
        cbn in *; try done; rewrite H by done; cbn;
        by rewrite ?andb_false_r
    end.
Qed.

Lemma merge_settled (attrs : gmap string value) (f : value → value)
    (old : gmap string string) :
  let F (ov : option value) (old : option string) :=
    match ov with
    | Some v =>
        if ByNameAttribute.same_as_attribute (f v) old
        then old else Some (to_string (f v))
    | None => old
    end in
  merge F attrs (merge F attrs old) = merge F attrs old.
Proof.
  cbn zeta. apply map_eq. intros name. rewrite !lookup_merge.
  destruct (attrs !! name) as [v|], (old !! name) as [s|];
    cbn -[ByNameAttribute.same_as_attribute]; try done.
  - destruct (ByNameAttribute.same_as_attribute (f v) (Some s)) eqn:Hsame;
      cbn -[ByNameAttribute.same_as_attribute].
    + by rewrite Hsame.
    + by destruct (ByNameAttribute.same_as_attribute (f v)
                     (Some (to_string (f v)))).
  - destruct (ByNameAttribute.same_as_attribute (f v) None) eqn:Hsame;
      cbn -[ByNameAttribute.same_as_attribute].
    + by rewrite Hsame.
    + by destruct (ByNameAttribute.same_as_attribute (f v)
                     (Some (to_string (f v)))).
Qed.

Lemma reapply_chain_idempotent_B js_eval e st :
  let F st :=
    ByNameAttribute.setAttributes js_eval e
      (ByNameAttribute.setFormControlValidators js_eval e
         (ByNameAttribute.setFormControlStatus js_eval e
            (ByNameAttribute.setInputs js_eval e st))) in
  F (F st) = F st.
Proof.
  cbn zeta.
  destruct st as [[vm cs gs h] [ref subs ctl dir sub cmp views]].
  rewrite setInputs_closed_B, setFormControlStatus_closed_B,
    setFormControlValidators_closed_B, setAttributes_closed_B.
  unfold set_controls, ByNameAttribute.set_componentRef.
  cbn [viewModel controls groups hostAttached
       ByNameAttribute._componentRef ByNameAttribute._outputsSubscriptions
       ByNameAttribute._formControl ByNameAttribute._formControlDirective
       ByNameAttribute._formControlSubscription ByNameAttribute._component
       ByNameAttribute.container].
  rewrite setInputs_closed_B, setFormControlStatus_closed_B,
    setFormControlValidators_closed_B, setAttributes_closed_B.
  unfold set_controls, ByNameAttribute.set_componentRef.
  cbn [viewModel controls groups hostAttached
       ByNameAttribute._componentRef ByNameAttribute._outputsSubscriptions
       ByNameAttribute._formControl ByNameAttribute._formControlDirective
       ByNameAttribute._formControlSubscription ByNameAttribute._component
       ByNameAttribute.container].
  f_equal; f_equal.
  - destruct ctl as [a|]; [|done].
    destruct (ByNameAttribute.attributes (ByNameAttribute.configuration e))
      as [attrs|]; [|done].
    destruct ref as [ref|]; cbn [fmap option_fmap option_map].
    + rewrite !alter_alter_eq. apply alter_ext. intros c _. cbn [compose].
      rewrite (validators_settled_B js_eval vm attrs (cr_attributes ref)).
      * destruct (ByNameAttribute.evaluateExpression js_eval
                    (ByNameAttribute.attribute attrs "disabled") _ _)
          as [| |b| | |]; try by destruct (0 <? size attrs)%nat.
        destruct (nullish _), (0 <? size attrs)%nat; cbn [negb]; try done.
        by destruct (ByNameAttribute.validators _ _ _ _).
      * destruct (ByNameAttribute.inputs _);
          rewrite ?for_in_setInput_closed, for_in_setAttribute_changed_closed;
          cbn [cr_attributes];
          by rewrite ?for_in_setInput_closed.
    + rewrite !alter_alter_eq. apply alter_ext. intros c _. cbn [compose].
      destruct (ByNameAttribute.evaluateExpression js_eval
                  (ByNameAttribute.attribute attrs "disabled") _ _)
        as [| |b| | |]; try done.
      by destruct (nullish _).
  - destruct ref as [ref|]; [|done]. cbn [fmap option_fmap option_map]. f_equal.
    destruct (ByNameAttribute.inputs _), (ByNameAttribute.attributes _);
      rewrite ?for_in_setInput_closed, ?for_in_setAttribute_changed_closed;
      cbn [cr_type cr_projected cr_ngControl cr_inputs cr_attributes cr_display];
      rewrite ?for_in_setInput_closed, ?for_in_setAttribute_changed_closed;
      cbn [cr_type cr_projected cr_ngControl cr_inputs cr_attributes cr_display];
      by rewrite ?union_twice, ?merge_settled.
Qed.

Lemma createComponent_keeps_component_A e st :
  ByModelProperty._component
    (ByModelProperty.self (ByModelProperty.createComponent e st).1)
  = ByModelProperty._component (ByModelProperty.self st).
Proof.
  destruct (FactsA.createComponent_cases_A e st)
    as [->|(c & ref & Hc & _ & Hc' & _)]; [done|congruence].
Qed.

Lemma createComponent_keeps_component_B js_eval e st :
  ByNameAttribute._component
    (ByNameAttribute.self (ByNameAttribute.createComponent js_eval e st).1)
  = ByNameAttribute._component (ByNameAttribute.self st).
Proof.
  destruct (FactsB.createComponent_cases_B js_eval e st)
    as [->|(c & ref & Hc & _ & Hc' & _)]; [done|congruence].
Qed.

(** A class that was looked up, or awaited, is not looked up again, and a
    lookup that failed fails again. *)
Lemma loadComponentAsync_again_A e st st1 st' :
  ByModelProperty.loadComponentAsync e st = Ok st1 →
  ByModelProperty._component (ByModelProperty.self st')
  = ByModelProperty._component (ByModelProperty.self st1) →
  ByModelProperty.loadComponentAsync e st' = Ok st'.
Proof.
  unfold ByModelProperty.loadComponentAsync. intros Hload Hcmp.
  destruct (ByModelProperty.type (ByModelProperty.configuration e))
    as [[name|a]|]; [| |done];
    (destruct (ByModelProperty._component (ByModelProperty.self st')) as [c'|]
       eqn:Hc'; [done|]);
    (destruct (ByModelProperty._component (ByModelProperty.self st)) as [c|]
       eqn:Hc; [inversion Hload; subst st1; congruence|]).
  - inversion Hload; subst st1. cbn in Hcmp. rewrite <- Hcmp.
    destruct st' as [w [? ? ? ? ? ? ?]]. cbn in Hc'. by subst.
  - destruct (await a) as [c|err]; [|done].
    inversion Hload; subst st1. done.
Qed.

Lemma loadComponentAsync_again_B e st st1 st' :
  ByNameAttribute.loadComponentAsync e st = Ok st1 →
  ByNameAttribute._component (ByNameAttribute.self st')
  = ByNameAttribute._component (ByNameAttribute.self st1) →
  ByNameAttribute.loadComponentAsync e st' = Ok st'.
Proof.
  unfold ByNameAttribute.loadComponentAsync. intros Hload Hcmp.
  destruct (ByNameAttribute.type (ByNameAttribute.configuration e))
    as [[name|a]|]; [| |done];
    (destruct (ByNameAttribute._component (ByNameAttribute.self st')) as [c'|]
       eqn:Hc'; [done|]);
    (destruct (ByNameAttribute._component (ByNameAttribute.self st)) as [c|]
       eqn:Hc; [inversion Hload; subst st1; congruence|]).
  - destruct (FGDynamicService.getComponent name _) as [a|].
    + destruct (await a) as [c|err]; [|done].
      inversion Hload; subst st1. done.
    + destruct st' as [w [? ? ? ? ? ? ?]]. cbn in Hc'. by subst.
  - destruct (await a) as [c|err]; [|done].
    inversion Hload; subst st1. done.
Qed.

Lemma createComponent_again_A e st1 st' :
  ByModelProperty.reapplies (ByModelProperty.createComponent e st1).1 st' →
  ByModelProperty.createComponent e st' = (st', Ok ()).
Proof.
  intros (_ & _ & _ & _ & _ & Hcmp & _ & _ & _ & _ & _ & Hty & _).
  destruct (ByModelProperty._componentRef (ByModelProperty.self st'))
    as [ref'|] eqn:Href'; [by eapply FactsA.createComponent_noop_A|].
  unfold ByModelProperty.createComponent. rewrite Href'.
  destruct (ByModelProperty._component (ByModelProperty.self st')) as [c|]
    eqn:Hc'; [|done].
  destruct (ByModelProperty._viewContainerRef e) eqn:Hv; [|done].
  exfalso.
  rewrite createComponent_keeps_component_A in Hcmp.
  destruct (ByModelProperty._componentRef (ByModelProperty.self st1))
    as [ref1|] eqn:Href1.
  - rewrite (FactsA.createComponent_noop_A e st1 ref1 Href1) in Hty.
    cbn in Hty. by rewrite Href1 in Hty.
  - destruct (createComponent_creates_A e st1 c) as (_ & _ & Href & _);
      [congruence|done|done|].
    by rewrite Href in Hty.
Qed.

Lemma createComponent_again_B js_eval e st1 st' :
  ByNameAttribute.reapplies
    (ByNameAttribute.createComponent js_eval e st1).1 st' →
  ByNameAttribute.createComponent js_eval e st' = (st', Ok ()).
Proof.
  intros (_ & _ & _ & _ & _ & Hcmp & _ & _ & Hdir & _ & _ & Hty & _).
  destruct (ByNameAttribute._componentRef (ByNameAttribute.self st'))
    as [ref'|] eqn:Href'; [by eapply FactsB.createComponent_noop_B|].
  unfold ByNameAttribute.createComponent. rewrite Href'.
  destruct (ByNameAttribute._component (ByNameAttribute.self st')) as [c|]
    eqn:Hc'; [|done].
  destruct (ByNameAttribute._formControlDirective (ByNameAttribute.self st'))
    as [d|] eqn:Hd'; [done|].
  destruct (ByNameAttribute._viewContainerRef e) eqn:Hv; [|done].
  exfalso.
  rewrite createComponent_keeps_component_B in Hcmp.
  destruct (FactsB.createComponent_cases_B js_eval e st1)
    as [Hsame|(c1 & ref & _ & _ & _ & Href & _)].
  - rewrite Hsame in Hty, Hdir.
    destruct (createComponent_creates_B js_eval e st1 c) as (_ & _ & Href & _);
      [congruence| |congruence|done|].
    + by destruct (ByNameAttribute._componentRef (ByNameAttribute.self st1)).
    + rewrite Hsame in Href.  by rewrite Href in Hty.
  - by rewrite Href in Hty.
Qed.

(** X13.  [ngOnChanges()] is idempotent: a call that fulfils, made again with
    the same inputs when nothing outside has changed, fulfils again and
    leaves every object as the first call left it.  Nothing is looked up or
    created twice, the inputs and attributes are set to the values they
    have, the status is the one the control has; the first revision
    replaces the validators by the same list, and the documented revision
    finds every attribute equal to its validator and leaves the validators
    alone. *)
Theorem ngOnChanges_idempotent (js_eval : evaluator) :
  (∀ e st st',
     ByModelProperty.ngOnChanges js_eval e st = (st', Ok ()) →
     ByModelProperty.ngOnChanges js_eval e st' = (st', Ok ()))
  ∧ (∀ e st st',
       ByNameAttribute.ngOnChanges js_eval e st = (st', Ok ()) →
       ByNameAttribute.ngOnChanges js_eval e st' = (st', Ok ())).
Proof.
  split; intros e st st'.
  - unfold ByModelProperty.ngOnChanges at 1.
    destruct (ByModelProperty.loadComponentAsync e st) as [st1|err] eqn:Hload;
      [|done].
    destruct (ByModelProperty.createComponent e st1) as [st2 [[]|err]] eqn:Hcc;
      [|done].
    intros [= <-].
    pose proof (FactsA.reapply_chain_A js_eval e st2) as Hre.
    assert (st2 = (ByModelProperty.createComponent e st1).1) as Hst2
      by by rewrite Hcc.
    unfold ByModelProperty.ngOnChanges.
    erewrite (loadComponentAsync_again_A e st st1 _ Hload).
    2:{ destruct Hre as (_ & _ & _ & _ & _ & -> & _).
        rewrite Hst2. apply createComponent_keeps_component_A. }
    erewrite (createComponent_again_A e st1) by by rewrite <- Hst2.
    f_equal. apply reapply_chain_idempotent_A.
  - unfold ByNameAttribute.ngOnChanges at 1.
    destruct (ByNameAttribute.loadComponentAsync e st) as [st1|err] eqn:Hload;
      [|done].
    destruct (ByNameAttribute.createComponent js_eval e st1)
      as [st2 [[]|err]] eqn:Hcc; [|done].
    intros [= <-].
    pose proof (FactsB.reapply_chain_B js_eval e st2) as Hre.
    assert (st2 = (ByNameAttribute.createComponent js_eval e st1).1) as Hst2
      by by rewrite Hcc.
    unfold ByNameAttribute.ngOnChanges.
    erewrite (loadComponentAsync_again_B e st st1 _ Hload).
    2:{ destruct Hre as (_ & _ & _ & _ & _ & -> & _).
        rewrite Hst2. apply createComponent_keeps_component_B. }
    erewrite (createComponent_again_B js_eval e st1) by by rewrite <- Hst2.
    f_equal. apply reapply_chain_idempotent_B.
Qed.

Lemma ngOnChanges_idempotent_witness :
  ByNameAttribute.ngOnChanges Samples.no_eval Samples.env_B Samples.created_B
  = (Samples.created_B, Ok ()).
Proof.
  apply (proj2 (ngOnChanges_idempotent Samples.no_eval)
           Samples.env_B Samples.fresh_B).
  vm_compute. reflexivity.
Defined.

(** ** A bound name without a segment *)

Lemma removeHostElement_keeps_A st :
  viewModel (ByModelProperty.shared (ByModelProperty.removeHostElement st))
  = viewModel (ByModelProperty.shared st)
  ∧ controls (ByModelProperty.shared (ByModelProperty.removeHostElement st))
    = controls (ByModelProperty.shared st)
  ∧ groups (ByModelProperty.shared (ByModelProperty.removeHostElement st))
    = groups (ByModelProperty.shared st)
  ∧ ByModelProperty.self (ByModelProperty.removeHostElement st)
    = ByModelProperty.self st.
Proof.
  unfold ByModelProperty.removeHostElement.
  by destruct (hostAttached (ByModelProperty.shared st)).
Qed.

Lemma removeHostElement_keeps_B st :
  viewModel (ByNameAttribute.shared (ByNameAttribute.removeHostElement st))
  = viewModel (ByNameAttribute.shared st)
  ∧ controls (ByNameAttribute.shared (ByNameAttribute.removeHostElement st))
    = controls (ByNameAttribute.shared st)
  ∧ groups (ByNameAttribute.shared (ByNameAttribute.removeHostElement st))
    = groups (ByNameAttribute.shared st)
  ∧ ByNameAttribute.self (ByNameAttribute.removeHostElement st)
    = ByNameAttribute.self st.
Proof.
  unfold ByNameAttribute.removeHostElement.
  by destruct (hostAttached (ByNameAttribute.shared st)).
Qed.

Lemma handleOutputs_keeps_control_A e st :
  ByModelProperty._formControl
    (ByModelProperty.self (ByModelProperty.handleOutputs e st))
  = ByModelProperty._formControl (ByModelProperty.self st)
  ∧ ByModelProperty._formControlDirective
      (ByModelProperty.self (ByModelProperty.handleOutputs e st))
    = ByModelProperty._formControlDirective (ByModelProperty.self st).
Proof.
  unfold ByModelProperty.handleOutputs.
  by destruct (ByModelProperty.outputs (ByModelProperty.configuration e)),
              (ByModelProperty._componentRef (ByModelProperty.self st)).
Qed.

Lemma handleOutputs_keeps_control_B e st :
  ByNameAttribute._formControl
    (ByNameAttribute.self (ByNameAttribute.handleOutputs e st))
  = ByNameAttribute._formControl (ByNameAttribute.self st)
  ∧ ByNameAttribute._formControlDirective
      (ByNameAttribute.self (ByNameAttribute.handleOutputs e st))
    = ByNameAttribute._formControlDirective (ByNameAttribute.self st).
Proof.
  unfold ByNameAttribute.handleOutputs.
  destruct (ByNameAttribute.outputs (ByNameAttribute.configuration e)) as [outs|],
           (ByNameAttribute._componentRef (ByNameAttribute.self st)); try done.
  by destruct (0 <? size outs)%nat.
Qed.

(** X14.  A bound name made of delimiters only (["."], ["[]"]) passes the
    guards of [createFormControl] and then cannot be read.  The first
    [ngOnChanges()] of a component whose class resolves rejects with a
    [TypeError] after the view has been created: the view is in the
    container and the host element is gone, but no form control exists,
    the form is untouched, and no input has been set.  The next call
    fulfils, and the component still has no form control. *)
Theorem ngOnChanges_rejects_unreadable_name (js_eval : evaluator) :
  (∀ (e : ByModelProperty.env) w g p c,
     ByModelProperty.loadComponentAsync e (ByModelProperty.created_in w)
     = Ok (ByModelProperty.on_self (ByModelProperty.set_component (Some c))
             (ByModelProperty.created_in w)) →
     ByModelProperty._viewContainerRef e = true →
     ByModelProperty.formGroup e = Some g →
     ByModelProperty.modelProperty (ByModelProperty.configuration e) = Some p →
     p ≠ "" → regex_match p = None →
     truthy (viewModel w) = true →
     ∃ st' st'',
       ByModelProperty.ngOnChanges js_eval e (ByModelProperty.created_in w)
       = (st', Throw TypeError)
       ∧ ByModelProperty.container (ByModelProperty.self st') = [c]
       ∧ cr_inputs <$> ByModelProperty._componentRef (ByModelProperty.self st')
         = Some ∅
       ∧ hostAttached (ByModelProperty.shared st') = false
       ∧ controls (ByModelProperty.shared st') = controls w
       ∧ groups (ByModelProperty.shared st') = groups w
       ∧ ByModelProperty._formControl (ByModelProperty.self st') = None
       ∧ ByModelProperty.ngOnChanges js_eval e st' = (st'', Ok ())
       ∧ ByModelProperty._formControl (ByModelProperty.self st'') = None)
  ∧ (∀ (e : ByNameAttribute.env) w g attrs name c,
       ByNameAttribute.loadComponentAsync e (ByNameAttribute.created_in w)
       = Ok (ByNameAttribute.on_self (ByNameAttribute.set_component (Some c))
               (ByNameAttribute.created_in w)) →
       ByNameAttribute._viewContainerRef e = true →
       ByNameAttribute.formGroup e = Some g →
       ByNameAttribute.attributes (ByNameAttribute.configuration e) = Some attrs →
       truthy (ByNameAttribute.attribute attrs "name") = true →
       ByNameAttribute.evaluateExpression js_eval
         (ByNameAttribute.attribute attrs "name") (Some (viewModel w)) VUndefined
       = VStr name →
       name ≠ "" → regex_match name = None →
       truthy (viewModel w) = true →
       ∃ st' st'',
         ByNameAttribute.ngOnChanges js_eval e (ByNameAttribute.created_in w)
         = (st', Throw TypeError)
         ∧ ByNameAttribute.container (ByNameAttribute.self st') = [c]
         ∧ cr_inputs <$> ByNameAttribute._componentRef (ByNameAttribute.self st')
           = Some ∅
         ∧ hostAttached (ByNameAttribute.shared st') = false
         ∧ controls (ByNameAttribute.shared st') = controls w
         ∧ groups (ByNameAttribute.shared st') = groups w
         ∧ ByNameAttribute._formControl (ByNameAttribute.self st') = None
         ∧ ByNameAttribute.ngOnChanges js_eval e st' = (st'', Ok ())
         ∧ ByNameAttribute._formControl (ByNameAttribute.self st'') = None).
Proof.
  split.
  - intros e w g p c Hload Hv Hg Hp Hne Hm Hvm.
    pose proof (FactsA.ngOnChanges_consistent_A js_eval e
                  (ByModelProperty.created_in w) eq_refl) as Hcons.
    revert Hcons.
    unfold ByModelProperty.ngOnChanges at 1 2. rewrite Hload.
    unfold ByModelProperty.createComponent.
    cbn [ByModelProperty.created_in ByModelProperty.on_self
         ByModelProperty.self ByModelProperty.shared ByModelProperty.initial
         ByModelProperty.set_component ByModelProperty._component
         ByModelProperty._componentRef].
    rewrite Hv.
    unfold ByModelProperty.createFormControl, ByModelProperty.boundProperty.
    rewrite Hg, Hp, (eqb_empty_false p Hne).
    match goal with
    | |- context [ByModelProperty.handleOutputs e ?s] =>
        pose proof (handleOutputs_shared_A e s) as Hsh;
        destruct (handleOutputs_keeps_control_A e s) as [Hctl _];
        destruct (FactsA.handleOutputs_same_view_A e s) as (_ & Href & Hcont);
        generalize dependent (ByModelProperty.handleOutputs e s)
    end.
    intros st' Hsh Hctl Href Hcont. rewrite Hsh.
    match type of Hctl with
    | context [ByModelProperty.removeHostElement ?s] =>
        destruct (removeHostElement_keeps_A s) as (Hw1 & Hw2 & Hw3 & Hself);
        pose proof (removeHostElement_detaches_A s) as Hhost;
        rewrite Hself in Hctl, Href, Hcont; rewrite Hw1;
        cbn in Hctl, Href, Hcont, Hw2, Hw3
    end.
    cbn [viewModel ByModelProperty.shared ByModelProperty.on_self
         ByModelProperty.created_in].
    rewrite Hvm.
    rewrite (getModelPropertyValue_no_segment _ p VNull Hne Hm).
    cbn [fst]. intros Hcons.
    destruct (FactsA.ngOnChanges_after_creation_A js_eval e st' _ Hcons Href)
      as (st'' & Hnext & Hre).
    exists st', st''. rewrite Hsh, Hcont, Href, Hhost, Hw2, Hw3, Hctl.
    repeat split; try done.
    destruct Hre as (_ & _ & _ & _ & _ & _ & _ & -> & _). by rewrite Hctl.
  - intros e w g attrs name c Hload Hv Hg Hattrs Htruthy Hname Hne Hm Hvm.
    pose proof (FactsB.ngOnChanges_consistent_B js_eval e
                  (ByNameAttribute.created_in w) eq_refl) as Hcons.
    revert Hcons.
    unfold ByNameAttribute.ngOnChanges at 1 2. rewrite Hload.
    unfold ByNameAttribute.createComponent.
    cbn [ByNameAttribute.created_in ByNameAttribute.on_self
         ByNameAttribute.self ByNameAttribute.shared ByNameAttribute.initial
         ByNameAttribute.set_component ByNameAttribute._component
         ByNameAttribute._componentRef ByNameAttribute._formControlDirective].
    rewrite Hv.
    unfold ByNameAttribute.createFormControl, ByNameAttribute.bindsControl.
    cbn [ByNameAttribute.shared ByNameAttribute.on_self viewModel
         ByNameAttribute.created_in].
    rewrite Hg, Hattrs, Htruthy, Hname, Hvm.
    cbn [is_string andb].
    match goal with
    | |- context [ByNameAttribute.handleOutputs e ?s] =>
        pose proof (handleOutputs_shared_B e s) as Hsh;
        destruct (handleOutputs_keeps_control_B e s) as [Hctl _];
        destruct (FactsB.handleOutputs_same_view_B e s) as (_ & Href & Hcont);
        generalize dependent (ByNameAttribute.handleOutputs e s)
    end.
    intros st' Hsh Hctl Href Hcont. rewrite Hsh.
    match type of Hctl with
    | context [ByNameAttribute.removeHostElement ?s] =>
        destruct (removeHostElement_keeps_B s) as (Hw1 & Hw2 & Hw3 & Hself);
        pose proof (removeHostElement_detaches_B s) as Hhost;
        rewrite Hself in Hctl, Href, Hcont; rewrite Hw1;
        cbn in Hctl, Href, Hcont, Hw2, Hw3
    end.
    cbn [viewModel ByNameAttribute.shared ByNameAttribute.on_self
         ByNameAttribute.created_in].
    rewrite Hname, Hvm.
    rewrite (getModelPropertyValue_no_segment _ name VNull Hne Hm).
    cbn [fst]. intros Hcons.
    destruct (FactsB.ngOnChanges_after_creation_B js_eval e st' _ Hcons Href)
      as (st'' & Hnext & Hre).
    exists st', st''. rewrite Hsh, Hcont, Href, Hhost, Hw2, Hw3, Hctl.
    repeat split; try done.
    destruct Hre as (_ & _ & _ & _ & _ & _ & _ & -> & _). by rewrite Hctl.
Qed.

Lemma ngOnChanges_rejects_unreadable_name_witness :
  (ByModelProperty.ngOnChanges Samples.no_eval Samples.env_delimiters
     (ByModelProperty.created_in (Samples.world_of Samples.person))).2
  = Throw TypeError.
Proof.
  destruct (proj1 (ngOnChanges_rejects_unreadable_name Samples.no_eval)
              Samples.env_delimiters (Samples.world_of Samples.person)
              1%positive "." Samples.MyDynamicComponent1)
    as (st' & st'' & Hrej & _).
  - vm_compute. reflexivity.
  - reflexivity.
  - reflexivity.
  - reflexivity.
  - discriminate.
  - reflexivity.
  - reflexivity.
  - by rewrite Hrej.
Defined.

(** ** The subscriber of the form group *)

Lemma regex_match_segment s : segment s = true → regex_match s = Some [s].
Proof.
  intros Hs. unfold regex_match.
  pose proof (runs_dotted [s]) as Hruns. cbn [dotted] in Hruns.
  rewrite Hruns; [done|]. by apply Forall_singleton.
Qed.

Lemma member_getRawValue cs (grp : gmap string positive) name :
  member (getRawValue cs grp) name
  = default VUndefined (grp !! name ≫= λ a, fc_value <$> cs !! a).
Proof.
  unfold getRawValue. cbn [member]. rewrite lookup_omap.
  destruct (grp !! name) as [a|]; cbn; [|done].
  by destruct (cs !! a).
Qed.

Lemma assign_one cls props key v :
  assign (VObj cls props) [key] v = Ok (VObj cls (<[key := v]> props)).
Proof.
  rewrite assign_last. run_js.
  destruct (member (VObj cls props) key); run_js; by rewrite ?insert_insert_eq.
Qed.

(** X15.  In the first revision, when [modelProperty] is a single segment
    (no ['.'], ['['] or [']']), the subscriber of the form group does what it
    is there for: the view model becomes a clone of itself in which the
    property of that name holds the value of the control registered under
    the name, [null] standing for a [null] or [undefined] value; every other
    property of the clone is as it was. *)
Theorem onFormGroupValueChanges_on_plain_name (e : ByModelProperty.env)
    (st : ByModelProperty.state) g p (grp : gmap string positive) a c cls props :
  ByModelProperty.formGroup e = Some g →
  ByModelProperty.modelProperty (ByModelProperty.configuration e) = Some p →
  segment p = true →
  groups (ByModelProperty.shared st) !! g = Some grp →
  grp !! p = Some a →
  controls (ByModelProperty.shared st) !! a = Some c →
  structuredClone (viewModel (ByModelProperty.shared st)) = Ok (VObj cls props) →
  ByModelProperty.onFormGroupValueChanges e st
  = Ok (ByModelProperty.on_shared
          (set_viewModel
             (VObj cls
                (<[p := if nullish (fc_value c) then VNull else fc_value c]>
                   props)))
          st).
Proof.
  intros Hg Hp Hseg Hgrp Ha Hc Hclone.
  pose proof (regex_match_segment p Hseg) as Hm.
  unfold ByModelProperty.onFormGroupValueChanges.
  rewrite Hg, Hgrp, Hp. change (default ∅ (Some grp)) with grp.
  replace (truthy (getRawValue (controls (ByModelProperty.shared st)) grp))
    with true by done.
  rewrite (getModelPropertyValue_segments _ p [p] VNull Hm).
  rewrite walk_cons. unfold step.
  replace (truthy (getRawValue (controls (ByModelProperty.shared st)) grp))
    with true by done.
  cbn [walk fold_left]. rewrite member_getRawValue, Ha. cbn [mbind option_bind].
  rewrite Hc. change (default VUndefined (fc_value <$> Some c)) with (fc_value c).
  cbn [rbind]. rewrite Hclone. cbn [rbind].
  unfold setModelPropertyValue. cbn [pathArray]. rewrite Hm, assign_one.
  done.
Qed.

Lemma onFormGroupValueChanges_on_plain_name_witness :
  ByModelProperty.onFormGroupValueChanges Samples.env_flat Samples.typed_flat
  = Ok (ByModelProperty.on_shared
          (set_viewModel
             (VObj Plain
                (<["firstName" := VStr "Ann"]>
                   {[ "firstName" := VStr "Jhon" ]})))
          Samples.typed_flat).
Proof.
  apply (onFormGroupValueChanges_on_plain_name Samples.env_flat
           Samples.typed_flat 1%positive "firstName"
           {[ "firstName" := 1%positive ]} 1%positive
           (newFormControl (VStr "Ann")) Plain
           {[ "firstName" := VStr "Jhon" ]});
    vm_compute; reflexivity.
Defined.







(** ** The component's own control after [ngOnChanges()] *)

Lemma setInputs_closed_W js_eval e w i :
  ByWrittenName.setInputs js_eval e
    {| ByModelProperty.shared := w; ByModelProperty.self := i |}
  = {| ByModelProperty.shared := w;
       ByModelProperty.self :=
         ByModelProperty.set_componentRef
           ((λ r,
               match ByNameAttribute.inputs (ByNameAttribute.configuration e) with
               | Some ins =>
                   for_in
                     (λ inputName v,
                        setInput inputName
                          (ByWrittenName.evaluateExpression js_eval v
                             (viewModel w) VUndefined))
                     ins r
               | None => r
               end) <$> ByModelProperty._componentRef i) i |}.
Proof.
  destruct i as [ref ? ? ? ? ? ?]. unfold ByWrittenName.setInputs.
  by destruct (ByNameAttribute.inputs _), ref.
Qed.

Lemma setAttributes_closed_W js_eval e w i :
  ByWrittenName.setAttributes js_eval e
    {| ByModelProperty.shared := w; ByModelProperty.self := i |}
  = {| ByModelProperty.shared := w;
       ByModelProperty.self :=
         ByModelProperty.set_componentRef
           ((λ r,
               match ByNameAttribute.attributes (ByNameAttribute.configuration e) with
               | Some attrs =>
                   for_in
                     (λ attributeName v,
                        setAttribute attributeName
                          (ByWrittenName.evaluateExpression js_eval v
                             (viewModel w) VUndefined))
                     attrs r
               | None => r
               end) <$> ByModelProperty._componentRef i) i |}.
Proof.
  destruct i as [ref ? ? ? ? ? ?]. unfold ByWrittenName.setAttributes.
  by destruct (ByNameAttribute.attributes _), ref.
Qed.

Lemma setFormControlStatus_closed_W js_eval e w i :
  ByWrittenName.setFormControlStatus js_eval e
    {| ByModelProperty.shared := w; ByModelProperty.self := i |}
  = {| ByModelProperty.shared :=
         set_controls
           match ByModelProperty._formControl i,
                 ByNameAttribute.attributes (ByNameAttribute.configuration e) with
           | Some a, Some attrs =>
               alter
                 (λ c,
                    if negb (nullish (ByWrittenName.attribute attrs "disabled"))
                    then setDisabled
                           (truthy
                              (ByWrittenName.evaluateExpression js_eval
                                 (ByWrittenName.attribute attrs "disabled")
                                 (viewModel w) VUndefined)) c
                    else c)
                 a (controls w)
           | _, _ => controls w
           end w;
       ByModelProperty.self := i |}.
Proof.
  destruct w as [vm cs gs h]. unfold ByWrittenName.setFormControlStatus.
  cbn [ByModelProperty.self ByModelProperty.shared].
  destruct (ByModelProperty._formControl i) as [a|]; [|done].
  destruct (ByNameAttribute.attributes _) as [attrs|]; [|done].
  destruct (nullish _); cbn; [|done].
  by rewrite (alter_id (λ c, c)).
Qed.

Lemma setFormControlValidators_closed_W js_eval e w i :
  ByWrittenName.setFormControlValidators js_eval e
    {| ByModelProperty.shared := w; ByModelProperty.self := i |}
  = {| ByModelProperty.shared :=
         set_controls
           match ByModelProperty._formControl i,
                 ByNameAttribute.attributes (ByNameAttribute.configuration e) with
           | Some a, Some attrs =>
               alter
                 (λ c,
                    addValidators
                      (ByWrittenName.validators js_eval (viewModel w) attrs)
                      (clearValidators c))
                 a (controls w)
           | _, _ => controls w
           end w;
       ByModelProperty.self := i |}.
Proof.
  destruct w as [vm cs gs h]. unfold ByWrittenName.setFormControlValidators.
  cbn [ByModelProperty.self ByModelProperty.shared].
  destruct (ByModelProperty._formControl i) as [a|]; [|done].
  by destruct (ByNameAttribute.attributes _) as [attrs|].
Qed.

(** X18.  After an [ngOnChanges()] that fulfils, the validators of the
    component's own control are exactly the list computed from the present
    configuration and view model, whatever validators the control had
    before (they are cleared, not added to), and when [disabled] is
    configured the control is disabled exactly when its evaluation is
    truthy.  This holds in the first revision, which reads the fields of the
    configuration, and in the revision in between, which reads the
    attributes when there are any. *)
Theorem own_control_after_ngOnChanges (js_eval : evaluator) :
  (∀ (e : ByModelProperty.env) st st' a c',
     ByModelProperty.ngOnChanges js_eval e st = (st', Ok ()) →
     ByModelProperty._formControl (ByModelProperty.self st') = Some a →
     controls (ByModelProperty.shared st') !! a = Some c' →
     let vm := viewModel (ByModelProperty.shared st') in
     let cfg := ByModelProperty.configuration e in
     fc_validators c' = ByModelProperty.validators js_eval e vm
     ∧ (nullish (ByModelProperty.disabled cfg) = false →
        fc_disabled c'
        = truthy (ByModelProperty.evaluateExpression js_eval
                    (ByModelProperty.disabled cfg) vm VUndefined)))
  ∧ (∀ (e : ByNameAttribute.env) st st' a c' attrs,
       ByWrittenName.ngOnChanges js_eval e st = (st', Ok ()) →
       ByModelProperty._formControl (ByModelProperty.self st') = Some a →
       controls (ByModelProperty.shared st') !! a = Some c' →
       ByNameAttribute.attributes (ByNameAttribute.configuration e) = Some attrs →
       let vm := viewModel (ByModelProperty.shared st') in
       fc_validators c' = ByWrittenName.validators js_eval vm attrs
       ∧ (nullish (ByWrittenName.attribute attrs "disabled") = false →
          fc_disabled c'
          = truthy (ByWrittenName.evaluateExpression js_eval
                      (ByWrittenName.attribute attrs "disabled") vm VUndefined))).
Proof.
  split.
  - intros e st st' a c'. unfold ByModelProperty.ngOnChanges.
    destruct (ByModelProperty.loadComponentAsync e st) as [st1|err]; [|done].
    destruct (ByModelProperty.createComponent e st1) as [[w i] [[]|err]]; [|done].
    rewrite reapply_chain_closed_A. intros [= <-].
    destruct w as [vm cs gs h], i as [ref subs ctl dir sub cmp views].
    cbn [ByModelProperty.self ByModelProperty.shared ByModelProperty._formControl
         ByModelProperty.set_componentRef set_controls controls viewModel].
    intros -> Hc'. cbn zeta. rewrite !lookup_alter_eq in Hc'.
    destruct (cs !! a) as [c|]; [|done]. cbn in Hc'. inversion Hc' as [Heq].
    split; [done|]. intros ->. done.
  - intros e st st' a c' attrs. unfold ByWrittenName.ngOnChanges.
    destruct (ByWrittenName.loadComponentAsync e st) as [st1|err]; [|done].
    destruct (ByWrittenName.createComponent e st1) as [[w i] [[]|err]]; [|done].
    rewrite setInputs_closed_W, setAttributes_closed_W,
      setFormControlStatus_closed_W, setFormControlValidators_closed_W.
    intros [= <-].
    destruct w as [vm cs gs h], i as [ref subs ctl dir sub cmp views].
    cbn [ByModelProperty.self ByModelProperty.shared ByModelProperty._formControl
         ByModelProperty.set_componentRef set_controls controls viewModel].
    intros -> Hc' Hattrs. rewrite Hattrs in Hc'. cbn zeta.
    rewrite !lookup_alter_eq in Hc'.
    destruct (cs !! a) as [c|]; [|done]. cbn in Hc'. inversion Hc' as [Heq].
    split; [done|]. intros ->. done.
Qed.

(** The README component of the revision in between: its control gets the
    pattern validator. *)
Lemma own_control_after_ngOnChanges_witness :
  [Vpattern (VStr "^J")]
  = ByWrittenName.validators Samples.no_eval Samples.person
      {[ "name" := VStr "data.firstName"; "pattern" := VStr "^J" ]}.
Proof.
  apply (proj2 (own_control_after_ngOnChanges Samples.no_eval)
           Samples.env_B Samples.fresh_A
           (ByWrittenName.ngOnChanges Samples.no_eval Samples.env_B
              Samples.fresh_A).1
           1%positive
           {| fc_value := VStr "Jhon";
              fc_validators := [Vpattern (VStr "^J")];
              fc_disabled := false |}
           {[ "name" := VStr "data.firstName"; "pattern" := VStr "^J" ]});
    vm_compute; reflexivity.
Defined.

(** ** What a lookup can find *)




(** ** The directive and the control *)

Lemma createFormControl_wires_A e st ref :
  ByModelProperty._componentRef (ByModelProperty.self st) = Some ref →
  ByModelProperty._formControl (ByModelProperty.self st) = None →
  ByModelProperty._formControlDirective (ByModelProperty.self st) = None →
  ∀ a,
    ByModelProperty._formControl
      (ByModelProperty.self (ByModelProperty.createFormControl e st).1) = Some a →
    ByModelProperty._formControlDirective
      (ByModelProperty.self (ByModelProperty.createFormControl e st).1)
    = Some {| fcd_form := Some a |}.
Proof.
  intros Href Hctl Hdir a. unfold ByModelProperty.createFormControl.
  destruct (ByModelProperty.formGroup e) as [g|]; [|cbn [fst]; by rewrite Hctl].
  destruct (ByModelProperty.boundProperty e) as [p|]; [|cbn [fst]; by rewrite Hctl].
  destruct (truthy _); [|cbn [fst]; by rewrite Hctl].
  destruct (getModelPropertyValue _ _ _) as [init|err]; [|cbn [fst]; by rewrite Hctl].
  destruct st as [w [r subs ctl dir sub cmp views]]. cbn in Href, Hctl, Hdir.
  subst. cbn. by intros [= ->].
Qed.

Lemma createFormControl_wires_B js_eval e st ref :
  ByNameAttribute._componentRef (ByNameAttribute.self st) = Some ref →
  ByNameAttribute._formControl (ByNameAttribute.self st) = None →
  (ByNameAttribute.bindsControl js_eval e st = true →
   ByNameAttribute._formControlDirective (ByNameAttribute.self st) ≠ None) →
  ∀ a,
    ByNameAttribute._formControl
      (ByNameAttribute.self (ByNameAttribute.createFormControl js_eval e st).1)
    = Some a →
    ByNameAttribute._formControlDirective
      (ByNameAttribute.self (ByNameAttribute.createFormControl js_eval e st).1)
    = Some {| fcd_form := Some a |}.
Proof.
  intros Href Hctl Hdir a.
  unfold ByNameAttribute.createFormControl, ByNameAttribute.bindsControl in *.
  destruct (ByNameAttribute.formGroup e) as [g|]; [|cbn [fst]; by rewrite Hctl].
  destruct (ByNameAttribute.attributes (ByNameAttribute.configuration e))
    as [attrs|]; [|cbn [fst]; by rewrite Hctl].
  destruct (truthy (ByNameAttribute.attribute attrs "name")); cbn [andb] in *;
    [|cbn [fst]; by rewrite Hctl].
  destruct (truthy (viewModel (ByNameAttribute.shared st)));
    [|cbn [fst]; by rewrite Hctl].
  destruct (ByNameAttribute.evaluateExpression _ _ _ _) as [| | | |name|];
    try (cbn [fst]; by rewrite Hctl).
  destruct (getModelPropertyValue _ _ _) as [init|err]; [|cbn [fst]; by rewrite Hctl].
  cbn in Hdir. specialize (Hdir eq_refl).
  destruct st as [w [r subs ctl dir sub cmp views]]. cbn in Href, Hctl, Hdir.
  subst. destruct dir as [d|]; [|done]. cbn. by intros [= ->].
Qed.

(** The invariant: without a component reference there is no control, and
    the directive belongs to the control (in the first revision, there is no
    directive without a control). *)
Lemma ngOnChanges_wired_A js_eval e st :
  (ByModelProperty._componentRef (ByModelProperty.self st) = None →
   ByModelProperty._formControl (ByModelProperty.self st) = None
   ∧ ByModelProperty._formControlDirective (ByModelProperty.self st) = None) →
  (∀ a, ByModelProperty._formControl (ByModelProperty.self st) = Some a →
        ByModelProperty._formControlDirective (ByModelProperty.self st)
        = Some {| fcd_form := Some a |}) →
  let st' := (ByModelProperty.ngOnChanges js_eval e st).1 in
  (ByModelProperty._componentRef (ByModelProperty.self st') = None →
   ByModelProperty._formControl (ByModelProperty.self st') = None
   ∧ ByModelProperty._formControlDirective (ByModelProperty.self st') = None)
  ∧ (∀ a, ByModelProperty._formControl (ByModelProperty.self st') = Some a →
          ByModelProperty._formControlDirective (ByModelProperty.self st')
          = Some {| fcd_form := Some a |}).
Proof.
  intros Hnone Hsome. cbn zeta. unfold ByModelProperty.ngOnChanges.
  destruct (ByModelProperty.loadComponentAsync e st) as [st1|err] eqn:Hload;
    [|done].
  assert (ByModelProperty._componentRef (ByModelProperty.self st1)
          = ByModelProperty._componentRef (ByModelProperty.self st)
          ∧ ByModelProperty._formControl (ByModelProperty.self st1)
            = ByModelProperty._formControl (ByModelProperty.self st)
          ∧ ByModelProperty._formControlDirective (ByModelProperty.self st1)
            = ByModelProperty._formControlDirective (ByModelProperty.self st))
    as (Hr1 & Hc1 & Hd1).
  { by apply FactsA.loadComponentAsync_cases_A in Hload as [->|[_ [c ->]]]. }
  assert ((ByModelProperty._componentRef
             (ByModelProperty.self (ByModelProperty.createComponent e st1).1)
           = None →
           ByModelProperty._formControl
             (ByModelProperty.self (ByModelProperty.createComponent e st1).1)
           = None
           ∧ ByModelProperty._formControlDirective
               (ByModelProperty.self (ByModelProperty.createComponent e st1).1)
             = None)
          ∧ (∀ a,
               ByModelProperty._formControl
                 (ByModelProperty.self (ByModelProperty.createComponent e st1).1)
               = Some a →
               ByModelProperty._formControlDirective
                 (ByModelProperty.self (ByModelProperty.createComponent e st1).1)
               = Some {| fcd_form := Some a |})) as Hcreated.
  { assert ((ByModelProperty._componentRef (ByModelProperty.self st1) = None →
             ByModelProperty._formControl (ByModelProperty.self st1) = None
             ∧ ByModelProperty._formControlDirective (ByModelProperty.self st1)
               = None)
            ∧ (∀ a,
                 ByModelProperty._formControl (ByModelProperty.self st1) = Some a →
                 ByModelProperty._formControlDirective (ByModelProperty.self st1)
                 = Some {| fcd_form := Some a |})) as Hst1
      by by rewrite Hr1, Hc1, Hd1.
    unfold ByModelProperty.createComponent.
    destruct (ByModelProperty._component (ByModelProperty.self st1)) as [c|];
      [|exact Hst1].
    destruct (ByModelProperty._componentRef (ByModelProperty.self st1))
      as [r|] eqn:Href1; [cbn [fst]; rewrite Href1; exact Hst1|].
    destruct (ByModelProperty._viewContainerRef e);
      [|cbn [fst]; rewrite Href1; exact Hst1].
    clear Hst1.
    assert (ByModelProperty._componentRef (ByModelProperty.self st) = None)
      as Href0 by congruence.
    destruct (Hnone Href0) as [Hc0 Hd0].
    match goal with
    | |- context [ByModelProperty.createFormControl e ?s] =>
        destruct (FactsA.createFormControl_same_view_A e s) as (_ & Href' & _);
        pose proof (createFormControl_wires_A e s) as Hwires;
        destruct (FactsA.handleOutputs_same_view_A e
                    ltac:(match s with
                          | ByModelProperty.handleOutputs _ ?s0 => exact s0
                          end)) as (_ & Href'' & _);
        destruct (handleOutputs_keeps_control_A e
                    ltac:(match s with
                          | ByModelProperty.handleOutputs _ ?s0 => exact s0
                          end)) as (Hctl'' & Hdir'')
    end.
    match type of Hctl'' with
    | context [ByModelProperty.removeHostElement ?s0] =>
        destruct (removeHostElement_keeps_A s0) as (_ & _ & _ & Hself);
        rewrite Hself in Href'', Hctl'', Hdir''
    end.
    cbn in Href'', Hctl'', Hdir''. rewrite Hc1, Hc0 in Hctl''.
    rewrite Hd1, Hd0 in Hdir''.
    split.
    - rewrite Href', Href''. done.
    - by eapply Hwires. }
  destruct (ByModelProperty.createComponent e st1) as [st2 [[]|err]];
    cbn [fst] in *; [|done].
  destruct (FactsA.reapply_chain_A js_eval e st2)
    as (_ & _ & _ & _ & _ & _ & _ & Hc & Hd & _ & _ & Hty & _).
  rewrite Hc, Hd. destruct Hcreated as [Hn Hs]. split; [|done].
  intros Href. apply Hn.
  destruct (ByModelProperty._componentRef (ByModelProperty.self st2)); [|done].
  by rewrite Href in Hty.
Qed.

Lemma ngOnChanges_wired_B js_eval e st :
  (ByNameAttribute._componentRef (ByNameAttribute.self st) = None →
   ByNameAttribute._formControl (ByNameAttribute.self st) = None) →
  (∀ a, ByNameAttribute._formControl (ByNameAttribute.self st) = Some a →
        ByNameAttribute._formControlDirective (ByNameAttribute.self st)
        = Some {| fcd_form := Some a |}) →
  let st' := (ByNameAttribute.ngOnChanges js_eval e st).1 in
  (ByNameAttribute._componentRef (ByNameAttribute.self st') = None →
   ByNameAttribute._formControl (ByNameAttribute.self st') = None)
  ∧ (∀ a, ByNameAttribute._formControl (ByNameAttribute.self st') = Some a →
          ByNameAttribute._formControlDirective (ByNameAttribute.self st')
          = Some {| fcd_form := Some a |}).
Proof.
  intros Hnone Hsome. cbn zeta. unfold ByNameAttribute.ngOnChanges.
  destruct (ByNameAttribute.loadComponentAsync e st) as [st1|err] eqn:Hload;
    [|done].
  assert ((ByNameAttribute._componentRef (ByNameAttribute.self st1) = None →
           ByNameAttribute._formControl (ByNameAttribute.self st1) = None)
          ∧ (∀ a,
               ByNameAttribute._formControl (ByNameAttribute.self st1) = Some a →
               ByNameAttribute._formControlDirective (ByNameAttribute.self st1)
               = Some {| fcd_form := Some a |})) as Hst1.
  { by apply FactsB.loadComponentAsync_cases_B in Hload as [->|[_ [c ->]]]. }
  clear Hnone Hsome Hload.
  assert ((ByNameAttribute._componentRef
             (ByNameAttribute.self
                (ByNameAttribute.createComponent js_eval e st1).1) = None →
           ByNameAttribute._formControl
             (ByNameAttribute.self
                (ByNameAttribute.createComponent js_eval e st1).1) = None)
          ∧ (∀ a,
               ByNameAttribute._formControl
                 (ByNameAttribute.self
                    (ByNameAttribute.createComponent js_eval e st1).1) = Some a →
               ByNameAttribute._formControlDirective
                 (ByNameAttribute.self
                    (ByNameAttribute.createComponent js_eval e st1).1)
               = Some {| fcd_form := Some a |})) as Hcreated.
  { unfold ByNameAttribute.createComponent.
    destruct (ByNameAttribute._component (ByNameAttribute.self st1)) as [c|];
      [|exact Hst1].
    destruct (ByNameAttribute._componentRef (ByNameAttribute.self st1))
      as [r|] eqn:Href1; [cbn [fst]; rewrite Href1; exact Hst1|].
    destruct (ByNameAttribute._formControlDirective (ByNameAttribute.self st1))
      as [d|] eqn:Hdir1;
      [cbn [fst]; rewrite Href1, Hdir1; exact Hst1|].
    destruct (ByNameAttribute._viewContainerRef e);
      [|cbn [fst]; rewrite Href1, Hdir1; exact Hst1].
    destruct Hst1 as [Hc0 _]. specialize (Hc0 eq_refl).
    assert (∀ s,
      viewModel (ByNameAttribute.shared s)
      = viewModel (ByNameAttribute.shared st1) →
      ByNameAttribute.bindsControl js_eval e s
      = ByNameAttribute.bindsControl js_eval e st1) as Hsame.
    { intros s Hs. unfold ByNameAttribute.bindsControl. by rewrite Hs. }
    destruct (ByNameAttribute.bindsControl js_eval e st1) eqn:Hbound;
    (match goal with
     | |- context [ByNameAttribute.createFormControl js_eval e ?s] =>
         destruct (FactsB.createFormControl_same_view_B js_eval e s)
           as (_ & Href' & _);
         pose proof (createFormControl_wires_B js_eval e s) as Hwires;
         pose proof (handleOutputs_shared_B e
                       ltac:(match s with
                             | ByNameAttribute.handleOutputs _ ?s0 => exact s0
                             end)) as Hsh;
         destruct (FactsB.handleOutputs_same_view_B e
                     ltac:(match s with
                           | ByNameAttribute.handleOutputs _ ?s0 => exact s0
                           end)) as (_ & Href'' & _);
         destruct (handleOutputs_keeps_control_B e
                     ltac:(match s with
                           | ByNameAttribute.handleOutputs _ ?s0 => exact s0
                           end)) as (Hctl'' & Hdir'')
     end);
    (match type of Hctl'' with
     | context [ByNameAttribute.removeHostElement ?s0] =>
         destruct (removeHostElement_keeps_B s0) as (Hvm & _ & _ & Hself);
         rewrite Hself in Href'', Hctl'', Hdir''
     end);
    cbn in Href'', Hctl'', Hdir'', Hvm;
    (split; [by rewrite Href', Href''|]);
    (eapply Hwires; [by rewrite Href''|by rewrite Hctl''; rewrite Hc0|]);
    rewrite Hsame by (by rewrite Hsh, Hvm);
    by rewrite ?Hdir''. }
  destruct (ByNameAttribute.createComponent js_eval e st1) as [st2 [[]|err]];
    cbn [fst] in *; [|done].
  destruct (FactsB.reapply_chain_B js_eval e st2)
    as (_ & _ & _ & _ & _ & _ & _ & Hc & Hd & _ & _ & Hty & _).
  rewrite Hc, Hd. destruct Hcreated as [Hn Hs]. split; [|done].
  intros Href. apply Hn.
  destruct (ByNameAttribute._componentRef (ByNameAttribute.self st2)); [|done].
  by rewrite Href in Hty.
Qed.

(** X20.  The directive belongs to the control: over any sequence of
    [ngOnChanges()] calls and outside changes on a new component, whenever
    the component has a form control, its [FormControlDirective] exists and
    its [form] is that control; and a component without a component
    reference has no form control. *)
Theorem directive_holds_own_control (js_eval : evaluator) :
  (∀ w evs,
     let st := ByModelProperty.run js_eval evs (ByModelProperty.created_in w) in
     (ByModelProperty._componentRef (ByModelProperty.self st) = None →
      ByModelProperty._formControl (ByModelProperty.self st) = None)
     ∧ ∀ a, ByModelProperty._formControl (ByModelProperty.self st) = Some a →
            ByModelProperty._formControlDirective (ByModelProperty.self st)
            = Some {| fcd_form := Some a |})
  ∧ (∀ w evs,
       let st := ByNameAttribute.run js_eval evs (ByNameAttribute.created_in w) in
       (ByNameAttribute._componentRef (ByNameAttribute.self st) = None →
        ByNameAttribute._formControl (ByNameAttribute.self st) = None)
       ∧ ∀ a, ByNameAttribute._formControl (ByNameAttribute.self st) = Some a →
              ByNameAttribute._formControlDirective (ByNameAttribute.self st)
              = Some {| fcd_form := Some a |}).
Proof.
  split; intros w evs; cbn zeta.
  - assert (∀ st,
      (ByModelProperty._componentRef (ByModelProperty.self st) = None →
       ByModelProperty._formControl (ByModelProperty.self st) = None
       ∧ ByModelProperty._formControlDirective (ByModelProperty.self st) = None) →
      (∀ a, ByModelProperty._formControl (ByModelProperty.self st) = Some a →
            ByModelProperty._formControlDirective (ByModelProperty.self st)
            = Some {| fcd_form := Some a |}) →
      (ByModelProperty._componentRef
         (ByModelProperty.self (ByModelProperty.run js_eval evs st)) = None →
       ByModelProperty._formControl
         (ByModelProperty.self (ByModelProperty.run js_eval evs st)) = None
       ∧ ByModelProperty._formControlDirective
           (ByModelProperty.self (ByModelProperty.run js_eval evs st)) = None)
      ∧ (∀ a,
           ByModelProperty._formControl
             (ByModelProperty.self (ByModelProperty.run js_eval evs st)) = Some a →
           ByModelProperty._formControlDirective
             (ByModelProperty.self (ByModelProperty.run js_eval evs st))
           = Some {| fcd_form := Some a |})) as Hrun.
    { induction evs as [|ev evs IH]; intros st Hn Hs; [done|].
      change (ByModelProperty.run js_eval (ev :: evs) st)
        with (ByModelProperty.run js_eval evs (ByModelProperty.react js_eval st ev)).
      destruct ev as [e|f]; [|by apply IH].
      destruct (ngOnChanges_wired_A js_eval e st Hn Hs) as [Hn' Hs'].
      by apply IH. }
    destruct (Hrun (ByModelProperty.created_in w)) as [Hn Hs]; [done|done|].
    split; [|done]. intros Href. by destruct (Hn Href).
  - revert w.
    assert (∀ st,
      (ByNameAttribute._componentRef (ByNameAttribute.self st) = None →
       ByNameAttribute._formControl (ByNameAttribute.self st) = None) →
      (∀ a, ByNameAttribute._formControl (ByNameAttribute.self st) = Some a →
            ByNameAttribute._formControlDirective (ByNameAttribute.self st)
            = Some {| fcd_form := Some a |}) →
      (ByNameAttribute._componentRef
         (ByNameAttribute.self (ByNameAttribute.run js_eval evs st)) = None →
       ByNameAttribute._formControl
         (ByNameAttribute.self (ByNameAttribute.run js_eval evs st)) = None)
      ∧ (∀ a,
           ByNameAttribute._formControl
             (ByNameAttribute.self (ByNameAttribute.run js_eval evs st)) = Some a →
           ByNameAttribute._formControlDirective
             (ByNameAttribute.self (ByNameAttribute.run js_eval evs st))
           = Some {| fcd_form := Some a |})) as Hrun.
    { induction evs as [|ev evs IH]; intros st Hn Hs; [done|].
      change (ByNameAttribute.run js_eval (ev :: evs) st)
        with (ByNameAttribute.run js_eval evs (ByNameAttribute.react js_eval st ev)).
      destruct ev as [e|f]; [|by apply IH].
      destruct (ngOnChanges_wired_B js_eval e st Hn Hs) as [Hn' Hs'].
      by apply IH. }
    intros w. by apply Hrun.
Qed.

Lemma directive_holds_own_control_witness :
  ByModelProperty._formControlDirective
    (ByModelProperty.self
       (ByModelProperty.run Samples.no_eval
          [ByModelProperty.Changes Samples.env_A]
          (ByModelProperty.created_in (Samples.world_of Samples.person))))
  = Some {| fcd_form := Some 1%positive |}.
Proof.
  apply (proj2 (proj1 (directive_holds_own_control Samples.no_eval)
                  (Samples.world_of Samples.person)
                  [ByModelProperty.Changes Samples.env_A])).
  vm_compute. reflexivity.
Defined.

(** ** The created element after [ngOnChanges()] *)


